(** * shillelagh: the Google Sheets adapter (adapters/api/gsheets.py)

    A shallow embedding of the adapter and the properties of its
    specification.

    Conventions of the embedding.
    - A Python [str] is a Rocq [string]; each character stands for the code
      point of the same number (0 to 255).
    - A Python object of dynamic type (a JSON payload, a cell, a row) is a
      [value]; operations on it fail with the exception Python raises.
    - A Python [int] is a [Z]. Reading one from a text and writing one as a
      text are subject to the limit of the interpreter on the number of
      digits ([Py.int_max_str_digits], 4300 by default).
    - A function that may raise returns a [res]; a method that also reads or
      writes the adapter, the dict objects it shares with its caller, or the
      network is a state transformer [M] that keeps the state reached when
      the exception is raised.
    - The Python standard library ([urllib.parse], [datetime.astimezone],
      JSON decoding) and the modules of shillelagh outside this file
      ([build_sql], the filters) are parameters of the sections that use
      them; a model of [urllib.parse] (the one of CPython 3.11) and a
      translator written from the specification instantiate them in the
      examples. Where the C library shows ([strftime]), it is glibc.
    - Embedded: the fields [GSheetsDateTime], [GSheetsDate] and
      [GSheetsTime], [get_field], [format_error_message], [get_url], and the
      methods [_run_query], [_set_columns], [get_columns], [get_data],
      [insert_data], [_find_row_number], [delete_data] and [update_data] of
      [GSheetsAPI]; and, with the credentials and the sessions of
      [google.auth] as parameters, [get_credentials], [supports],
      [_get_session], [_set_metadata] and the constructor. The attributes
      the constructor sets are fields of the adapter's record. *)

From Stdlib Require Import ZArith Ascii String List Bool Lia.
From stdpp Require Import base tactics option list gmap strings.

Open Scope string_scope.
Open Scope list_scope.
Open Scope Z_scope.

#[global] Arguments String.append !s1 s2 : simpl nomatch.

(** ** Characters and strings *)

Module Str.

Definition code (c : ascii) : Z := Z.of_N (N_of_ascii c).

Definition len (s : string) : Z := Z.of_nat (String.length s).

Fixpoint drop (n : nat) (s : string) : string :=
  match n, s with
  | O, _ => s
  | S n', String _ s' => drop n' s'
  | S _, EmptyString => EmptyString
  end.

Fixpoint take (n : nat) (s : string) : string :=
  match n, s with
  | O, _ => EmptyString
  | S n', String c s' => String c (take n' s')
  | S _, EmptyString => EmptyString
  end.

(** [s[lo:hi]]: a negative bound counts from the end, and both bounds are
    clamped to the string. *)
Definition slice (lo hi : option Z) (s : string) : string :=
  let n := len s in
  let norm i := if i <? 0 then Z.max (i + n) 0 else Z.min i n in
  let a := from_option norm 0 lo in
  let b := from_option norm n hi in
  take (Z.to_nat (b - a)) (drop (Z.to_nat a) s).

Definition startswith (p s : string) : bool := String.prefix p s.

Definition endswith (p s : string) : bool :=
  (String.length p <=? String.length s)%nat
  && String.eqb (drop (String.length s - String.length p) s) p.

(** [s.split(sep)] for a separator of one character. *)
Fixpoint split (sep : ascii) (s : string) : list string :=
  match s with
  | EmptyString => [EmptyString]
  | String c s' =>
      if Ascii.eqb c sep then EmptyString :: split sep s'
      else match split sep s' with
           | w :: ws => String c w :: ws
           | [] => [String c EmptyString]
           end
  end.

(** [s.split(sep, 1)]: the text before the first separator and, when there
    is one, the text after it. *)
Fixpoint split1 (sep : ascii) (s : string) : string * option string :=
  match s with
  | EmptyString => (EmptyString, None)
  | String c s' =>
      if Ascii.eqb c sep then (EmptyString, Some s')
      else let '(a, b) := split1 sep s' in (String c a, b)
  end.

Fixpoint lstrip (p : ascii -> bool) (s : string) : string :=
  match s with
  | String c s' => if p c then lstrip p s' else s
  | EmptyString => EmptyString
  end.

Fixpoint rstrip (p : ascii -> bool) (s : string) : string :=
  match s with
  | EmptyString => EmptyString
  | String c s' =>
      match rstrip p s' with
      | EmptyString => if p c then EmptyString else String c EmptyString
      | r => String c r
      end
  end.

(** Code points below 256 with the Unicode white-space property, the ones
    [str.strip()] removes. *)
Definition is_space (c : ascii) : bool :=
  let n := code c in
  ((9 <=? n) && (n <=? 13)) || ((28 <=? n) && (n <=? 32))
  || (n =? 133) || (n =? 160).

Definition strip (s : string) : string := rstrip is_space (lstrip is_space s).

Fixpoint join (sep : string) (l : list string) : string :=
  match l with
  | [] => EmptyString
  | [s] => s
  | s :: l' => s +:+ sep +:+ join sep l'
  end.

(** [sub in s] *)
Fixpoint contains (sub s : string) : bool :=
  String.prefix sub s ||
  match s with
  | EmptyString => false
  | String _ s' => contains sub s'
  end.

Definition mem (c : ascii) (s : string) : bool :=
  existsb (Ascii.eqb c) (list_ascii_of_string s).

(** [c.lower()] for an ASCII character. *)
Definition lower_char (c : ascii) : ascii :=
  let n := code c in
  if (65 <=? n) && (n <=? 90) then ascii_of_N (Z.to_N (n + 32)) else c.

Fixpoint map (f : ascii -> ascii) (s : string) : string :=
  match s with
  | EmptyString => EmptyString
  | String c s' => String (f c) (map f s')
  end.

Definition lower : string -> string := map lower_char.

End Str.

(** ** Python objects *)

Set Warnings "-register-all".

(** A Python [float] that is neither infinite nor a NaN is the number
    [m * 2 ^ e]; only equality and truth of floats are needed here. *)
Inductive pyfloat :=
| FNaN
| FInf (negative : bool)
| FFin (m e : Z).

Inductive value :=
| VNone
| VBool (b : bool)
| VInt (n : Z)
| VFloat (f : pyfloat)
| VStr (s : string)
| VList (l : list value)
| VDict (d : list (string * value)).

(** A dict keeps its keys in insertion order: an association list in which
    every key occurs once. *)
Definition odict (V : Type) := list (string * V).
Definition dict := odict value.

Module Dict.
Section Ops.
Context {V : Type}.

Fixpoint get (k : string) (d : odict V) : option V :=
  match d with
  | [] => None
  | (k', v) :: d' => if String.eqb k k' then Some v else get k d'
  end.

Definition contains (k : string) (d : odict V) : bool :=
  match get k d with Some _ => true | None => false end.

(** [d[k] = v]: an existing key keeps its place. *)
Fixpoint set (k : string) (v : V) (d : odict V) : odict V :=
  match d with
  | [] => [(k, v)]
  | (k', v') :: d' =>
      if String.eqb k k' then (k, v) :: d' else (k', v') :: set k v d'
  end.

(** [del d[k]] once the key is known to be there. *)
Fixpoint remove (k : string) (d : odict V) : odict V :=
  match d with
  | [] => []
  | (k', v') :: d' =>
      if String.eqb k k' then d' else (k', v') :: remove k d'
  end.

Definition keys (d : odict V) : list string := List.map fst d.
End Ops.
End Dict.

(** The pieces of an f-string: its literal text and the objects it formats
    (the text that [str] gives for a dict is not modelled, only whether it
    gives one: see [Py.formattable]). *)
Inductive fpiece :=
| Lit (s : string)
| Fmt (v : value).

(** The exceptions: the ones of Python, [ImpossibleFilterError] and
    [ProgrammingError] of [shillelagh.exceptions], what a session raises
    when a request does not go through, and [OutOfModel], which is no
    exception of Python: the embedding stops there, on an input that its
    types do not cover. *)
Inductive exn :=
| ValueError
| OverflowError
| TypeError
| KeyError (key : value)
| IndexError
| AttributeError
| JSONDecodeError
| ImpossibleFilterError
| ProgrammingError (message : list fpiece)
| TransportError (info : string)
| OutOfModel (why : string).

Inductive res (A : Type) :=
| Ok (a : A)
| Raise (e : exn).
Arguments Ok {A} a.
Arguments Raise {A} e.

#[global] Instance res_ret : MRet res := fun A a => Ok a.
#[global] Instance res_bind : MBind res := fun A B f m =>
  match m with
  | Ok a => f a
  | Raise e => Raise e
  end.

(** [[f(x) for x in l]]: the first exception stops the comprehension. *)
Fixpoint traverse {A B : Type} (f : A -> res B) (l : list A) : res (list B) :=
  match l with
  | [] => Ok []
  | x :: l' => y ← f x; ys ← traverse f l'; Ok (y :: ys)
  end.

Module Py.

Inductive num :=
| NInt (n : Z)
| NFloat (f : pyfloat).

(** [bool] is a subclass of [int]: [True == 1] and [False == 0]. *)
Definition as_num (v : value) : option num :=
  match v with
  | VBool b => Some (NInt (if b then 1 else 0))
  | VInt n => Some (NInt n)
  | VFloat f => Some (NFloat f)
  | _ => None
  end.

(** [n == m * 2 ^ e], exactly. *)
Definition int_eq_dyadic (n m e : Z) : bool :=
  if 0 <=? e then n =? m * 2 ^ e else n * 2 ^ (- e) =? m.

Definition float_eq (f g : pyfloat) : bool :=
  match f, g with
  | FInf a, FInf b => Bool.eqb a b
  | FFin m1 e1, FFin m2 e2 =>
      let e := Z.min e1 e2 in
      m1 * 2 ^ (e1 - e) =? m2 * 2 ^ (e2 - e)
  | _, _ => false
  end.

Definition num_eq (a b : num) : bool :=
  match a, b with
  | NInt n, NInt m => n =? m
  | NInt n, NFloat (FFin m e) | NFloat (FFin m e), NInt n => int_eq_dyadic n m e
  | NFloat f, NFloat g => float_eq f g
  | _, _ => false
  end.

(** [a == b]. Numbers compare by value across [bool], [int] and [float];
    lists compare element by element; dicts compare as maps, whatever the
    order of their keys; objects of different kinds are different. *)
Fixpoint eq (a b : value) : bool :=
  match a, b with
  | VNone, VNone => true
  | VStr s, VStr t => String.eqb s t
  | VList l, VList m =>
      (fix go (l m : list value) : bool :=
         match l, m with
         | [], [] => true
         | x :: l', y :: m' => eq x y && go l' m'
         | _, _ => false
         end) l m
  | VDict d, VDict d' =>
      (length d =? length d')%nat &&
      (fix go (d : list (string * value)) : bool :=
         match d with
         | [] => true
         | (k, v) :: d0 =>
             (fix look (e : list (string * value)) : bool :=
                match e with
                | [] => false
                | (k', w) :: e0 => if String.eqb k k' then eq v w else look e0
                end) d' && go d0
         end) d
  | (VBool _ | VInt _ | VFloat _), (VBool _ | VInt _ | VFloat _) =>
      match as_num a, as_num b with
      | Some x, Some y => num_eq x y
      | _, _ => false
      end
  | _, _ => false
  end.

(** The truth value of an object, as [if v] takes it. *)
Definition truthy (v : value) : bool :=
  match v with
  | VNone => false
  | VBool b => b
  | VInt n => negb (n =? 0)
  | VFloat (FFin m _) => negb (m =? 0)
  | VFloat _ => true
  | VStr s => negb (String.eqb s "")
  | VList l => match l with [] => false | _ => true end
  | VDict d => match d with [] => false | _ => true end
  end.

(** [v[k]] for a [str] key. *)
Definition getitem (v : value) (k : string) : res value :=
  match v with
  | VDict d =>
      match Dict.get k d with
      | Some x => Ok x
      | None => Raise (KeyError (VStr k))
      end
  | _ => Raise TypeError
  end.

(** [v[i]] for an [int] index. *)
Definition getitem_int (v : value) (i : Z) : res value :=
  match v with
  | VList l =>
      let n := Z.of_nat (length l) in
      let j := if i <? 0 then i + n else i in
      if (0 <=? j) && (j <? n) then
        match nth_error l (Z.to_nat j) with
        | Some x => Ok x
        | None => Raise IndexError
        end
      else Raise IndexError
  | VStr s =>
      let n := Str.len s in
      let j := if i <? 0 then i + n else i in
      if (0 <=? j) && (j <? n) then Ok (VStr (Str.slice (Some j) (Some (j + 1)) s))
      else Raise IndexError
  | VDict _ => Raise (KeyError (VInt i))
  | _ => Raise TypeError
  end.

(** [v[k] = x] for a [str] key. *)
Definition setitem (v : value) (k : string) (x : value) : res value :=
  match v with
  | VDict d => Ok (VDict (Dict.set k x d))
  | _ => Raise TypeError
  end.

(** [k in v] for a [str] key. *)
Definition contains (k : string) (v : value) : res bool :=
  match v with
  | VDict d => Ok (Dict.contains k d)
  | VList l => Ok (existsb (eq (VStr k)) l)
  | VStr s => Ok (Str.contains k s)
  | _ => Raise TypeError
  end.

(** The items [for x in v] goes through. *)
Definition iter (v : value) : res (list value) :=
  match v with
  | VList l => Ok l
  | VDict d => Ok (List.map VStr (Dict.keys d))
  | VStr s => Ok (List.map (fun c => VStr (String c EmptyString)) (list_ascii_of_string s))
  | _ => Raise TypeError
  end.

(** [v.strip()] *)
Definition strip (v : value) : res string :=
  match v with
  | VStr s => Ok (Str.strip s)
  | _ => Raise AttributeError
  end.

(** *** [int(s)] for a [str]

    White space around the number, one sign, then decimal digits in which
    single underscores may separate digits. The white space [int] skips is
    the one of ASCII and, above it, the Unicode one: the separators U+001C
    to U+001F, which [str.strip()] removes, are not part of it. A text of
    more than [int_max_str_digits] digits is not converted. *)
Definition is_int_space (c : ascii) : bool :=
  let n := Str.code c in
  ((9 <=? n) && (n <=? 13)) || (n =? 32) || (n =? 133) || (n =? 160).

(** [sys.get_int_max_str_digits()], by default. *)
Definition int_max_str_digits : Z := 4300.

Definition digit (c : ascii) : option Z :=
  let n := Str.code c in
  if (48 <=? n) && (n <=? 57) then Some (n - 48) else None.

(** The number of digits of a text, its underscores left out. *)
Fixpoint count_digits (s : string) : Z :=
  match s with
  | EmptyString => 0
  | String c s' =>
      match digit c with
      | Some _ => 1 + count_digits s'
      | None => count_digits s'
      end
  end.

Fixpoint digits (acc : Z) (after_underscore : bool) (s : string) : option Z :=
  match s with
  | EmptyString => if after_underscore then None else Some acc
  | String c s' =>
      if Ascii.eqb c "_" then
        if after_underscore then None else digits acc true s'
      else
        match digit c with
        | Some d => digits (10 * acc + d) false s'
        | None => None
        end
  end.

Definition int (s : string) : res Z :=
  let body := Str.rstrip is_int_space (Str.lstrip is_int_space s) in
  let '(sign, body) :=
    match body with
    | String c b =>
        if Ascii.eqb c "-" then (-1, b)
        else if Ascii.eqb c "+" then (1, b)
        else (1, body)
    | EmptyString => (1, body)
    end in
  match digits 0 true body with
  | Some n =>
      if int_max_str_digits <? count_digits body then Raise ValueError
      else Ok (sign * n)
  | None => Raise ValueError
  end.

(** *** [str(n)] for an [int] *)
Definition digit_char (d : Z) : ascii := ascii_of_N (Z.to_N (48 + d)).

Fixpoint str_digits (fuel : nat) (n : Z) : string :=
  match fuel with
  | O => EmptyString
  | S fuel' =>
      if n <? 10 then String (digit_char n) EmptyString
      else str_digits fuel' (n / 10) +:+ String (digit_char (n mod 10)) EmptyString
  end.

Definition str_nonneg (n : Z) : string := str_digits (S (Z.to_nat (Z.log2 n))) n.

Definition str_int (n : Z) : string :=
  if n <? 0 then String "-" (str_nonneg (- n)) else str_nonneg n.

(** [str(n)], [repr(n)] and an f-string raise [ValueError] for an [int] of
    more than [int_max_str_digits] digits. *)
Definition str_fits (n : Z) : bool :=
  Str.len (str_nonneg (Z.abs n)) <=? int_max_str_digits.

(** The objects that [str] and [repr] write: the ones that hold no [int]
    beyond that limit. *)
Fixpoint formattable (v : value) : bool :=
  match v with
  | VInt n => str_fits n
  | VList l =>
      (fix go (l : list value) : bool :=
         match l with
         | [] => true
         | x :: l' => formattable x && go l'
         end) l
  | VDict d =>
      (fix go (d : list (string * value)) : bool :=
         match d with
         | [] => true
         | (_, x) :: d' => formattable x && go d'
         end) d
  | _ => true
  end.

End Py.

(** ** The typed fields of the adapter *)

Module Fields.

Definition is_leap (y : Z) : bool :=
  (y mod 4 =? 0) && (negb (y mod 100 =? 0) || (y mod 400 =? 0)).

Definition days_in_month (y m : Z) : Z :=
  if m =? 2 then (if is_leap y then 29 else 28)
  else if (m =? 4) || (m =? 6) || (m =? 9) || (m =? 11) then 30
  else 31.

Definition valid_date (y m d : Z) : bool :=
  (1 <=? y) && (y <=? 9999) && (1 <=? m) && (m <=? 12)
  && (1 <=? d) && (d <=? days_in_month y m).

Definition valid_time (h mi s us : Z) : bool :=
  (0 <=? h) && (h <=? 23) && (0 <=? mi) && (mi <=? 59)
  && (0 <=? s) && (s <=? 59) && (0 <=? us) && (us <=? 999999).

Record date := Date { d_year : Z; d_month : Z; d_day : Z }.

Record time := Time { t_hour : Z; t_minute : Z; t_second : Z; t_microsecond : Z }.

(** The constructors of [datetime] take their numbers as C [int]s: the
    arguments are converted one after the other, and a number that does not
    fit raises [OverflowError] before any range is checked. *)
Definition c_int (n : Z) : bool := (- 2 ^ 31 <=? n) && (n <? 2 ^ 31).

(** [datetime.date] applied to the unpacked list [args]: too many
    arguments are refused at once, a missing one once the ones before it
    are converted. *)
Definition date_new (args : list Z) : res date :=
  if (3 <? length args)%nat then Raise TypeError
  else if negb (forallb c_int args) then Raise OverflowError
  else
    match args with
    | [y; m; d] => if valid_date y m d then Ok (Date y m d) else Raise ValueError
    | _ => Raise TypeError
    end.

(** [datetime.time] applied to the unpacked list [values]: a fifth
    positional argument is the [tzinfo], which an [int] is not (the ranges
    are checked before it is), and a sixth would be the keyword-only
    [fold]. *)
Definition time_new (values : list Z) : res time :=
  let make h mi s us :=
    if valid_time h mi s us then Ok (Time h mi s us) else Raise ValueError in
  if (6 <? length values)%nat then Raise TypeError
  else if negb (forallb c_int (firstn 4 values)) then Raise OverflowError
  else
    match values with
    | [] => make 0 0 0 0
    | [h] => make h 0 0 0
    | [h; mi] => make h mi 0 0
    | [h; mi; s] => make h mi s 0
    | [h; mi; s; us] => make h mi s us
    | [h; mi; s; us; _] =>
        if valid_time h mi s us then Raise TypeError else Raise ValueError
    | _ => Raise TypeError
    end.

(** [%m], [%d], [%H], [%M], [%S]: two digits. *)
Definition pad2 (n : Z) : string :=
  if n <? 10 then String "0" (Py.str_int n) else Py.str_int n.

(** [%Y]: the year as the C library writes it. glibc does not zero-fill
    it: the year 987 is written [987]. *)
Definition year_text (n : Z) : string := Py.str_int n.

Section WithTimezones.

(** The time zones ([datetime.tzinfo] objects) and the conversion of a
    [datetime] to one of them, [value.astimezone(tz)]. *)
Variable tzinfo : Type.

Record datetime := DateTime {
  year : Z; month : Z; day : Z;
  hour : Z; minute : Z; second : Z; microsecond : Z;
  dt_tzinfo : option tzinfo
}.

Variable astimezone : datetime -> tzinfo -> res datetime.

Definition valid_datetime (v : datetime) : bool :=
  valid_date (year v) (month v) (day v)
  && valid_time (hour v) (minute v) (second v) (microsecond v).

(** [datetime.datetime] applied to the unpacked list [args] and to
    [tzinfo=tz]: three to seven positional arguments; an eighth would be
    a second [tzinfo], and more are refused at once. *)
Definition datetime_new (args : list Z) (tz : option tzinfo) : res datetime :=
  let make y m d h mi s us :=
    if valid_date y m d && valid_time h mi s us
    then Ok (DateTime y m d h mi s us tz) else Raise ValueError in
  if (8 <? length args)%nat then Raise TypeError
  else if negb (forallb c_int (firstn 7 args)) then Raise OverflowError
  else
    match args with
    | [y; m; d] => make y m d 0 0 0 0
    | [y; m; d; h] => make y m d h 0 0 0
    | [y; m; d; h; mi] => make y m d h mi 0 0
    | [y; m; d; h; mi; s] => make y m d h mi s 0
    | [y; m; d; h; mi; s; us] => make y m d h mi s us
    | _ => Raise TypeError
    end.

(** [value.strftime("%m/%d/%Y %H:%M:%S")] *)
Definition strftime (v : datetime) : string :=
  pad2 (month v) +:+ "/" +:+ pad2 (day v) +:+ "/" +:+ year_text (year v) +:+ " "
  +:+ pad2 (hour v) +:+ ":" +:+ pad2 (minute v) +:+ ":" +:+ pad2 (second v).

(** *** class GSheetsDateTime(DateTime)

    [timezone] is the attribute [self.timezone]; a [tzinfo] object is
    true, so [if self.timezone] tests that it is not [None], and a
    [datetime] is true, so [... if value else None] formats it. *)
Definition GSheetsDateTime_parse (timezone : option tzinfo)
    (value : option string) : res (option datetime) :=
  match value with
  | None => Ok None
  | Some value =>
      args ← traverse Py.int
            (Str.split "," (Str.slice (Some (Str.len "Date(")) (Some (-1)) value));
      args ← match args with
             | a0 :: a1 :: rest => Ok (a0 :: (a1 + 1) :: rest)
             | _ => Raise IndexError
             end;
      v ← datetime_new args timezone;
      Ok (Some v)
  end.

Definition GSheetsDateTime_format (timezone : option tzinfo)
    (value : option datetime) : res (option string) :=
  match value with
  | None => Ok None
  | Some value =>
      value ← match timezone with
              | Some tz => astimezone value tz
              | None => Ok value
              end;
      Ok (Some (strftime value))
  end.

End WithTimezones.

(** *** class GSheetsDate(Date) *)
Definition GSheetsDate_parse (value : option string) : res (option date) :=
  match value with
  | None => Ok None
  | Some value =>
      args ← traverse Py.int
            (Str.split "," (Str.slice (Some (Str.len "Date(")) (Some (-1)) value));
      args ← match args with
             | a0 :: a1 :: rest => Ok (a0 :: (a1 + 1) :: rest)
             | _ => Raise IndexError
             end;
      d ← date_new args;
      Ok (Some d)
  end.

(** *** class GSheetsTime(Time) *)
Definition GSheetsTime_parse (values : option (list Z)) : res (option time) :=
  match values with
  | None => Ok None
  | Some values => t ← time_new values; Ok (Some t)
  end.

Arguments DateTime {tzinfo}.
Arguments year {tzinfo}.
Arguments month {tzinfo}.
Arguments day {tzinfo}.
Arguments hour {tzinfo}.
Arguments minute {tzinfo}.
Arguments second {tzinfo}.
Arguments microsecond {tzinfo}.
Arguments dt_tzinfo {tzinfo}.
Arguments valid_datetime {tzinfo}.
Arguments datetime_new {tzinfo}.
Arguments strftime {tzinfo}.
Arguments GSheetsDateTime_parse {tzinfo}.
Arguments GSheetsDateTime_format {tzinfo}.

(** The one-zone world: every [datetime] is in UTC and the sheet is too,
    so that [astimezone] changes no field. *)
Definition utc_astimezone (v : datetime unit) (tz : unit) : res (datetime unit) :=
  Ok (DateTime (year v) (month v) (day v) (hour v) (minute v) (second v)
        (microsecond v) (Some tz)).

(** The world of fixed offsets: a zone is its offset from UTC in hours, and
    a conversion that stays within the day moves the hour. The other
    conversions (across midnight, or of a value without a zone, which the
    interpreter reads in the zone of the machine) are not in this world. *)
Definition offset_astimezone (v : datetime Z) (tz : Z) : res (datetime Z) :=
  match dt_tzinfo v with
  | Some from =>
      let h := hour v - from + tz in
      if (0 <=? h) && (h <? 24)
      then Ok (DateTime (year v) (month v) (day v) h (minute v) (second v)
                 (microsecond v) (Some tz))
      else Raise (OutOfModel "a conversion across midnight")
  | None => Raise (OutOfModel "a value without a zone")
  end.

End Fields.

(** ** The resource locator *)

Module Url.

(** The six-part result of [urllib.parse.urlparse]. *)
Record ParseResult := {
  scheme : string; netloc : string; path : string;
  params : string; query : string; fragment : string
}.

(** The functions of [urllib.parse] the adapter calls. [parse_qs] maps
    every name of the query string to the list of its values, [urlencode]
    takes the dict of arguments, and the components of [urlunparse] may be
    [None]. *)
Record urllib_parse := {
  urlparse : string -> res ParseResult;
  parse_qs : string -> res (odict (list string));
  urlencode : dict -> res string;
  urlunparse : option string -> option string -> option string ->
               option string -> option string -> option string -> string;
  quote : string -> string -> string
}.

(** [l[-1]] *)
Definition last_item (l : list string) : res string :=
  match List.rev l with
  | x :: _ => Ok x
  | [] => Raise IndexError
  end.

Section WithUrllib.

Variable urllib : urllib_parse.

(** Return API URL given the spreadsheet URL. *)
Definition get_url (uri : string) (headers : Z) (gid : Z)
    (sheet : option string) : res string :=
  parts ← urlparse urllib uri;
  (* strip /edit *)
  let path :=
    if Str.endswith "/edit" (path parts)
    then Str.slice None (Some (- Str.len "/edit")) (path parts)
    else path parts in
  (* add the gviz endpoint *)
  let path := Str.join "/" [Str.rstrip (Ascii.eqb "/") path; "gviz/tq"] in
  qs ← parse_qs urllib (query parts);
  headers ← match Dict.get "headers" qs with
            | Some vs => v ← last_item vs; Py.int v
            | None => Ok headers
            end;
  gid ← match Dict.get "gid" qs with
        | Some vs => v ← last_item vs; Py.int v
        | None => Ok gid
        end;
  sheet ← match Dict.get "sheet" qs with
          | Some vs => v ← last_item vs; Ok (Some v)
          | None => Ok sheet
          end;
  gid ← (if Str.startswith "gid=" (fragment parts)
         then Py.int (Str.slice (Some (Str.len "gid=")) None (fragment parts))
         else Ok gid);
  let args : dict := [] in
  let args := if 0 <? headers then Dict.set "headers" (VInt headers) args else args in
  let args := match sheet with
              | Some sheet => Dict.set "sheet" (VStr sheet) args
              | None => Dict.set "gid" (VInt gid) args
              end in
  params ← urlencode urllib args;
  Ok (urlunparse urllib (Some (scheme parts)) (Some (netloc parts)) (Some path)
        None (Some params) None).

End WithUrllib.
End Url.

(** ** A model of [urllib.parse]

    The functions of CPython 3.11 on strings of code points below 256.
    Where the result would leave these strings (a percent escape that
    decodes to a code point above 255 or to the replacement character), and
    where the library calls [unicodedata] or [ipaddress] (a host name that
    is not ASCII, a host in brackets), the model raises [OutOfModel]. *)

Module Urllib.

Definition scheme_chars : string :=
  "abcdefghijklmnopqrstuvwxyzABCDEFGHIJKLMNOPQRSTUVWXYZ0123456789+-.".

Definition uses_netloc : list string :=
  [""; "ftp"; "http"; "gopher"; "nntp"; "telnet"; "imap"; "wais"; "file";
   "mms"; "https"; "shttp"; "snews"; "prospero"; "rtsp"; "rtspu"; "rsync";
   "svn"; "svn+ssh"; "sftp"; "nfs"; "git"; "git+ssh"; "ws"; "wss"].

Definition uses_params : list string :=
  [""; "ftp"; "hdl"; "prospero"; "http"; "imap"; "https"; "shttp"; "rtsp";
   "rtspu"; "sip"; "sips"; "mms"; "sftp"; "tel"].

Definition always_safe : string :=
  "ABCDEFGHIJKLMNOPQRSTUVWXYZabcdefghijklmnopqrstuvwxyz0123456789_.-~".

Definition in_list (s : string) (l : list string) : bool :=
  existsb (String.eqb s) l.

Fixpoint forall_chars (p : ascii -> bool) (s : string) : bool :=
  match s with
  | EmptyString => true
  | String c s' => p c && forall_chars p s'
  end.

(** The longest prefix whose characters satisfy [p], and the rest. *)
Fixpoint span (p : ascii -> bool) (s : string) : string * string :=
  match s with
  | EmptyString => (EmptyString, EmptyString)
  | String c s' =>
      if p c then let '(a, b) := span p s' in (String c a, b)
      else (EmptyString, s)
  end.

(** The text up to and including the last [c], and the text after it. *)
Fixpoint rsplit_after (c : ascii) (s : string) : string * string :=
  match s with
  | EmptyString => (EmptyString, EmptyString)
  | String x s' =>
      let '(a, b) := rsplit_after c s' in
      if Str.mem c s' then (String x a, b)
      else if Ascii.eqb x c then (String x EmptyString, s')
      else (EmptyString, s)
  end.

Definition is_ascii (c : ascii) : bool := Str.code c <? 128.

(** [c.isascii() and c.isalpha()] *)
Definition is_ascii_alpha (c : ascii) : bool :=
  let n := Str.code c in
  ((65 <=? n) && (n <=? 90)) || ((97 <=? n) && (n <=? 122)).

(** The characters of [_WHATWG_C0_CONTROL_OR_SPACE], which are stripped
    from the left of a URL, and the ones of [_UNSAFE_URL_BYTES_TO_REMOVE]
    (tab, carriage return, line feed), which are removed from it. *)
Definition is_c0_control_or_space (c : ascii) : bool := Str.code c <=? 32.

Definition is_unsafe_url_byte (c : ascii) : bool :=
  let n := Str.code c in (n =? 9) || (n =? 13) || (n =? 10).

Fixpoint remove_chars (p : ascii -> bool) (s : string) : string :=
  match s with
  | EmptyString => EmptyString
  | String c s' => if p c then remove_chars p s' else String c (remove_chars p s')
  end.

Definition urlsplit (url : string) : res (string * string * string * string * string) :=
  let url := Str.lstrip is_c0_control_or_space url in
  let url := remove_chars is_unsafe_url_byte url in
  let '(head, rest) := Str.split1 ":" url in
  let '(scheme, url) :=
    match rest, head with
    | Some rest, String c _ =>
        if is_ascii_alpha c && forall_chars (fun c => Str.mem c scheme_chars) head
        then (Str.lower head, rest)
        else (EmptyString, url)
    | _, _ => (EmptyString, url)
    end in
  let '(netloc, url) :=
    if Str.startswith "//" url
    then span (fun c => negb (Str.mem c "/?#")) (Str.drop 2 url)
    else (EmptyString, url) in
  if (Str.mem "[" netloc && negb (Str.mem "]" netloc))
     || (Str.mem "]" netloc && negb (Str.mem "[" netloc))
  then Raise ValueError
  else if Str.mem "[" netloc && Str.mem "]" netloc
  then Raise (OutOfModel "a host in brackets")
  else
    let '(url, fragment) := Str.split1 "#" url in
    let '(url, query) := Str.split1 "?" url in
    if forall_chars is_ascii netloc
    then Ok (scheme, netloc, url, default EmptyString query,
             default EmptyString fragment)
    else Raise (OutOfModel "a host name that is not ASCII").

Definition splitparams (url : string) : string * string :=
  if Str.mem "/" url then
    let '(dir, file) := rsplit_after "/" url in
    match Str.split1 ";" file with
    | (a, Some b) => (dir +:+ a, b)
    | (_, None) => (url, EmptyString)
    end
  else
    match Str.split1 ";" url with
    | (a, Some b) => (a, b)
    | (_, None) => (url, EmptyString)
    end.

Definition urlparse (url : string) : res Url.ParseResult :=
  '(scheme, netloc, url, query, fragment) ← urlsplit url;
  let '(url, params) :=
    if in_list scheme uses_params && Str.mem ";" url
    then splitparams url else (url, EmptyString) in
  Ok {| Url.scheme := scheme; Url.netloc := netloc; Url.path := url;
        Url.params := params; Url.query := query; Url.fragment := fragment |}.

(** *** Percent escapes *)

Definition hex_digit (c : ascii) : option Z :=
  let n := Str.code c in
  if (48 <=? n) && (n <=? 57) then Some (n - 48)
  else if (65 <=? n) && (n <=? 70) then Some (n - 55)
  else if (97 <=? n) && (n <=? 102) then Some (n - 87)
  else None.

Definition hex_char (d : Z) : ascii :=
  ascii_of_N (Z.to_N (if d <? 10 then 48 + d else 55 + d)).

Definition chr (n : Z) : ascii := ascii_of_N (Z.to_N n).

(** What [unquote] goes through: a byte, written as an ASCII character
    or as a percent escape, or a character that is not ASCII. *)
Inductive token :=
| Byte (b : Z)
| Raw (c : ascii).

Fixpoint tokens (s : string) : list token :=
  match s with
  | EmptyString => []
  | String c s' =>
      let plain := (if is_ascii c then Byte (Str.code c) else Raw c) :: tokens s' in
      if Ascii.eqb c "%" then
        match s' with
        | String h (String l s'') =>
            match hex_digit h, hex_digit l with
            | Some x, Some y => Byte (16 * x + y) :: tokens s''
            | _, _ => plain
            end
        | _ => plain
        end
      else plain
  end.

(** The bytes are read as UTF-8. *)
Fixpoint decode (ts : list token) : res string :=
  match ts with
  | [] => Ok EmptyString
  | Raw c :: ts' => s ← decode ts'; Ok (String c s)
  | Byte b :: ts' =>
      if b <? 128 then s ← decode ts'; Ok (String (chr b) s)
      else if (b =? 194) || (b =? 195) then
        match ts' with
        | Byte c :: ts'' =>
            if (128 <=? c) && (c <=? 191)
            then s ← decode ts''; Ok (String (chr ((b - 192) * 64 + (c - 128))) s)
            else Raise (OutOfModel "bytes that are not UTF-8")
        | _ => Raise (OutOfModel "bytes that are not UTF-8")
        end
      else Raise (OutOfModel "a code point above 255, or bytes that are not UTF-8")
  end.

Definition unquote (s : string) : res string := decode (tokens s).

Definition utf8 (c : ascii) : list Z :=
  let n := Str.code c in
  if n <? 128 then [n] else [192 + n / 64; 128 + n mod 64].

Definition quote_byte (safe : string) (b : Z) : string :=
  if (b <? 128) && (Str.mem (chr b) always_safe || Str.mem (chr b) safe)
  then String (chr b) EmptyString
  else String "%" (String (hex_char (b / 16)) (String (hex_char (b mod 16)) EmptyString)).

Fixpoint quote (s safe : string) : string :=
  match s with
  | EmptyString => EmptyString
  | String c s' =>
      String.concat EmptyString (List.map (quote_byte safe) (utf8 c)) +:+ quote s' safe
  end.

Definition replace_char (a b : ascii) : string -> string :=
  Str.map (fun c => if Ascii.eqb c a then b else c).

Definition quote_plus (s : string) : string :=
  if Str.mem " " s then replace_char " " "+" (quote s " ") else quote s EmptyString.

(** *** Query strings *)

Definition parse_qsl (qs : string) : res (list (string * string)) :=
  pairs ← traverse (fun name_value =>
    match Str.split1 "=" name_value with
    | (name, Some value) =>
        if negb (String.eqb value "") then
          name ← unquote (replace_char "+" " " name);
          value ← unquote (replace_char "+" " " value);
          Ok [(name, value)]
        else Ok []
    | (_, None) => Ok []
    end) (Str.split "&" qs);
  Ok (List.concat pairs).

Definition parse_qs (qs : string) : res (odict (list string)) :=
  pairs ← parse_qsl qs;
  Ok (fold_left (fun (d : odict (list string)) '(name, value) =>
        match Dict.get name d with
        | Some vs => Dict.set name (vs ++ [value]) d
        | None => Dict.set name [value] d
        end) pairs []).

Definition str (v : value) : res string :=
  match v with
  | VStr s => Ok s
  | VInt n => if Py.str_fits n then Ok (Py.str_int n) else Raise ValueError
  | VNone => Ok "None"
  | VBool true => Ok "True"
  | VBool false => Ok "False"
  | _ => Raise (OutOfModel "the text of a float, a list or a dict")
  end.

Definition urlencode (query : dict) : res string :=
  l ← traverse (fun '(k, v) =>
         v ← str v; Ok (quote_plus k +:+ "=" +:+ quote_plus v)) query;
  Ok (Str.join "&" l).

Definition truthy (s : option string) : bool :=
  match s with
  | Some s => negb (String.eqb s "")
  | None => false
  end.

Definition urlunsplit (scheme netloc url query fragment : option string) : string :=
  let text := default EmptyString in
  let url := text url in
  let url :=
    if truthy netloc
       || (truthy scheme && in_list (text scheme) uses_netloc
           && negb (String.eqb (Str.slice None (Some 2) url) "//"))
    then
      let url := if negb (String.eqb url "")
                    && negb (String.eqb (Str.slice None (Some 1) url) "/")
                 then "/" +:+ url else url in
      "//" +:+ text netloc +:+ url
    else url in
  let url := if truthy scheme then text scheme +:+ ":" +:+ url else url in
  let url := if truthy query then url +:+ "?" +:+ text query else url in
  let url := if truthy fragment then url +:+ "#" +:+ text fragment else url in
  url.

Definition urlunparse (scheme netloc url params query fragment : option string) : string :=
  let url := if truthy params
             then Some (default EmptyString url +:+ ";" +:+ default EmptyString params)
             else url in
  urlunsplit scheme netloc url query fragment.

Definition cpython : Url.urllib_parse :=
  {| Url.urlparse := urlparse;
     Url.parse_qs := parse_qs;
     Url.urlencode := urlencode;
     Url.urlunparse := urlunparse;
     Url.quote := quote |}.

End Urllib.

(** ** The adapter *)

Definition nl : string := String "010"%char EmptyString.

Definition JSON_PAYLOAD_PREFIX : string := ")]}'" +:+ nl.

(** [str(x)] for an optional string, as an f-string formats it. *)
Definition str_opt (s : option string) : string := default "None" s.

Definition opt_value {A : Type} (inj : A -> value) (x : option A) : value :=
  match x with
  | Some a => inj a
  | None => VNone
  end.

(** The message of [ProgrammingError(x)] for an object [x]. *)
Definition message_of (v : value) : list fpiece :=
  match v with
  | VStr s => [Lit s]
  | _ => [Fmt v]
  end.

Inductive filter_class := Equal | Range.

Inductive Order := NONE | ASCENDING | DESCENDING | ANY.

Inductive method := GET | POST | PUT.

(** A request as the session receives it, and what the adapter reads of the
    response: [body] is the JSON value that [json.loads] gives for the text,
    or for the text after [JSON_PAYLOAD_PREFIX] when the text starts with
    it, and [None] when that text is not JSON. *)
Record Request := {
  req_method : method;
  req_url : string;
  req_headers : odict string;
  req_params : odict string;
  req_json : option value
}.

Record Response := {
  status_code : Z;
  text : string;
  body : option value
}.

(** [json.loads(response.text[len(JSON_PAYLOAD_PREFIX):])] for a text that
    starts with the prefix, and [response.json()], which decodes the text as
    it is: a text that starts with the prefix is no JSON text. *)
Definition loads_after_prefix (response : Response) : res value :=
  match body response with
  | Some v => Ok v
  | None => Raise JSONDecodeError
  end.

Definition response_json (response : Response) : res value :=
  if Str.startswith JSON_PAYLOAD_PREFIX (text response) then Raise JSONDecodeError
  else
    match body response with
    | Some v => Ok v
    | None => Raise JSONDecodeError
    end.

(** An f-string that formats the object [v] after the text [s]: the
    pieces, or the [ValueError] of [str(v)]. *)
Definition fstring (s : string) (v : value) : res (list fpiece) :=
  if Py.formattable v then Ok [Lit s; Fmt v] else Raise ValueError.

(** An f-string that formats the number [n] after the text [s]. *)
Definition fstring_int (s : string) (n : Z) : res string :=
  if Py.str_fits n then Ok (s +:+ Py.str_int n) else Raise ValueError.

(** A dict object the adapter shares with its caller is known by its
    location in the store of objects. *)
Definition loc := nat.

(** [max(l)] *)
Definition py_max (l : list Z) : res Z :=
  match l with
  | [] => Raise ValueError
  | x :: l' => Ok (fold_left Z.max l' x)
  end.

(** The index of the first item equal to [x], counting from [i]. *)
Fixpoint find_equal (i : Z) (l : list value) (x : value) : option Z :=
  match l with
  | [] => None
  | y :: l' => if Py.eq y x then Some i else find_equal (i + 1) l' x
  end.

Definition format_error_message (errors : value) : res string :=
  errors ← Py.iter errors;
  messages ← traverse (fun error => Py.getitem error "detailed_message") errors;
  messages ← traverse (fun m => match m with
                                | VStr s => Ok s
                                | _ => Raise TypeError
                                end) messages;
  Ok (Str.join (nl +:+ nl) messages).

Module Adapter.
Section GSheetsAPI.

(** The time zones, [urllib.parse], the session that carries the requests
    (it answers a request knowing the ones before it, or raises), and the
    query translator of [shillelagh.lib] with the filters and orders it
    takes. *)
Variable tzinfo : Type.
Variable urllib : Url.urllib_parse.
Variable session : list Request -> Request -> res Response.
Variable Filter : Type.
Variable RequestedOrder : Type.

Inductive field_class :=
| StringField
| FloatField
| GSheetsBoolean
| GSheetsDate
| GSheetsDateTime (timezone : option tzinfo)
| GSheetsTime.

Record Field := {
  field : field_class;
  filters : list filter_class;
  order : Order;
  exact : bool
}.

Variable build_sql :
  odict Field -> odict Filter -> list (string * RequestedOrder) ->
  odict value -> Z -> res string.

Definition get_field (col : value) (timezone : option tzinfo) : res Field :=
  type ← Py.getitem col "type";
  '(class_, filters) ←
    match type with
    | VStr type =>
        Ok (if String.eqb type "string" then (StringField, [Equal])
            else if String.eqb type "number" then (FloatField, [Range])
            else if String.eqb type "boolean" then (GSheetsBoolean, [Equal])
            else if String.eqb type "date" then (GSheetsDate, [Range])
            else if String.eqb type "datetime" then (GSheetsDateTime timezone, [Range])
            else if String.eqb type "timeofday" then (GSheetsTime, [Range])
            else (StringField, [Equal]))
    | VList _ | VDict _ => Raise TypeError
    | _ => Ok (StringField, [Equal])
    end;
  Ok {| field := class_; filters := filters; order := ANY; exact := true |}.

(** The attributes of the adapter. [row_ids] maps an identifier to the
    dict object that is the row. *)
Record GSheetsAPI := {
  url : string;
  _offset : Z;
  _spreadsheet_id : option string;
  _sheet_id : option Z;
  _sheet_name : option string;
  _timezone : option tzinfo;
  _column_map : odict value;
  columns : odict Field;
  row_ids : gmap Z loc
}.

Definition set_offset (x : Z) (a : GSheetsAPI) : GSheetsAPI :=
  {| url := url a; _offset := x; _spreadsheet_id := _spreadsheet_id a;
     _sheet_id := _sheet_id a; _sheet_name := _sheet_name a;
     _timezone := _timezone a; _column_map := _column_map a;
     columns := columns a; row_ids := row_ids a |}.

Definition set_column_map (x : odict value) (a : GSheetsAPI) : GSheetsAPI :=
  {| url := url a; _offset := _offset a; _spreadsheet_id := _spreadsheet_id a;
     _sheet_id := _sheet_id a; _sheet_name := _sheet_name a;
     _timezone := _timezone a; _column_map := x;
     columns := columns a; row_ids := row_ids a |}.

Definition set_columns (x : odict Field) (a : GSheetsAPI) : GSheetsAPI :=
  {| url := url a; _offset := _offset a; _spreadsheet_id := _spreadsheet_id a;
     _sheet_id := _sheet_id a; _sheet_name := _sheet_name a;
     _timezone := _timezone a; _column_map := _column_map a;
     columns := x; row_ids := row_ids a |}.

Definition set_row_ids (x : gmap Z loc) (a : GSheetsAPI) : GSheetsAPI :=
  {| url := url a; _offset := _offset a; _spreadsheet_id := _spreadsheet_id a;
     _sheet_id := _sheet_id a; _sheet_name := _sheet_name a;
     _timezone := _timezone a; _column_map := _column_map a;
     columns := columns a; row_ids := x |}.

(** The adapter, the dict objects, and the requests sent so far. *)
Record state := {
  self : GSheetsAPI;
  heap : gmap loc dict;
  next_loc : loc;
  log : list Request
}.

(** A method: it ends with a result or an exception, in a new state. *)
Definition M (A : Type) : Type := state -> res A * state.

#[global] Instance M_ret : MRet M := fun A a s => (Ok a, s).
#[global] Instance M_bind : MBind M := fun A B f m s =>
  match m s with
  | (Ok a, s') => f a s'
  | (Raise e, s') => (Raise e, s')
  end.

Definition lift {A : Type} (r : res A) : M A := fun s => (r, s).

Definition raise {A : Type} (e : exn) : M A := fun s => (Raise e, s).

Definition get_self : M GSheetsAPI := fun s => (Ok (self s), s).

Definition update_self (f : GSheetsAPI -> GSheetsAPI) : M unit := fun s =>
  (Ok tt, {| self := f (self s); heap := heap s; next_loc := next_loc s; log := log s |}).

(** A new dict object. *)
Definition alloc (d : dict) : M loc := fun s =>
  (Ok (next_loc s),
   {| self := self s; heap := <[next_loc s := d]> (heap s);
      next_loc := S (next_loc s); log := log s |}).

Definition load (l : loc) : M dict := fun s =>
  match heap s !! l with
  | Some d => (Ok d, s)
  | None => (Raise (OutOfModel "a reference to no object"), s)
  end.

Definition store (l : loc) (d : dict) : M unit := fun s =>
  (Ok tt, {| self := self s; heap := <[l := d]> (heap s);
             next_loc := next_loc s; log := log s |}).

(** [session.get], [session.post] and [session.put]. *)
Definition send (req : Request) : M Response := fun s =>
  (session (log s) req,
   {| self := self s; heap := heap s; next_loc := next_loc s;
      log := log s ++ [req] |}).

(** [response.json()] *)
Definition json (response : Response) : M value := lift (response_json response).

Fixpoint for_each {A : Type} (f : A -> M unit) (l : list A) : M unit :=
  match l with
  | [] => mret tt
  | x :: l' => f x ;; for_each f l'
  end.

Fixpoint alloc_all (ds : list dict) : M (list loc) :=
  match ds with
  | [] => mret []
  | d :: ds' => l ← alloc d; ls ← alloc_all ds'; mret (l :: ls)
  end.

(** [if "error" in payload: raise ProgrammingError(payload["error"]["message"])] *)
Definition check_error (payload : value) : M unit :=
  has_error ← lift (Py.contains "error" payload);
  if (has_error : bool) then
    message ← lift (error ← Py.getitem payload "error"; Py.getitem error "message");
    raise (ProgrammingError (message_of message))
  else mret tt.

Definition _run_query (sql : string) : M value :=
  self ← get_self;
  let quoted_sql := Url.quote urllib sql "/()" in
  let url := url self +:+ "&tq=" +:+ quoted_sql in
  let headers := [("X-DataSource-Auth", "true")] in
  response ← send {| req_method := GET; req_url := url; req_headers := headers;
                     req_params := []; req_json := None |};
  if negb (status_code response =? 200) then
    raise (ProgrammingError [Lit (text response)])
  else
    result ←
      (if Str.startswith JSON_PAYLOAD_PREFIX (text response)
       then lift (loads_after_prefix response)
       else match response_json response with
            | Raise JSONDecodeError =>
                raise (ProgrammingError [Lit
                  ("Response from Google is not valid JSON. Please verify that you "
                   +:+ "have the proper credentials to access the spreadsheet.")])
            | r => lift r
            end);
    status ← lift (Py.getitem result "status");
    if Py.eq status (VStr "error") then
      message ← lift (errors ← Py.getitem result "errors"; format_error_message errors);
      raise (ProgrammingError [Lit message])
    else mret result.

(** [all(col["label"] == "" for col in cols)] *)
Fixpoint labels_all_empty (cols : list value) : res bool :=
  match cols with
  | [] => Ok true
  | col :: cols' =>
      label ← Py.getitem col "label";
      if Py.eq label (VStr "") then labels_all_empty cols' else Ok false
  end.

(** [for col, cell in zip(cols, cells): col["label"] = cell["v"]] *)
Fixpoint label_with_cells (cols cells : list value) : res (list value) :=
  match cols, cells with
  | col :: cols', cell :: cells' =>
      v ← Py.getitem cell "v";
      col ← Py.setitem col "label" v;
      cols' ← label_with_cells cols' cells';
      Ok (col :: cols')
  | _, _ => Ok cols
  end.

(** [for col in cols: col["label"] = col["id"]] *)
Definition label_with_ids (cols : list value) : res (list value) :=
  traverse (fun col => id ← Py.getitem col "id"; Py.setitem col "label" id) cols.

(** [{col["label"].strip(): col["id"] for col in cols}] *)
Fixpoint column_map_of (cols : list value) (acc : odict value) : res (odict value) :=
  match cols with
  | [] => Ok acc
  | col :: cols' =>
      label ← Py.getitem col "label";
      key ← Py.strip label;
      id ← Py.getitem col "id";
      column_map_of cols' (Dict.set key id acc)
  end.

(** [{col["label"].strip(): get_field(col, timezone) for col in cols
      if col["label"].strip()}] *)
Fixpoint columns_of (timezone : option tzinfo) (cols : list value)
    (acc : odict Field) : res (odict Field) :=
  match cols with
  | [] => Ok acc
  | col :: cols' =>
      label ← Py.getitem col "label";
      key ← Py.strip label;
      if negb (String.eqb key "") then
        f ← get_field col timezone;
        columns_of timezone cols' (Dict.set key f acc)
      else columns_of timezone cols' acc
  end.

Definition _set_columns : M unit :=
  results ← _run_query "SELECT * LIMIT 1";
  cols ← lift (table ← Py.getitem results "table"; Py.getitem table "cols");
  rows ← lift (table ← Py.getitem results "table"; Py.getitem table "rows");
  cols ← lift (Py.iter cols);
  (* if the columns have no labels, use the first row as the labels if
     it exists; otherwise use just the column letters *)
  all_empty ← lift (labels_all_empty cols);
  cols ← (if (all_empty : bool) then
            if Py.truthy rows then
              update_self (set_offset 1);;
              lift (row ← Py.getitem_int rows 0;
                    cells ← Py.getitem row "c";
                    cells ← Py.iter cells;
                    label_with_cells cols cells)
            else lift (label_with_ids cols)
          else mret cols);
  column_map ← lift (column_map_of cols []);
  update_self (set_column_map column_map);;
  self ← get_self;
  columns ← lift (columns_of (_timezone self) cols []);
  update_self (set_columns columns).

Definition get_columns : M (odict Field) :=
  self ← get_self; mret (columns self).

(** [{column_name: cell["v"] if cell else None
      for column_name, cell in zip(self.columns, row["c"])}] *)
Fixpoint row_of_cells (names : list string) (cells : list value) (acc : dict) : res dict :=
  match names, cells with
  | column_name :: names', cell :: cells' =>
      v ← (if Py.truthy cell then Py.getitem cell "v" else Ok VNone);
      row_of_cells names' cells' (Dict.set column_name v acc)
  | _, _ => Ok acc
  end.

(** [get_data] is a generator; this is what a caller that takes all its
    rows runs. The rows are the dict objects yielded, in order. *)
Definition get_data (bounds : odict Filter)
    (order : list (string * RequestedOrder)) : M (list loc) :=
  self ← get_self;
  match build_sql (columns self) bounds order (_column_map self) (_offset self) with
  | Raise ImpossibleFilterError => mret []
  | Raise e => raise e
  | Ok sql =>
      payload ← _run_query sql;
      self ← get_self;
      rows ← lift (
        table ← Py.getitem payload "table";
        rows ← Py.getitem table "rows";
        rows ← Py.iter rows;
        traverse (fun row =>
          cells ← Py.getitem row "c";
          cells ← Py.iter cells;
          row_of_cells (Dict.keys (columns self)) cells []) rows);
      rows ← alloc_all rows;
      for_each (fun '(i, row) =>
        update_self (fun a => set_row_ids (<[i := row]> (row_ids a)) a);;
        d ← load row;
        store row (Dict.set "rowid" (VInt i) d))
        (zip (List.map Z.of_nat (seq 0 (length rows))) rows);;
      mret rows
  end.

(** [row.pop("rowid")] *)
Definition pop_rowid (row : loc) : M value :=
  d ← load row;
  match Dict.get "rowid" d with
  | Some v => store row (Dict.remove "rowid" d);; mret v
  | None => raise (KeyError (VStr "rowid"))
  end.

(** [[row[column] for column in self.columns]] *)
Definition row_values (row : loc) : M (list value) :=
  d ← load row;
  self ← get_self;
  lift (traverse (fun column => Py.getitem (VDict d) column) (Dict.keys (columns self))).

Definition insert_data (row : loc) : M Z :=
  row_id ← pop_rowid row;
  self ← get_self;
  row_id ← match row_id with
           | VNone =>
               if decide (row_ids self = ∅) then mret 0
               else m ← lift (py_max (map_to_list (row_ids self)).*1); mret (m + 1)
           | VInt n => mret n
           | _ => raise (OutOfModel "a row identifier that is not Optional[int]")
           end;
  update_self (fun a => set_row_ids (<[row_id := row]> (row_ids a)) a);;
  values ← row_values row;
  let body := VDict [("range", opt_value VStr (_sheet_name self));
                     ("majorDimension", VStr "ROWS");
                     ("values", VList [VList values])] in
  response ← send {|
    req_method := POST;
    req_url := "https://sheets.googleapis.com/v4/spreadsheets/"
               +:+ str_opt (_spreadsheet_id self) +:+ "/values/"
               +:+ str_opt (_sheet_name self) +:+ ":append";
    req_headers := [];
    req_params := [("valueInputOption", "USER_ENTERED")];
    req_json := Some body |};
  payload ← json response;
  check_error payload;;
  mret row_id.

(** Return the 0-indexed number of a given row, defined by its values. *)
Definition _find_row_number (row : loc) : M Z :=
  values ← row_values row;
  self ← get_self;
  response ← send {|
    req_method := GET;
    req_url := "https://sheets.googleapis.com/v4/spreadsheets/"
               +:+ str_opt (_spreadsheet_id self) +:+ "/values/"
               +:+ str_opt (_sheet_name self);
    req_headers := [];
    req_params := [("valueRenderOption", "UNFORMATTED_VALUE")];
    req_json := None |};
  payload ← json response;
  check_error payload;;
  remote ← lift (v ← Py.getitem payload "values"; Py.iter v);
  match find_equal 0 remote (VList values) with
  | Some i => mret i
  | None =>
      d ← load row;
      message ← lift (fstring "Could not find row: " (VDict d));
      raise (ProgrammingError message)
  end.

Definition delete_data (row_id : Z) : M unit :=
  self ← get_self;
  match row_ids self !! row_id with
  | None =>
      message ← lift (fstring_int "Invalid row to delete: " row_id);
      raise (ProgrammingError [Lit message])
  | Some row =>
      row_number ← _find_row_number row;
      let body := VDict [("requests", VList [VDict [("deleteDimension", VDict [
        ("range", VDict [("sheetId", opt_value VInt (_sheet_id self));
                         ("dimension", VStr "ROWS");
                         ("startIndex", VInt row_number);
                         ("endIndex", VInt (row_number + 1))])])]])] in
      response ← send {|
        req_method := POST;
        req_url := "https://sheets.googleapis.com/v4/spreadsheets/"
                   +:+ str_opt (_spreadsheet_id self) +:+ ":batchUpdate";
        req_headers := [];
        req_params := [];
        req_json := Some body |};
      payload ← json response;
      check_error payload;;
      (* only delete row_id on a successful request *)
      update_self (fun a => set_row_ids (delete row_id (row_ids a)) a)
  end.

Definition update_data (row_id : Z) (row : loc) : M unit :=
  self ← get_self;
  match row_ids self !! row_id with
  | None =>
      message ← lift (fstring_int "Invalid row to update: " row_id);
      raise (ProgrammingError [Lit message])
  | Some current_row =>
      row_number ← _find_row_number current_row;
      let range_ := str_opt (_sheet_name self) +:+ "!A" +:+ Py.str_int (row_number + 1) in
      values ← row_values row;
      let body := VDict [("range", VStr range_);
                         ("majorDimension", VStr "ROWS");
                         ("values", VList [VList values])] in
      response ← send {|
        req_method := PUT;
        req_url := "https://sheets.googleapis.com/v4/spreadsheets/"
                   +:+ str_opt (_spreadsheet_id self) +:+ "/values/" +:+ range_;
        req_headers := [];
        req_params := [("valueInputOption", "USER_ENTERED")];
        req_json := Some body |};
      payload ← json response;
      check_error payload;;
      (* the row_id might change on an update *)
      new_row_id ← pop_rowid row;
      match new_row_id with
      | VInt new_row_id =>
          (if negb (new_row_id =? row_id)
           then update_self (fun a => set_row_ids (delete row_id (row_ids a)) a)
           else mret tt);;
          update_self (fun a => set_row_ids (<[new_row_id := row]> (row_ids a)) a)
      | _ => raise (OutOfModel "a row identifier that is not an int")
      end
  end.

End GSheetsAPI.
End Adapter.

(** ** The payload of the query endpoint

    The typed dicts [QueryResultsColumn], [QueryResultsCell],
    [QueryResultsRow], [QueryResultsTable] and [QueryResults], with the keys
    the provider sends, and the objects they are. A cell of a row may be
    [null]. *)

Record QueryResultsColumn := {
  col_id : string;
  col_label : string;
  col_type : string;
  col_pattern : option string
}.

Record QueryResultsCell := {
  cell_v : value;
  cell_f : option string
}.

Record QueryResultsRow := {
  row_c : list (option QueryResultsCell)
}.

Record QueryResultsTable := {
  table_cols : list QueryResultsColumn;
  table_rows : list QueryResultsRow;
  parsedNumHeaders : Z
}.

Definition optional_key (k : string) (x : option string) : dict :=
  match x with
  | Some s => [(k, VStr s)]
  | None => []
  end.

Definition column_value (col : QueryResultsColumn) : value :=
  VDict ([("id", VStr (col_id col)); ("label", VStr (col_label col));
          ("type", VStr (col_type col))] ++ optional_key "pattern" (col_pattern col)).

Definition cell_value (cell : option QueryResultsCell) : value :=
  match cell with
  | Some cell => VDict (("v", cell_v cell) :: optional_key "f" (cell_f cell))
  | None => VNone
  end.

Definition row_value (row : QueryResultsRow) : value :=
  VDict [("c", VList (List.map cell_value (row_c row)))].

Definition table_value (table : QueryResultsTable) : value :=
  VDict [("cols", VList (List.map column_value (table_cols table)));
         ("rows", VList (List.map row_value (table_rows table)));
         ("parsedNumHeaders", VInt (parsedNumHeaders table))].

(** A successful query. *)
Definition results_value (table : QueryResultsTable) : value :=
  VDict [("version", VStr "0.6"); ("reqId", VStr "0"); ("status", VStr "ok");
         ("sig", VStr "1453301915"); ("table", table_value table)].

(** The response of the query endpoint that carries a payload, with the
    prefix the provider puts before the JSON text when asked for it, and the
    response of the Sheets API that carries one: a JSON text. *)
Definition json_response (payload : value) : Response :=
  {| status_code := 200; text := JSON_PAYLOAD_PREFIX +:+ "{...}"; body := Some payload |}.

Definition plain_response (payload : value) : Response :=
  {| status_code := 200; text := "{...}"; body := Some payload |}.

(** A session that answers the n-th request with the n-th answer. *)
Definition scripted (answers : list (res Response)) (sent : list Request)
    (req : Request) : res Response :=
  nth (length sent) answers (Raise (TransportError "no answer")).

(** ** The query translator *)

(** Modelled from the spec: the filters of [shillelagh.filters] and the
    function [build_sql] of [shillelagh.lib], which the adapter imports and
    which are not in this file. It writes [SELECT *] with the predicates,
    the ordering and the row offset, names the columns by their provider
    identifier, and fails with the impossible-filter condition when the
    bounds on a column can never be satisfied. Literals are numbers. *)
Module Translator.

Inductive Filter :=
| FEqual (value : Z)
| FRange (start end_ : option Z) (include_start include_end : bool).

Inductive RequestedOrder := ASC | DESC.

Definition impossible (f : Filter) : bool :=
  match f with
  | FRange (Some a) (Some b) include_start include_end =>
      (b <? a) || ((a =? b) && negb (include_start && include_end))
  | _ => false
  end.

Definition conditions (id : string) (f : Filter) : list string :=
  match f with
  | FEqual v => [id +:+ " = " +:+ Py.str_int v]
  | FRange start end_ include_start include_end =>
      match start with
      | Some a => [id +:+ (if include_start then " >= " else " > ") +:+ Py.str_int a]
      | None => []
      end ++
      match end_ with
      | Some b => [id +:+ (if include_end then " <= " else " < ") +:+ Py.str_int b]
      | None => []
      end
  end.

Definition column_id (column_map : odict value) (name : string) : res string :=
  match Dict.get name column_map with
  | Some (VStr id) => Ok id
  | _ => Raise (KeyError (VStr name))
  end.

(** Modelled from the spec: [build_sql] of [shillelagh.lib], the translation
    of the filters and the ordering into the query language of the
    provider. *)
Definition build_sql {Field : Type} (columns : odict Field) (bounds : odict Filter)
    (order : list (string * RequestedOrder)) (column_map : odict value)
    (offset : Z) : res string :=
  if existsb (fun '(_, f) => impossible f) bounds then Raise ImpossibleFilterError
  else
    where_ ← traverse (fun '(name, f) =>
               id ← column_id column_map name; Ok (conditions id f)) bounds;
    order_by ← traverse (fun '(name, o) =>
               id ← column_id column_map name;
               Ok (id +:+ match o with ASC => "" | DESC => " DESC" end)) order;
    let where_ := List.concat where_ in
    Ok ("SELECT *"
        +:+ match where_ with
            | [] => ""
            | _ => " WHERE " +:+ Str.join " AND " where_
            end
        +:+ match order_by with
            | [] => ""
            | _ => " ORDER BY " +:+ Str.join ", " order_by
            end
        +:+ (if 0 <? offset then " OFFSET " +:+ Py.str_int offset else "")).

End Translator.

(** ** The adapter in a closed world

    The methods with the one-zone clock, the model of [urllib.parse], the
    modelled translator and a scripted session. *)

Module World.

Definition Field := Adapter.Field unit.
Definition GSheetsAPI := Adapter.GSheetsAPI unit.
Definition state := Adapter.state unit.

Definition build_sql := @Translator.build_sql Field.

(** The adapter for the sheet with id 0 of a document, before its columns
    are known. *)
Definition fresh : GSheetsAPI :=
  {| Adapter.url := "https://docs.google.com/spreadsheets/d/1/gviz/tq?gid=0";
     Adapter._offset := 0;
     Adapter._spreadsheet_id := Some "1";
     Adapter._sheet_id := Some 0;
     Adapter._sheet_name := Some "Sheet1";
     Adapter._timezone := Some tt;
     Adapter._column_map := [];
     Adapter.columns := [];
     Adapter.row_ids := ∅ |}.

Definition start (a : GSheetsAPI) : state :=
  {| Adapter.self := a; Adapter.heap := ∅; Adapter.next_loc := O; Adapter.log := [] |}.

(** The state in which the adapter knows the rows [rows] by the given
    identifiers, and the caller holds the dict objects [others] besides. *)
Definition with_rows (a : GSheetsAPI) (rows : list (Z * dict)) (others : list dict)
    : state :=
  let n := length rows in
  {| Adapter.self :=
       Adapter.set_row_ids unit
         (list_to_map (zip (List.map fst rows) (seq 0 n))) a;
     Adapter.heap :=
       list_to_map (zip (seq 0 (n + length others)) (List.map snd rows ++ others));
     Adapter.next_loc := (n + length others)%nat;
     Adapter.log := [] |}.

Section Scripted.
Variable answers : list (res Response).

Definition _set_columns :=
  Adapter._set_columns unit Urllib.cpython (scripted answers).
Definition get_data :=
  Adapter.get_data unit Urllib.cpython (scripted answers)
    Translator.Filter Translator.RequestedOrder build_sql.
Definition insert_data := Adapter.insert_data unit (scripted answers).
Definition _find_row_number := Adapter._find_row_number unit (scripted answers).
Definition delete_data := Adapter.delete_data unit (scripted answers).
Definition update_data := Adapter.update_data unit (scripted answers).
End Scripted.

(** What a test reads of a state: the offset, the column map, the labels
    of the schema, the rows known by identifier, and the number of
    requests sent. *)
Definition rows_known (s : state) : list (Z * option dict) :=
  List.map (fun '(i, l) => (i, Adapter.heap _ s !! l))
    (map_to_list (Adapter.row_ids _ (Adapter.self _ s))).

Definition observe (s : state)
    : Z * odict value * list string * list (Z * option dict) * nat :=
  (Adapter._offset _ (Adapter.self _ s),
   Adapter._column_map _ (Adapter.self _ s),
   Dict.keys (Adapter.columns _ (Adapter.self _ s)),
   rows_known s,
   length (Adapter.log _ s)).

(** *** A sheet with a header row *)

Definition column (id label type : string) : QueryResultsColumn :=
  {| col_id := id; col_label := label; col_type := type; col_pattern := None |}.

Definition cell (v : value) : option QueryResultsCell :=
  Some {| cell_v := v; cell_f := None |}.

Definition table (cols : list QueryResultsColumn)
    (rows : list (list (option QueryResultsCell))) : QueryResultsTable :=
  {| table_cols := cols;
     table_rows := List.map (fun c => {| row_c := c |}) rows;
     parsedNumHeaders := 0 |}.

Definition answer (t : QueryResultsTable) : res Response :=
  Ok (json_response (results_value t)).

(** The sheet of the docstring of [QueryResults]: a country and a count. *)
Definition countries : QueryResultsTable :=
  table [column "A" "country" "string"; column "B" "cnt" "number"]
    [[cell (VStr "BR"); cell (VFloat (FFin 1 0))]].

(** The adapter once it has resolved the columns of that sheet. *)
Definition sheet : GSheetsAPI :=
  Adapter.self unit (snd (_set_columns [answer countries] (start fresh))).

(** *** Sheets without a header row: every label is empty *)

Definition headerless (first_row : list (option QueryResultsCell)) : QueryResultsTable :=
  table [column "A" "" "string"; column "B" "" "string"] [first_row].

(** The payload of the values of a sheet. *)
Definition values_answer (rows : list (list value)) : res Response :=
  Ok (plain_response (VDict [("range", VStr "Sheet1!A1:Z1000");
                             ("majorDimension", VStr "ROWS");
                             ("values", VList (List.map VList rows))])).

(** The payload of a mutation that went through. *)
Definition done_answer : res Response :=
  Ok (plain_response (VDict [("spreadsheetId", VStr "1")])).

Definition error_answer (message : string) : res Response :=
  Ok (plain_response (VDict [("error", VDict [("code", VInt 400);
                                              ("message", VStr message)])])).

(** *** States and sessions of the examples *)

(** Three rows known by the identifiers 0, 1 and 2, and a row of the
    caller that comes without an identifier. *)
Definition three_rows : state :=
  with_rows sheet
    [(0, [("country", VStr "BR"); ("cnt", VInt 1)]);
     (1, [("country", VStr "AR"); ("cnt", VInt 2)]);
     (2, [("country", VStr "ZA"); ("cnt", VInt 3)])]
    [[("country", VStr "FR"); ("cnt", VInt 4); ("rowid", VNone)]].

(** The values of the sheet: the header row, then a row said twice. *)
Definition remote_values : list (list value) :=
  [[VStr "country"; VStr "cnt"];
   [VStr "AR"; VFloat (FFin 2 0)];
   [VStr "BR"; VFloat (FFin 1 0)];
   [VStr "BR"; VInt 1]].

(** A sheet with two columns without a label besides the first. *)
Definition sparse : QueryResultsTable :=
  table [column "A" "country" "string"; column "B" "" "number";
         column "C" " " "number"] [].

End World.
(** ** The constructor of the adapter

    [get_credentials], [GSheetsAPI.supports], [_get_session],
    [_set_metadata] and [__init__]. The credentials objects of
    [google.oauth2], the sessions and [dateutil.tz.gettz] are parameters. *)

(** Google API scopes for authentication *)
Definition SCOPES : list string :=
  ["https://www.googleapis.com/auth/drive.readonly";
   "https://www.googleapis.com/auth/spreadsheets";
   "https://spreadsheets.google.com/feeds"].

(** What the adapter calls of [google.oauth2] and [google.auth]: the
    credentials made of an access token, of the file of a service account
    and of the description of one (with the scopes and the subject), and the
    session that sends requests with credentials. *)
Record google_auth (Credentials : Type) := {
  oauth2_Credentials : string -> res Credentials;
  from_service_account_file :
    string -> list string -> option string -> res Credentials;
  from_service_account_info :
    dict -> list string -> option string -> res Credentials;
  AuthorizedSession : Credentials -> list Request -> Request -> res Response
}.
Arguments oauth2_Credentials {Credentials}.
Arguments from_service_account_file {Credentials}.
Arguments from_service_account_info {Credentials}.
Arguments AuthorizedSession {Credentials}.

(** [l[i]] for a list of strings and an index that is not negative. *)
Definition item (l : list string) (i : nat) : res string :=
  match nth_error l i with
  | Some x => Ok x
  | None => Raise IndexError
  end.

(** The loop over the sheets of the document: the title of the first sheet
    whose [sheetId] is equal to [sheet_id], if there is one. A sheet after
    it is not looked at. *)
Fixpoint sheet_title (sheet_id : Z) (sheets : list value) : res (option value) :=
  match sheets with
  | [] => Ok None
  | sheet :: sheets' =>
      properties ← Py.getitem sheet "properties";
      id ← Py.getitem properties "sheetId";
      if Py.eq id (VInt sheet_id) then
        properties ← Py.getitem sheet "properties";
        title ← Py.getitem properties "title";
        Ok (Some title)
      else sheet_title sheet_id sheets'
  end.

Module Constructor.
Section Constructor.

Variable tzinfo : Type.
Variable urllib : Url.urllib_parse.
Variable Credentials : Type.
Variable google : google_auth Credentials.

(** [requests.Session()], and [dateutil.tz.gettz], which gives [None] for a
    name it does not know. *)
Variable Session : list Request -> Request -> res Response.
Variable gettz : value -> res (option tzinfo).

Definition set_url (x : string) (a : Adapter.GSheetsAPI tzinfo) : Adapter.GSheetsAPI tzinfo :=
  {| Adapter.url := x; Adapter._offset := Adapter._offset _ a;
     Adapter._spreadsheet_id := Adapter._spreadsheet_id _ a;
     Adapter._sheet_id := Adapter._sheet_id _ a;
     Adapter._sheet_name := Adapter._sheet_name _ a;
     Adapter._timezone := Adapter._timezone _ a;
     Adapter._column_map := Adapter._column_map _ a;
     Adapter.columns := Adapter.columns _ a; Adapter.row_ids := Adapter.row_ids _ a |}.

Definition set_spreadsheet_id (x : option string) (a : Adapter.GSheetsAPI tzinfo)
    : Adapter.GSheetsAPI tzinfo :=
  {| Adapter.url := Adapter.url _ a; Adapter._offset := Adapter._offset _ a;
     Adapter._spreadsheet_id := x;
     Adapter._sheet_id := Adapter._sheet_id _ a;
     Adapter._sheet_name := Adapter._sheet_name _ a;
     Adapter._timezone := Adapter._timezone _ a;
     Adapter._column_map := Adapter._column_map _ a;
     Adapter.columns := Adapter.columns _ a; Adapter.row_ids := Adapter.row_ids _ a |}.

Definition set_sheet_id (x : option Z) (a : Adapter.GSheetsAPI tzinfo)
    : Adapter.GSheetsAPI tzinfo :=
  {| Adapter.url := Adapter.url _ a; Adapter._offset := Adapter._offset _ a;
     Adapter._spreadsheet_id := Adapter._spreadsheet_id _ a;
     Adapter._sheet_id := x;
     Adapter._sheet_name := Adapter._sheet_name _ a;
     Adapter._timezone := Adapter._timezone _ a;
     Adapter._column_map := Adapter._column_map _ a;
     Adapter.columns := Adapter.columns _ a; Adapter.row_ids := Adapter.row_ids _ a |}.

Definition set_sheet_name (x : option string) (a : Adapter.GSheetsAPI tzinfo)
    : Adapter.GSheetsAPI tzinfo :=
  {| Adapter.url := Adapter.url _ a; Adapter._offset := Adapter._offset _ a;
     Adapter._spreadsheet_id := Adapter._spreadsheet_id _ a;
     Adapter._sheet_id := Adapter._sheet_id _ a;
     Adapter._sheet_name := x;
     Adapter._timezone := Adapter._timezone _ a;
     Adapter._column_map := Adapter._column_map _ a;
     Adapter.columns := Adapter.columns _ a; Adapter.row_ids := Adapter.row_ids _ a |}.

Definition set_timezone (x : option tzinfo) (a : Adapter.GSheetsAPI tzinfo)
    : Adapter.GSheetsAPI tzinfo :=
  {| Adapter.url := Adapter.url _ a; Adapter._offset := Adapter._offset _ a;
     Adapter._spreadsheet_id := Adapter._spreadsheet_id _ a;
     Adapter._sheet_id := Adapter._sheet_id _ a;
     Adapter._sheet_name := Adapter._sheet_name _ a;
     Adapter._timezone := x;
     Adapter._column_map := Adapter._column_map _ a;
     Adapter.columns := Adapter.columns _ a; Adapter.row_ids := Adapter.row_ids _ a |}.

(** An argument that is [None] or empty is not used; the first of the
    three that is there makes the credentials, and the ones after it are
    not looked at. *)
Definition get_credentials (access_token service_account_file : option string)
    (service_account_info : option dict) (subject : option string)
    : res (option Credentials) :=
  match access_token with
  | Some ((String _ _) as access_token) =>
      c ← oauth2_Credentials google access_token; Ok (Some c)
  | _ =>
      match service_account_file with
      | Some ((String _ _) as service_account_file) =>
          c ← from_service_account_file google service_account_file SCOPES subject;
          Ok (Some c)
      | _ =>
          match service_account_info with
          | Some ((_ :: _) as service_account_info) =>
              c ← from_service_account_info google service_account_info SCOPES subject;
              Ok (Some c)
          | _ => Ok None
          end
      end
  end.

(** *** class GSheetsAPI(Adapter) *)

Definition supports (uri : string) : res bool :=
  parsed ← Url.urlparse urllib uri;
  Ok (String.eqb (Url.netloc parsed) "docs.google.com"
      && Str.startswith "/spreadsheets/" (Url.path parsed)).

(** [credentials] is the attribute [self.credentials], which the
    constructor sets once; a credentials object is true. *)
Definition _get_session (credentials : option Credentials)
    : list Request -> Request -> res Response :=
  match credentials with
  | Some credentials => AuthorizedSession google credentials
  | None => Session
  end.

(** Get spreadsheet ID, sheet ID, and sheet name. The warning that is
    logged when no sheet has the id is the only effect that is not in the
    state. *)
Definition _set_metadata (credentials : option Credentials) (uri : string)
    : Adapter.M tzinfo unit :=
  parts ← Adapter.lift tzinfo (Url.urlparse urllib uri);
  spreadsheet_id ← Adapter.lift tzinfo (item (Str.split "/" (Url.path parts)) 3);
  Adapter.update_self tzinfo (set_spreadsheet_id (Some spreadsheet_id));;
  qs ← Adapter.lift tzinfo (Url.parse_qs urllib (Url.query parts));
  sheet_id ← Adapter.lift tzinfo
    (match Dict.get "gid" qs with
     | Some vs => v ← Url.last_item vs; Py.int v
     | None =>
         if Str.startswith "gid=" (Url.fragment parts)
         then Py.int (Str.slice (Some (Str.len "gid=")) None (Url.fragment parts))
         else Ok 0
     end);
  Adapter.update_self tzinfo (set_sheet_id (Some sheet_id));;
  match credentials with
  | None => mret tt
  | Some _ =>
      self ← Adapter.get_self tzinfo;
      response ← Adapter.send tzinfo (_get_session credentials) {|
        req_method := GET;
        req_url := "https://sheets.googleapis.com/v4/spreadsheets/"
                   +:+ str_opt (Adapter._spreadsheet_id _ self)
                   +:+ "?includeGridData=false";
        req_headers := [];
        req_params := [];
        req_json := None |};
      payload ← Adapter.json tzinfo response;
      Adapter.check_error tzinfo payload;;
      timezone ← Adapter.lift tzinfo
        (properties ← Py.getitem payload "properties";
         name ← Py.getitem properties "timeZone";
         gettz name);
      Adapter.update_self tzinfo (set_timezone timezone);;
      sheets ← Adapter.lift tzinfo (sheets ← Py.getitem payload "sheets"; Py.iter sheets);
      title ← Adapter.lift tzinfo (sheet_title sheet_id sheets);
      match title with
      | Some (VStr title) => Adapter.update_self tzinfo (set_sheet_name (Some title))
      | Some VNone => Adapter.update_self tzinfo (set_sheet_name None)
      | Some _ => Adapter.raise tzinfo (OutOfModel "a sheet title that is not Optional[str]")
      | None => mret tt
      end
  end.

(** [GSheetsAPI.__init__]: a method of the new object, whose attributes
    are the ones assigned here, in this order. It returns the attribute
    [credentials], which is no field of the record of the adapter. *)
Definition __init__ (uri : string) (access_token service_account_file : option string)
    (service_account_info : option dict) (subject : option string)
    : Adapter.M tzinfo (option Credentials) :=
  url ← Adapter.lift tzinfo (Url.get_url urllib uri 0 0 None);
  Adapter.update_self tzinfo (set_url url);;
  credentials ← Adapter.lift tzinfo
    (get_credentials access_token service_account_file service_account_info subject);
  Adapter.update_self tzinfo (Adapter.set_offset tzinfo 0);;
  (* extra metadata *)
  Adapter.update_self tzinfo (set_spreadsheet_id None);;
  Adapter.update_self tzinfo (set_sheet_id None);;
  Adapter.update_self tzinfo (set_sheet_name None);;
  Adapter.update_self tzinfo (set_timezone None);;
  _set_metadata credentials uri;;
  (* determine columns *)
  Adapter.update_self tzinfo (Adapter.set_columns tzinfo []);;
  Adapter._set_columns tzinfo urllib (_get_session credentials);;
  (* store row ids for DML *)
  Adapter.update_self tzinfo (Adapter.set_row_ids tzinfo ∅);;
  mret credentials.

End Constructor.
End Constructor.
(** ** The payload of a failed query

    The typed dict [QueryResultsError] and the failed [QueryResults] of the
    docstring. *)

Record QueryResultsError := {
  reason : string;
  message : string;
  detailed_message : string
}.

Definition error_value (error : QueryResultsError) : value :=
  VDict [("reason", VStr (reason error)); ("message", VStr (message error));
         ("detailed_message", VStr (detailed_message error))].

(** A failed query. *)
Definition failed_results (errors : list QueryResultsError) : value :=
  VDict [("version", VStr "0.6"); ("reqId", VStr "0"); ("status", VStr "error");
         ("errors", VList (List.map error_value errors))].

(** ** The payload of the metadata of a document

    What [_set_metadata] reads of it: the time zone of the document, and the
    id and the title of each of its sheets. *)

Record SheetProperties := {
  sheetId : Z;
  title : string
}.

Definition sheet_value (sheet : SheetProperties) : value :=
  VDict [("properties", VDict [("sheetId", VInt (sheetId sheet));
                               ("title", VStr (title sheet))])].

Definition spreadsheet_value (timeZone : string) (sheets : list SheetProperties) : value :=
  VDict [("properties", VDict [("timeZone", VStr timeZone)]);
         ("sheets", VList (List.map sheet_value sheets))].
(** ** The constructor in a closed world

    The credentials are the text they are made of; a session answers from a
    script, the one with credentials and the one without each from its own;
    the only time zone is the one named UTC. *)

Module Office.

Inductive Credentials :=
| Token (access_token : string)
| AccountFile (file : string) (scopes : list string) (subject : option string)
| AccountInfo (info : dict) (scopes : list string) (subject : option string).

Definition google (authorized : list (res Response)) : google_auth Credentials :=
  {| oauth2_Credentials := fun token => Ok (Token token);
     from_service_account_file := fun file scopes subject =>
       Ok (AccountFile file scopes subject);
     from_service_account_info := fun info scopes subject =>
       Ok (AccountInfo info scopes subject);
     AuthorizedSession := fun _ => scripted authorized |}.

Definition gettz (name : value) : res (option unit) :=
  match name with
  | VStr name => Ok (if String.eqb name "UTC" then Some tt else None)
  | _ => Raise TypeError
  end.

Section Scripted.

(** The answers to the requests sent with credentials, and to the ones
    sent without. *)
Variable authorized : list (res Response).
Variable anonymous : list (res Response).

Definition get_credentials :=
  Constructor.get_credentials Credentials (google authorized).
Definition supports := Constructor.supports Urllib.cpython.
Definition _set_metadata :=
  Constructor._set_metadata unit Urllib.cpython Credentials (google authorized)
    (scripted anonymous) gettz.
Definition __init__ :=
  Constructor.__init__ unit Urllib.cpython Credentials (google authorized)
    (scripted anonymous) gettz.

End Scripted.

(** The object before its constructor has run: no attribute of it is
    read before it is assigned. *)
Definition blank : World.GSheetsAPI :=
  {| Adapter.url := ""; Adapter._offset := 0;
     Adapter._spreadsheet_id := None; Adapter._sheet_id := None;
     Adapter._sheet_name := None; Adapter._timezone := None;
     Adapter._column_map := []; Adapter.columns := [];
     Adapter.row_ids := ∅ |}.

(** The answer to the request for the metadata of a document in the zone
    UTC, with two sheets. *)
Definition metadata_answer : res Response :=
  Ok (plain_response (spreadsheet_value "UTC"
        [{| sheetId := 0; title := "Sheet1" |}; {| sheetId := 7; title := "Sales" |}])).

End Office.

(** ** Definitions used to state the properties *)

(** The text the provider sends for a [datetime] cell: [Date(y,m,d,H,M,S)]
    with the month counted from zero (the docstring of [GSheetsDate.parse]
    shows the form for a date). *)
Definition provider_datetime {tzinfo : Type} (v : Fields.datetime tzinfo) : string :=
  "Date(" +:+ Py.str_int (Fields.year v) +:+ "," +:+ Py.str_int (Fields.month v - 1)
  +:+ "," +:+ Py.str_int (Fields.day v) +:+ "," +:+ Py.str_int (Fields.hour v)
  +:+ "," +:+ Py.str_int (Fields.minute v) +:+ "," +:+ Py.str_int (Fields.second v) +:+ ")".

(** A [datetime] cut to the second, placed in the zone [tz]. *)
Definition to_second {tzinfo : Type} (tz : option tzinfo) (v : Fields.datetime tzinfo)
    : Fields.datetime tzinfo :=
  Fields.DateTime (Fields.year v) (Fields.month v) (Fields.day v)
    (Fields.hour v) (Fields.minute v) (Fields.second v) 0 tz.

Fixpoint all_digits (s : string) : bool :=
  match s with
  | EmptyString => true
  | String c s' => match Py.digit c with Some _ => all_digits s' | None => false end
  end.

(** The number a string of decimal digits denotes, after the digits [acc]. *)
Fixpoint digits_value (acc : Z) (s : string) : Z :=
  match s with
  | EmptyString => acc
  | String c s' =>
      match Py.digit c with
      | Some d => digits_value (10 * acc + d) s'
      | None => acc
      end
  end.

(** A [datetime] taken to the zone of the sheet, when the sheet has one. *)
Definition in_sheet_zone {tzinfo : Type}
    (astimezone : Fields.datetime tzinfo -> tzinfo -> res (Fields.datetime tzinfo))
    (timezone : option tzinfo) (v : Fields.datetime tzinfo)
    : res (Fields.datetime tzinfo) :=
  match timezone with
  | Some tz => astimezone v tz
  | None => Ok v
  end.

(** The text [s] is the number [n] written with two digits. *)
Definition two_digits (s : string) (n : Z) : Prop :=
  String.length s = 2%nat /\ all_digits s = true /\ Py.int s = Ok n.

(** Formatting a [datetime] and parsing the text back, with one field. *)
Definition format_then_parse {tzinfo : Type}
    (astimezone : Fields.datetime tzinfo -> tzinfo -> res (Fields.datetime tzinfo))
    (timezone : option tzinfo) (v : Fields.datetime tzinfo)
    : res (option (Fields.datetime tzinfo)) :=
  s ← Fields.GSheetsDateTime_format astimezone timezone (Some v);
  Fields.GSheetsDateTime_parse timezone s.

(** What the query string gives for a name: the last of its values, read as
    a number, or the default when the name is absent. *)
Definition int_param (name : string) (qs : odict (list string)) (default : Z) : res Z :=
  match Dict.get name qs with
  | Some vs => v ← Url.last_item vs; Py.int v
  | None => Ok default
  end.

Definition str_param (name : string) (qs : odict (list string)) : res (option string) :=
  match Dict.get name qs with
  | Some vs => v ← Url.last_item vs; Ok (Some v)
  | None => Ok None
  end.

(** The first of two optional values that is given. *)
Definition first_given {A : Type} (x y : option A) : option A :=
  match x with
  | Some _ => x
  | None => y
  end.

(** The sheet id of a fragment [gid=N], which comes before the one of the
    query string. *)
Definition fragment_gid (fragment : string) (query_gid : Z) : res Z :=
  if Str.startswith "gid=" fragment
  then Py.int (Str.slice (Some 4) None fragment)
  else Ok query_gid.

(** The path of the tabular-query endpoint for the path of a spreadsheet. *)
Definition endpoint_path (path : string) : string :=
  Str.rstrip (Ascii.eqb "/")
    (if Str.endswith "/edit" path then Str.slice None (Some (-5)) path else path)
  +:+ "/gviz/tq".

(** The arguments of the endpoint: [headers] when positive, then the sheet
    by name or else by id. *)
Definition endpoint_args (headers gid : Z) (sheet : option string) : dict :=
  (if 0 <? headers then [("headers", VInt headers)] else [])
  ++ match sheet with
     | Some name => [("sheet", VStr name)]
     | None => [("gid", VInt gid)]
     end.

Section AdapterSpec.

Context {tzinfo : Type}.

(** The adapter and the rows are the same in both states. *)
Definition same_objects (s s' : Adapter.state tzinfo) : Prop :=
  Adapter.self _ s' = Adapter.self _ s /\ Adapter.heap _ s' = Adapter.heap _ s.

(** A method that changes neither the adapter nor the rows. *)
Definition keeps {A : Type} (m : Adapter.M tzinfo A) : Prop :=
  forall s, same_objects s (snd (m s)).

(** The request for all the values of the sheet. *)
Definition values_request (a : Adapter.GSheetsAPI tzinfo) : Request :=
  {| req_method := GET;
     req_url := "https://sheets.googleapis.com/v4/spreadsheets/"
                +:+ str_opt (Adapter._spreadsheet_id _ a) +:+ "/values/"
                +:+ str_opt (Adapter._sheet_name _ a);
     req_headers := [];
     req_params := [("valueRenderOption", "UNFORMATTED_VALUE")];
     req_json := None |}.

End AdapterSpec.

(** The last column of [cols] whose trimmed label is [k]. *)
Definition last_labelled (k : string) (cols : list QueryResultsColumn)
    : option QueryResultsColumn :=
  List.find (fun c => String.eqb (Str.strip (col_label c)) k) (List.rev cols).

(** A label that is not empty. *)
Definition labelled (c : QueryResultsColumn) : bool :=
  negb (String.eqb (col_label c) "").

(** A column with another label. *)
Definition with_label (l : string) (c : QueryResultsColumn) : QueryResultsColumn :=
  {| col_id := col_id c; col_label := l; col_type := col_type c;
     col_pattern := col_pattern c |}.

(** The columns labelled with their identifiers. *)
Definition label_from_ids (cols : list QueryResultsColumn) : list QueryResultsColumn :=
  List.map (fun c => with_label (col_id c) c) cols.

(** The columns labelled with the texts of a row, one after the other; the
    columns beyond the row keep their label. *)
Fixpoint label_from_row (cols : list QueryResultsColumn) (texts : list string)
    : list QueryResultsColumn :=
  match cols, texts with
  | c :: cols', l :: texts' => with_label l c :: label_from_row cols' texts'
  | _, _ => cols
  end.

(** The texts of the cells of a row that face a column, one after the
    other, when each of these cells holds a text: none of them is [null] or
    holds another object. The cells beyond the columns are not looked at. *)
Fixpoint facing_texts (cols : list QueryResultsColumn)
    (cells : list (option QueryResultsCell)) : option (list string) :=
  match cols, cells with
  | _ :: cols', Some cell :: cells' =>
      match cell_v cell with
      | VStr l => cons l <$> facing_texts cols' cells'
      | _ => None
      end
  | _ :: _, None :: _ => None
  | _, _ => Some []
  end.

(** The columns of a table as schema resolution labels them: as the
    provider does when it gives a label to one of them at least; else with
    the texts of the first row; and with their identifiers when there is
    no row. [None] when the first row cannot give the labels. *)
Definition resolved_columns (t : QueryResultsTable) : option (list QueryResultsColumn) :=
  if existsb labelled (table_cols t) then Some (table_cols t)
  else
    match table_rows t with
    | [] => Some (label_from_ids (table_cols t))
    | row :: _ =>
        label_from_row (table_cols t) <$> facing_texts (table_cols t) (row_c row)
    end.

(** The first row of a table is read as its labels. *)
Definition first_row_is_header (t : QueryResultsTable) : bool :=
  negb (existsb labelled (table_cols t))
  && match table_rows t with [] => false | _ :: _ => true end.

(** A cell that holds a text, with its formatted text if any. *)
Definition text_cell (cell : string * option string) : option QueryResultsCell :=
  Some {| cell_v := VStr (fst cell); cell_f := snd cell |}.
(** ** Definitions used to state the properties of the rest of the file *)

(** The text the provider sends for a [date] cell, as the docstring of
    [GSheetsDate.parse] shows it: [Date(2018,0,1)], the month counted from
    zero. [date_fields] is the text between the parentheses. *)
Definition date_fields (d : Fields.date) : string :=
  Py.str_int (Fields.d_year d) +:+ "," +:+ Py.str_int (Fields.d_month d - 1)
  +:+ "," +:+ Py.str_int (Fields.d_day d).

Definition provider_date (d : Fields.date) : string :=
  "Date(" +:+ date_fields d +:+ ")".

(** The column types the adapter knows, and the ones whose fields are
    filtered by range. *)
Definition range_types : list string := ["number"; "date"; "datetime"; "timeofday"].

Definition known_types : list string := "string" :: "boolean" :: range_types.

Section MoreAdapterSpec.

Context {tzinfo : Type}.

(** The request of a query. *)
Definition query_request (urllib : Url.urllib_parse) (a : Adapter.GSheetsAPI tzinfo)
    (sql : string) : Request :=
  {| req_method := GET;
     req_url := Adapter.url _ a +:+ "&tq=" +:+ Url.quote urllib sql "/()";
     req_headers := [("X-DataSource-Auth", "true")];
     req_params := [];
     req_json := None |}.

(** The state after one more request, and nothing else. *)
Definition sent (s : Adapter.state tzinfo) (req : Request) : Adapter.state tzinfo :=
  {| Adapter.self := Adapter.self _ s; Adapter.heap := Adapter.heap _ s;
     Adapter.next_loc := Adapter.next_loc _ s;
     Adapter.log := Adapter.log _ s ++ [req] |}.

(** The attributes that schema resolution does not assign. *)
Definition same_sheet (a a' : Adapter.GSheetsAPI tzinfo) : Prop :=
  Adapter.url _ a' = Adapter.url _ a
  /\ Adapter._spreadsheet_id _ a' = Adapter._spreadsheet_id _ a
  /\ Adapter._sheet_id _ a' = Adapter._sheet_id _ a
  /\ Adapter._sheet_name _ a' = Adapter._sheet_name _ a
  /\ Adapter._timezone _ a' = Adapter._timezone _ a
  /\ Adapter.row_ids _ a' = Adapter.row_ids _ a.

(** A step that assigns nothing but the offset, the map of the columns and
    the schema, and sends nothing. *)
Definition schema_step (s s' : Adapter.state tzinfo) : Prop :=
  Adapter.heap _ s' = Adapter.heap _ s
  /\ Adapter.next_loc _ s' = Adapter.next_loc _ s
  /\ Adapter.log _ s' = Adapter.log _ s
  /\ same_sheet (Adapter.self _ s) (Adapter.self _ s').

Definition schema_only {A : Type} (m : Adapter.M tzinfo A) : Prop :=
  forall s, schema_step s (snd (m s)).

(** The adapter [a'] is [a] but for the rows it knows. *)
Definition only_rows (a a' : Adapter.GSheetsAPI tzinfo) : Prop :=
  Adapter.set_row_ids tzinfo (Adapter.row_ids _ a) a' = a.

(** The step of the loop of get_data: the row is stored under its number,
    and then receives its number under the key [rowid]. *)
Definition register : Z * loc -> Adapter.M tzinfo unit :=
  fun '(i, row) =>
    Adapter.update_self tzinfo
      (fun a => Adapter.set_row_ids tzinfo (<[i := row]> (Adapter.row_ids _ a)) a);;
    d ← Adapter.load tzinfo row;
    Adapter.store tzinfo row (Dict.set "rowid" (VInt i) d).

(** The requests of the mutations: the one that appends the values of a
    row, the one that writes them at the row number [row_number], and the
    one that deletes the row at that number. *)
Definition append_request (a : Adapter.GSheetsAPI tzinfo) (values : list value)
    : Request :=
  {| req_method := POST;
     req_url := "https://sheets.googleapis.com/v4/spreadsheets/"
                +:+ str_opt (Adapter._spreadsheet_id _ a) +:+ "/values/"
                +:+ str_opt (Adapter._sheet_name _ a) +:+ ":append";
     req_headers := [];
     req_params := [("valueInputOption", "USER_ENTERED")];
     req_json := Some (VDict [("range", opt_value VStr (Adapter._sheet_name _ a));
                              ("majorDimension", VStr "ROWS");
                              ("values", VList [VList values])]) |}.

Definition update_range (a : Adapter.GSheetsAPI tzinfo) (row_number : Z) : string :=
  str_opt (Adapter._sheet_name _ a) +:+ "!A" +:+ Py.str_int (row_number + 1).

Definition update_request (a : Adapter.GSheetsAPI tzinfo) (row_number : Z)
    (values : list value) : Request :=
  {| req_method := PUT;
     req_url := "https://sheets.googleapis.com/v4/spreadsheets/"
                +:+ str_opt (Adapter._spreadsheet_id _ a) +:+ "/values/"
                +:+ update_range a row_number;
     req_headers := [];
     req_params := [("valueInputOption", "USER_ENTERED")];
     req_json := Some (VDict [("range", VStr (update_range a row_number));
                              ("majorDimension", VStr "ROWS");
                              ("values", VList [VList values])]) |}.

Definition delete_request (a : Adapter.GSheetsAPI tzinfo) (row_number : Z) : Request :=
  {| req_method := POST;
     req_url := "https://sheets.googleapis.com/v4/spreadsheets/"
                +:+ str_opt (Adapter._spreadsheet_id _ a) +:+ ":batchUpdate";
     req_headers := [];
     req_params := [];
     req_json := Some (VDict [("requests", VList [VDict [("deleteDimension", VDict [
       ("range", VDict [("sheetId", opt_value VInt (Adapter._sheet_id _ a));
                        ("dimension", VStr "ROWS");
                        ("startIndex", VInt row_number);
                        ("endIndex", VInt (row_number + 1))])])]])]) |}.

(** The values of a row under the columns of the schema, in their order. *)
Definition values_of (a : Adapter.GSheetsAPI tzinfo) (d : dict) : res (list value) :=
  traverse (fun column => Py.getitem (VDict d) column) (Dict.keys (Adapter.columns _ a)).

(** The state in which the object at [l] is [d], and the one in which the
    adapter knows the rows [m]. *)
Definition with_object (l : loc) (d : dict) (s : Adapter.state tzinfo)
    : Adapter.state tzinfo :=
  {| Adapter.self := Adapter.self _ s; Adapter.heap := <[l := d]> (Adapter.heap _ s);
     Adapter.next_loc := Adapter.next_loc _ s; Adapter.log := Adapter.log _ s |}.

Definition with_row_ids (m : gmap Z loc) (s : Adapter.state tzinfo)
    : Adapter.state tzinfo :=
  {| Adapter.self := Adapter.set_row_ids tzinfo m (Adapter.self _ s);
     Adapter.heap := Adapter.heap _ s;
     Adapter.next_loc := Adapter.next_loc _ s; Adapter.log := Adapter.log _ s |}.

(** A session has accepted a request when it has answered it with a JSON
    text, one that [response.json()] decodes, that has no key [error]. *)
Definition accepted (answer : res Response) : Prop :=
  exists response payload,
    answer = Ok response /\ response_json response = Ok payload
    /\ Py.contains "error" payload = Ok false.

(** The state in which the adapter is [a]. *)
Definition with_self (a : Adapter.GSheetsAPI tzinfo) (s : Adapter.state tzinfo)
    : Adapter.state tzinfo :=
  {| Adapter.self := a; Adapter.heap := Adapter.heap _ s;
     Adapter.next_loc := Adapter.next_loc _ s; Adapter.log := Adapter.log _ s |}.

(** A step that assigns nothing but the metadata of the sheet (the ids, the
    name and the time zone), and changes no row object. *)
Definition metadata_step (s s' : Adapter.state tzinfo) : Prop :=
  Adapter.heap _ s' = Adapter.heap _ s
  /\ Adapter.url _ (Adapter.self _ s') = Adapter.url _ (Adapter.self _ s)
  /\ Adapter._offset _ (Adapter.self _ s') = Adapter._offset _ (Adapter.self _ s)
  /\ Adapter._column_map _ (Adapter.self _ s') = Adapter._column_map _ (Adapter.self _ s)
  /\ Adapter.columns _ (Adapter.self _ s') = Adapter.columns _ (Adapter.self _ s)
  /\ Adapter.row_ids _ (Adapter.self _ s') = Adapter.row_ids _ (Adapter.self _ s).

Definition metadata_only {A : Type} (m : Adapter.M tzinfo A) : Prop :=
  forall s, metadata_step s (snd (m s)).

(** The probe of schema resolution. *)
Definition probe : string := "SELECT * LIMIT 1".

End MoreAdapterSpec.

(** The message the adapter gives when the response is not JSON. *)
Definition not_json_message : string :=
  "Response from Google is not valid JSON. Please verify that you "
  +:+ "have the proper credentials to access the spreadsheet.".

(** What a cell gives to the row of a fetch: its value, or [None] when the
    cell is [null]. *)
Definition cell_object (cell : option QueryResultsCell) : value :=
  match cell with
  | Some cell => cell_v cell
  | None => VNone
  end.

(** The request for the metadata of a document. *)
Definition metadata_request (spreadsheet_id : string) : Request :=
  {| req_method := GET;
     req_url := "https://sheets.googleapis.com/v4/spreadsheets/" +:+ spreadsheet_id
                +:+ "?includeGridData=false";
     req_headers := [];
     req_params := [];
     req_json := None |}.

(** The title of the first sheet that has the id. *)
Definition title_of (sheet_id : Z) (sheets : list SheetProperties) : option string :=
  title <$> List.find (fun sheet => sheetId sheet =? sheet_id) sheets.
(** ** States, payloads and resource locators of the examples *)

Module Cases.

(** The failed query of the docstring of [QueryResults]. *)
Definition no_column : QueryResultsError :=
  {| reason := "invalid_query"; message := "INVALID_QUERY";
     detailed_message := "Invalid query: NO_COLUMN: C" |}.

Definition failed_response : Response :=
  {| status_code := 200; text := JSON_PAYLOAD_PREFIX +:+ "{...}";
     body := Some (failed_results [no_column]) |}.

(** A column of a type the adapter does not know, and one without type. *)
Definition money_column : dict :=
  [("id", VStr "C"); ("label", VStr "price"); ("type", VStr "money")].

Definition untyped_column : dict := [("id", VStr "C"); ("label", VStr "price")].

Definition BR : dict := [("country", VStr "BR"); ("cnt", VInt 1)].

(** The adapter knows one row, by the identifier 0, and the caller holds a
    row that comes with the identifier [rowid]. *)
Definition one_row (rowid : Z) : World.state :=
  World.with_rows World.sheet [(0, BR)]
    [[("country", VStr "FR"); ("cnt", VInt 4); ("rowid", VInt rowid)]].

(** The session of a mutation that goes through: the values of the sheet,
    then the acknowledgement. *)
Definition goes_through : list (res Response) :=
  [World.values_answer World.remote_values; World.done_answer].

(** A spreadsheet URL with one sheet id in the query string and another in
    the fragment, its parts, and one without a spreadsheet id. *)
Definition two_gids : string :=
  "https://docs.google.com/spreadsheets/d/ID/edit?gid=1#gid=2".

Definition two_gids_parts : Url.ParseResult :=
  {| Url.scheme := "https"; Url.netloc := "docs.google.com";
     Url.path := "/spreadsheets/d/ID/edit"; Url.params := "";
     Url.query := "gid=1"; Url.fragment := "gid=2" |}.

Definition no_id : string := "https://docs.google.com/spreadsheets/x".

Definition no_id_parts : Url.ParseResult :=
  {| Url.scheme := "https"; Url.netloc := "docs.google.com";
     Url.path := "/spreadsheets/x"; Url.params := "";
     Url.query := ""; Url.fragment := "" |}.

Definition sheet_7 : string := "https://docs.google.com/spreadsheets/d/ID/edit#gid=7".

Definition sheet_7_parts : Url.ParseResult :=
  {| Url.scheme := "https"; Url.netloc := "docs.google.com";
     Url.path := "/spreadsheets/d/ID/edit"; Url.params := "";
     Url.query := ""; Url.fragment := "gid=7" |}.

(** A fragment that the application writes when a cell is selected. *)
Definition with_range : string :=
  "https://docs.google.com/spreadsheets/d/ID/edit#gid=0&range=A1".

Definition with_range_parts : Url.ParseResult :=
  {| Url.scheme := "https"; Url.netloc := "docs.google.com";
     Url.path := "/spreadsheets/d/ID/edit"; Url.params := "";
     Url.query := ""; Url.fragment := "gid=0&range=A1" |}.

(** The sheets of the document of [Office.metadata_answer]. *)
Definition sheets : list SheetProperties :=
  [{| sheetId := 0; title := "Sheet1" |}; {| sheetId := 7; title := "Sales" |}].

(** A sheet without labels whose first row holds texts, one of them
    blank. *)
Definition blank_first_row : QueryResultsTable :=
  World.table [World.column "A" "" "string"; World.column "B" "" "string";
               World.column "C" "" "number"]
    [[World.cell (VStr "country"); World.cell (VStr " "); World.cell (VStr "cnt ")]].

(** A sheet without labels whose first row holds texts. *)
Definition first_row_texts : list (string * option string) :=
  [("country", None); ("cnt ", None)].

Definition unlabelled : QueryResultsTable :=
  World.headerless (List.map text_cell first_row_texts).

(** The state after a fetch of one row by an adapter that knew three. *)
Definition fetched_again : World.state :=
  snd (World.get_data [World.answer World.countries] [] [] World.three_rows).

(** The states in which the row known by the identifier 0 has been located
    in the sheet. *)
Definition located (s : World.state) : World.state :=
  snd (World._find_row_number goes_through 0%nat s).

(** The state after the probe of the sheet without labels. *)
Definition probed : World.state :=
  snd (Adapter._run_query unit Urllib.cpython (scripted [World.answer unlabelled])
         "SELECT * LIMIT 1" (World.start World.fresh)).

(** The adapter made without credentials, and the one made with an access
    token for the sheet 7 of the document. *)
Definition anonymous : World.state :=
  snd (Office.__init__ [] [World.answer World.countries] two_gids None (Some "")
         None None (World.start Office.blank)).

Definition authorized : World.state :=
  snd (Office.__init__ [Office.metadata_answer; World.answer World.countries] []
         sheet_7 (Some "secret") None None None (World.start Office.blank)).

End Cases.

(** * Properties *)

(** ** The embedding on concrete inputs *)

Example int_examples :
  Py.int " 12 " = Ok 12 /\ Py.int "-007" = Ok (-7) /\ Py.int "1_000" = Ok 1000
  /\ Py.int "1__0" = Raise ValueError /\ Py.int "_1" = Raise ValueError
  /\ Py.int "" = Raise ValueError /\ Py.int "+ 1" = Raise ValueError
  /\ Py.int "/2018 03:04:0" = Raise ValueError.
Proof. repeat split; reflexivity. Qed.

Example str_int_examples :
  Py.str_int 0 = "0" /\ Py.str_int 7 = "7" /\ Py.str_int 2018 = "2018"
  /\ Py.str_int (-35) = "-35" /\ Py.str_int 1000000 = "1000000".
Proof. repeat split; reflexivity. Qed.

Example eq_examples :
  Py.eq (VList [VInt 1; VStr "a"]) (VList [VFloat (FFin 1 0); VStr "a"]) = true
  /\ Py.eq (VInt 3) (VFloat (FFin 3 (-1))) = false
  /\ Py.eq (VFloat (FFin 3 (-1))) (VFloat (FFin 6 (-2))) = true
  /\ Py.eq (VBool true) (VInt 1) = true
  /\ Py.eq (VStr "1") (VInt 1) = false
  /\ Py.eq (VDict [("a", VInt 1); ("b", VNone)]) (VDict [("b", VNone); ("a", VInt 1)]) = true
  /\ Py.eq (VList [VInt 1]) (VList [VInt 1; VInt 2]) = false.
Proof. repeat split; reflexivity. Qed.

Example parse_examples :
  Fields.GSheetsDate_parse (Some "Date(2018,0,1)") = Ok (Some (Fields.Date 2018 1 1))
  /\ Fields.GSheetsDateTime_parse (Some tt) (Some "Date(2018,8,1,0,0,0)")
     = Ok (Some (Fields.DateTime 2018 9 1 0 0 0 0 (Some tt)))
  /\ Fields.GSheetsDate_parse (Some "Date(2018,1,30)") = Raise ValueError
  /\ Fields.GSheetsDate_parse (Some "Date(2018)") = Raise IndexError
  /\ Fields.GSheetsDate_parse (Some "Date(2018,1)") = Raise TypeError
  /\ Fields.GSheetsTime_parse (Some [17; 0; 0; 0]) = Ok (Some (Fields.Time 17 0 0 0))
  /\ Fields.GSheetsDateTime_format Fields.utc_astimezone (Some tt)
       (Some (Fields.DateTime 2018 9 1 15 4 5 123 (Some tt)))
     = Ok (Some "09/01/2018 15:04:05").
Proof. repeat split; reflexivity. Qed.

Example urlparse_examples :
  Urllib.urlparse "https://docs.google.com/spreadsheets/d/ID/edit?headers=2&gid=3#gid=7"
  = Ok {| Url.scheme := "https"; Url.netloc := "docs.google.com";
          Url.path := "/spreadsheets/d/ID/edit"; Url.params := "";
          Url.query := "headers=2&gid=3"; Url.fragment := "gid=7" |}
  /\ Urllib.parse_qs "headers=2&gid=3&gid=4&x=&sheet=My+Sheet%C3%A9"
     = Ok [("headers", ["2"]); ("gid", ["3"; "4"]); ("sheet", ["My Sheet" +:+ String (Urllib.chr 233) ""])]
  /\ Urllib.urlencode [("headers", VInt 2); ("sheet", VStr ("My Sheet/" +:+ String (Urllib.chr 233) ""))]
     = Ok "headers=2&sheet=My+Sheet%2F%C3%A9"
  /\ Urllib.urlunparse (Some "https") (Some "docs.google.com") (Some "/a/gviz/tq") None (Some "gid=0") None
     = "https://docs.google.com/a/gviz/tq?gid=0"
  /\ Urllib.quote "SELECT * LIMIT 1" "/()" = "SELECT%20%2A%20LIMIT%201"
  /\ Urllib.urlparse "HTTP://a/b;p/c;q?x#y"
     = Ok {| Url.scheme := "http"; Url.netloc := "a"; Url.path := "/b;p/c";
             Url.params := "q"; Url.query := "x"; Url.fragment := "y" |}.
Proof. repeat split; reflexivity. Qed.

Example get_url_examples :
  Url.get_url Urllib.cpython "https://docs.google.com/spreadsheets/d/1/edit#gid=0" 0 0 None
  = Ok "https://docs.google.com/spreadsheets/d/1/gviz/tq?gid=0"
  /\ Url.get_url Urllib.cpython "https://docs.google.com/spreadsheets/d/1/edit?headers=2&gid=1" 0 0 None
     = Ok "https://docs.google.com/spreadsheets/d/1/gviz/tq?headers=2&gid=1"
  /\ Url.get_url Urllib.cpython "https://docs.google.com/spreadsheets/d/1/edit?headers=2&sheet=S2#gid=4" 0 0 None
     = Ok "https://docs.google.com/spreadsheets/d/1/gviz/tq?headers=2&sheet=S2"
  /\ Url.get_url Urllib.cpython "https://docs.google.com/spreadsheets/d/1/?gid=1#gid=4" 0 0 None
     = Ok "https://docs.google.com/spreadsheets/d/1/gviz/tq?gid=4"
  /\ Url.get_url Urllib.cpython "https://docs.google.com/spreadsheets/d/1/edit#gid=0&range=A1" 0 0 None
     = Raise ValueError.
Proof. repeat split; reflexivity. Qed.

(** The limits of the interpreter: int() strips the white space of str, in
    which the separators U+001C to U+001F are not, and refuses a text of
    more than 4300 digits; strftime writes the year as the C library does,
    without filling it with zeros; the constructors of datetime refuse a
    number beyond a C int before they look at its range. *)
Example int_limit_examples :
  Py.int (String (Ascii.ascii_of_nat 31) "5") = Raise ValueError
  /\ Py.int (String (Ascii.ascii_of_nat 160) "5") = Ok 5
  /\ (exists n, Py.int (String.concat "" (List.repeat "1" 4300)) = Ok n)
  /\ Py.int (String.concat "" (List.repeat "1" 4301)) = Raise ValueError
  /\ Py.int ("0" +:+ String.concat "" (List.repeat "1" 4300)) = Raise ValueError
  /\ Py.str_fits 7 = true
  /\ fstring_int "Invalid row to delete: " 7 = Ok "Invalid row to delete: 7".
Proof.
  split; [reflexivity |]. split; [reflexivity |].
  split; [eexists; vm_compute; reflexivity |].
  repeat split; vm_compute; reflexivity.
Qed.

Example datetime_limit_examples :
  Fields.strftime (Fields.DateTime 987 1 2 3 4 5 0 (Some tt)) = "01/02/987 03:04:05"
  /\ Fields.GSheetsDate_parse (Some "Date(99999999999,0,1)") = Raise OverflowError
  /\ Fields.GSheetsDate_parse (Some "Date(10000,0,1)") = Raise ValueError
  /\ Fields.GSheetsDate_parse (Some "Date(2018,0,1,5)") = Raise TypeError.
Proof. repeat split; reflexivity. Qed.

(** response.json() decodes the text as it is: the text of the query
    endpoint, which starts with the prefix, is not JSON. *)
Example response_json_examples :
  response_json (json_response (VDict [])) = Raise JSONDecodeError
  /\ response_json (plain_response (VDict [])) = Ok (VDict [])
  /\ loads_after_prefix (json_response (VDict [])) = Ok (VDict []).
Proof. repeat split; reflexivity. Qed.

(** urlsplit strips the leading spaces and control characters and removes
    the tabs and the line ends. *)
Example urlsplit_examples :
  Urllib.urlparse "  https://docs.google.com/spreadsheets/d/1/edit#gid=0"
  = Urllib.urlparse "https://docs.google.com/spreadsheets/d/1/edit#gid=0"
  /\ Urllib.urlparse ("https://docs.google.com/spread"
                      +:+ String (Ascii.ascii_of_nat 9) "sheets/d/1/edit#gid=0")
     = Urllib.urlparse "https://docs.google.com/spreadsheets/d/1/edit#gid=0"
  /\ Url.get_url Urllib.cpython " https://docs.google.com/spreadsheets/d/1/edit#gid=3" 0 0 None
     = Ok "https://docs.google.com/spreadsheets/d/1/gviz/tq?gid=3".
Proof. repeat split; reflexivity. Qed.

(** ** Facts about strings, [int] and [str] *)

Lemma length_append (a b : string) :
  String.length (a +:+ b) = (String.length a + String.length b)%nat.
Proof. induction a as [|c a IH]; simpl; [reflexivity | now f_equal]. Qed.

Lemma take_append (a b : string) : Str.take (String.length a) (a +:+ b) = a.
Proof. induction a as [|c a IH]; simpl; [now destruct b | now f_equal]. Qed.

Lemma append_assoc (a b c : string) : (a +:+ b) +:+ c = a +:+ (b +:+ c).
Proof. induction a as [|x a IH]; simpl; [reflexivity | now f_equal]. Qed.

Lemma split_nonempty (sep : ascii) (s : string) : Str.split sep s <> [].
Proof.
  induction s as [|c s IH]; simpl; [discriminate |].
  destruct (Ascii.eqb c sep); [discriminate |].
  destruct (Str.split sep s); discriminate.
Qed.

(** The first piece of a split starts with the first character of the text
    when that is not the separator. *)
Lemma split_head (sep c : ascii) (s : string) :
  Ascii.eqb c sep = false ->
  exists w ws, Str.split sep (String c s) = String c w :: ws.
Proof.
  intros Hc. simpl. rewrite Hc.
  destruct (Str.split sep s) as [|w ws] eqn:E; [now apply split_nonempty in E |].
  now exists w, ws.
Qed.

Lemma split_append (sep : ascii) (a b : string) :
  Str.mem sep a = false ->
  Str.split sep (a +:+ String sep EmptyString +:+ b) = a :: Str.split sep b.
Proof.
  change (String sep EmptyString +:+ b) with (String sep b).
  unfold Str.mem. induction a as [|c a IH]; simpl; intros H.
  - now rewrite Ascii.eqb_refl.
  - apply orb_false_iff in H as [Hc Ha]. rewrite Ascii.eqb_sym in Hc.
    rewrite Hc, (IH Ha). reflexivity.
Qed.

Lemma split_single (sep : ascii) (a : string) :
  Str.mem sep a = false -> Str.split sep a = [a].
Proof.
  unfold Str.mem. induction a as [|c a IH]; simpl; intros H; [reflexivity |].
  apply orb_false_iff in H as [Hc Ha]. rewrite Ascii.eqb_sym in Hc.
  rewrite Hc, (IH Ha). reflexivity.
Qed.

Lemma lstrip_keep (p : ascii -> bool) (c : ascii) (s : string) :
  p c = false -> Str.lstrip p (String c s) = String c s.
Proof. intros H. simpl. now rewrite H. Qed.

Lemma rstrip_head (p : ascii -> bool) (c : ascii) (s : string) :
  p c = false -> exists w, Str.rstrip p (String c s) = String c w.
Proof.
  intros H. simpl. destruct (Str.rstrip p s) as [|d r].
  - rewrite H. now exists EmptyString.
  - now exists (String d r).
Qed.

(** A digit is neither white space, a sign, an underscore nor a comma. *)
Lemma digit_class (c : ascii) (d : Z) :
  Py.digit c = Some d ->
  Str.is_space c = false /\ Ascii.eqb c "-" = false /\ Ascii.eqb c "+" = false
  /\ Ascii.eqb c "_" = false /\ Ascii.eqb "," c = false /\ 0 <= d <= 9.
Proof.
  destruct c as [[] [] [] [] [] [] [] []]; vm_compute; intros H;
    try discriminate H; injection H as <-; repeat split; discriminate.
Qed.

Lemma digit_digit_char (d : Z) : 0 <= d <= 9 -> Py.digit (Py.digit_char d) = Some d.
Proof.
  intros H.
  assert (d = 0 \/ d = 1 \/ d = 2 \/ d = 3 \/ d = 4 \/ d = 5 \/ d = 6 \/ d = 7
          \/ d = 8 \/ d = 9) as Hd by lia.
  repeat (destruct Hd as [-> | Hd]; [reflexivity |]). now subst.
Qed.

Lemma all_digits_append (a b : string) :
  all_digits (a +:+ b) = all_digits a && all_digits b.
Proof.
  induction a as [|c a IH]; simpl; [reflexivity |].
  destruct (Py.digit c); [apply IH | reflexivity].
Qed.

Lemma digits_value_append (acc : Z) (a b : string) :
  all_digits a = true ->
  digits_value acc (a +:+ b) = digits_value (digits_value acc a) b.
Proof.
  revert acc. induction a as [|c a IH]; simpl; intros acc H; [reflexivity |].
  destruct (Py.digit c); [now apply IH | discriminate].
Qed.

Lemma all_digits_no_comma (s : string) :
  all_digits s = true -> Str.mem "," s = false.
Proof.
  unfold Str.mem. induction s as [|c s IH];
    cbn [list_ascii_of_string existsb all_digits]; intros H; [reflexivity |].
  destruct (Py.digit c) as [d|] eqn:E; [| discriminate].
  apply digit_class in E as (_ & _ & _ & _ & -> & _). now apply IH.
Qed.

Lemma rstrip_all_digits (s : string) :
  all_digits s = true -> Str.rstrip Str.is_space s = s.
Proof.
  induction s as [|c s IH]; simpl; intros H; [reflexivity |].
  destruct (Py.digit c) as [d|] eqn:E; [| discriminate].
  apply digit_class in E as (-> & _). rewrite (IH H). now destruct s.
Qed.

Lemma digits_all_digits (s : string) (acc : Z) (b : bool) :
  all_digits s = true -> s <> EmptyString ->
  Py.digits acc b s = Some (digits_value acc s).
Proof.
  revert acc b. induction s as [|c s IH]; intros acc b H Hne; [congruence |].
  simpl in *. destruct (Py.digit c) as [d|] eqn:E; [| discriminate].
  apply digit_class in E as (_ & _ & _ & -> & _).
  destruct s as [|c' s']; [reflexivity |]. now apply IH.
Qed.

Lemma digit_not_int_space (c : ascii) (d : Z) :
  Py.digit c = Some d -> Py.is_int_space c = false.
Proof.
  destruct c as [[] [] [] [] [] [] [] []]; vm_compute; intros H;
    try discriminate H; reflexivity.
Qed.

Lemma rstrip_int_all_digits (s : string) :
  all_digits s = true -> Str.rstrip Py.is_int_space s = s.
Proof.
  induction s as [|c s IH]; simpl; intros H; [reflexivity |].
  destruct (Py.digit c) as [d|] eqn:E; [| discriminate].
  rewrite (digit_not_int_space _ _ E), (IH H). now destruct s.
Qed.

Lemma count_digits_all_digits (s : string) :
  all_digits s = true -> Py.count_digits s = Str.len s.
Proof.
  unfold Str.len. induction s as [|c s IH]; intros H; [reflexivity |].
  cbn [all_digits Py.count_digits String.length] in *.
  destruct (Py.digit c); [| discriminate]. rewrite (IH H). lia.
Qed.

(** [int] reads a non-empty string of digits, of no more digits than the
    limit, as the number it denotes. *)
Lemma int_all_digits (s : string) :
  all_digits s = true -> s <> EmptyString -> Str.len s <= Py.int_max_str_digits ->
  Py.int s = Ok (digits_value 0 s).
Proof.
  intros H Hne Hlen. unfold Py.int.
  destruct s as [|c s]; [congruence |].
  assert (exists d, Py.digit c = Some d) as [d E].
  { simpl in H. destruct (Py.digit c); [eauto | discriminate]. }
  pose proof (digit_class _ _ E) as (_ & Hm & Hp & _).
  rewrite (lstrip_keep _ _ _ (digit_not_int_space _ _ E)),
    (rstrip_int_all_digits _ H), Hm, Hp.
  rewrite (digits_all_digits _ 0 true H Hne), (count_digits_all_digits _ H).
  destruct (Z.ltb_spec Py.int_max_str_digits (Str.len (String c s))); [lia |].
  f_equal. lia.
Qed.

Lemma str_digits_spec (fuel : nat) (n : Z) :
  0 <= n < 2 ^ Z.of_nat (S fuel) ->
  all_digits (Py.str_digits (S fuel) n) = true
  /\ Py.str_digits (S fuel) n <> EmptyString
  /\ digits_value 0 (Py.str_digits (S fuel) n) = n.
Proof.
  revert n. induction fuel as [|fuel IH]; intros n Hn.
  - assert (n = 0 \/ n = 1) as [-> | ->] by (change (2 ^ Z.of_nat 1) with 2 in Hn; lia);
      repeat split; discriminate.
  - change (Py.str_digits (S (S fuel)) n)
      with (if n <? 10 then String (Py.digit_char n) EmptyString
            else Py.str_digits (S fuel) (n / 10)
                 +:+ String (Py.digit_char (n mod 10)) EmptyString).
    destruct (Z.ltb_spec n 10) as [Hlt | Hge].
    + simpl. rewrite digit_digit_char by lia. repeat split; (discriminate || lia).
    + assert (0 <= n / 10 < 2 ^ Z.of_nat (S fuel)) as Hq.
      { split; [apply Z.div_pos; lia |].
        apply Z.div_lt_upper_bound; [lia |].
        rewrite (Nat2Z.inj_succ (S fuel)), Z.pow_succ_r in Hn by lia. lia. }
      destruct (IH _ Hq) as (Ha & Hne & Hv).
      assert (0 <= n mod 10 <= 9) as Hm by (pose proof (Z.mod_pos_bound n 10); lia).
      repeat split.
      * rewrite all_digits_append, Ha. simpl. now rewrite digit_digit_char.
      * destruct (Py.str_digits (S fuel) (n / 10)); [congruence | discriminate].
      * rewrite digits_value_append, Hv by exact Ha. simpl.
        rewrite digit_digit_char by lia. pose proof (Z.div_mod n 10). lia.
Qed.

Lemma str_nonneg_spec (n : Z) :
  0 <= n ->
  all_digits (Py.str_nonneg n) = true /\ Py.str_nonneg n <> EmptyString
  /\ digits_value 0 (Py.str_nonneg n) = n.
Proof.
  intros Hn. unfold Py.str_nonneg. apply str_digits_spec.
  split; [lia |].
  rewrite Nat2Z.inj_succ, Z2Nat.id by apply Z.log2_nonneg.
  destruct (Z.eq_dec n 0) as [-> | Hne]; [reflexivity |].
  apply Z.log2_spec. lia.
Qed.

(** The text of a number below [10 ^ k] has at most [k] digits. *)
Lemma str_digits_length (fuel : nat) (n k : Z) :
  0 <= n < 10 ^ k -> 1 <= k -> Str.len (Py.str_digits fuel n) <= k.
Proof.
  unfold Str.len. revert n k. induction fuel as [|fuel IH]; intros n k Hn Hk;
    [simpl; lia |].
  cbn [Py.str_digits]. destruct (Z.ltb_spec n 10) as [Hlt | Hge]; [simpl; lia |].
  rewrite length_append. cbn [String.length].
  assert (2 <= k) as Hk2.
  { destruct (Z.eq_dec k 1) as [-> | ?]; [change (10 ^ 1) with 10 in Hn; lia | lia]. }
  assert (0 <= n / 10 < 10 ^ (k - 1)) as Hq.
  { split; [apply Z.div_pos; lia |].
    apply Z.div_lt_upper_bound; [lia |].
    replace k with (Z.succ (k - 1)) in Hn by lia.
    rewrite Z.pow_succ_r in Hn by lia. lia. }
  specialize (IH _ _ Hq ltac:(lia)). lia.
Qed.

Lemma str_fits_below (n k : Z) :
  Z.abs n < 10 ^ k -> 1 <= k <= Py.int_max_str_digits -> Py.str_fits n = true.
Proof.
  intros Hn Hk. unfold Py.str_fits, Py.str_nonneg. apply Z.leb_le.
  pose proof (str_digits_length (S (Z.to_nat (Z.log2 (Z.abs n)))) (Z.abs n) k
                ltac:(lia) ltac:(lia)).
  lia.
Qed.

(** The numbers of a date and of a time fit. *)
Lemma str_fits_small (n : Z) : - 1000000 < n < 1000000 -> Py.str_fits n = true.
Proof.
  intros Hn. apply (str_fits_below n 6); [change (10 ^ 6) with 1000000; lia |].
  unfold Py.int_max_str_digits. lia.
Qed.

(** [int(str(n)) == n], when [str(n)] is within the limit on digits. *)
Lemma int_str_int (n : Z) : Py.str_fits n = true -> Py.int (Py.str_int n) = Ok n.
Proof.
  unfold Py.str_fits. intros Hfits. apply Z.leb_le in Hfits.
  unfold Py.str_int. destruct (Z.ltb_spec n 0) as [Hneg | Hpos].
  - replace (Z.abs n) with (- n) in Hfits by lia.
    destruct (str_nonneg_spec (- n)) as (Ha & Hne & Hv); [lia |].
    unfold Py.int. rewrite lstrip_keep by reflexivity.
    simpl Str.rstrip. rewrite (rstrip_int_all_digits _ Ha).
    destruct (Py.str_nonneg (- n)) as [|c s] eqn:E; [congruence |].
    change (Ascii.eqb "-" "-") with true. cbv iota beta.
    rewrite (digits_all_digits _ 0 true Ha Hne), Hv,
      (count_digits_all_digits _ Ha).
    destruct (Z.ltb_spec Py.int_max_str_digits (Str.len (String c s))); [lia |].
    f_equal. lia.
  - replace (Z.abs n) with n in Hfits by lia.
    destruct (str_nonneg_spec n Hpos) as (Ha & Hne & Hv).
    now rewrite (int_all_digits _ Ha Hne Hfits), Hv.
Qed.

(** No text that starts with a slash is a number. *)
Lemma int_slash (s : string) : Py.int (String "/" s) = Raise ValueError.
Proof.
  unfold Py.int. rewrite lstrip_keep by reflexivity.
  destruct (rstrip_head Py.is_int_space "/" s eq_refl) as [w ->].
  reflexivity.
Qed.

(** ** The typed fields *)

Lemma pad2_two_digits (n : Z) : 0 <= n <= 99 -> two_digits (Fields.pad2 n) n.
Proof.
  intros H. rewrite <- (Z2Nat.id n) by lia.
  assert (Z.to_nat n < 100)%nat as Hk by lia.
  generalize dependent (Z.to_nat n). clear H. intros k Hk.
  do 100 (destruct k as [|k]; [repeat split |]).
  lia.
Qed.

Lemma pad2_two (n : Z) :
  0 <= n <= 99 -> exists a b, Fields.pad2 n = String a (String b EmptyString).
Proof.
  intros H. destruct (pad2_two_digits n H) as (Hlen & _).
  destruct (Fields.pad2 n) as [|a [|b [|c r]]]; try discriminate Hlen.
  now exists a, b.
Qed.

(** In a text of at least seven characters, the slice from the sixth
    character to the last but one starts with the sixth character. *)
Lemma slice_5_m1_head (a b c d e f g : ascii) (r : string) :
  exists w,
    Str.slice (Some 5) (Some (-1))
      (String a (String b (String c (String d (String e (String f (String g r)))))))
    = String f w.
Proof.
  unfold Str.slice, Str.len. cbn [String.length from_option].
  set (n := String.length r).
  change (5 <? 0) with false. change (-1 <? 0) with true. cbv iota.
  replace (Z.min 5 (Z.of_nat (S (S (S (S (S (S (S n))))))))) with 5 by lia.
  replace (Z.to_nat (Z.max (-1 + Z.of_nat (S (S (S (S (S (S (S n)))))))) 0 - 5))
    with (S n) by lia.
  change (Z.to_nat 5) with 5%nat. cbn [Str.drop Str.take].
  eauto.
Qed.

(** The slice the parsers take of [Date(...)] is the text between the
    parentheses. *)
Lemma slice_5_m1_literal (body : string) :
  Str.slice (Some 5) (Some (-1)) ("Date(" +:+ body +:+ ")") = body.
Proof.
  unfold Str.slice, Str.len. cbn [String.append String.length from_option].
  rewrite length_append. cbn [String.length].
  set (n := String.length body).
  change (5 <? 0) with false. change (-1 <? 0) with true. cbv iota.
  replace (Z.min 5 (Z.of_nat (S (S (S (S (S (n + 1)))))))) with 5 by lia.
  replace (Z.to_nat (Z.max (-1 + Z.of_nat (S (S (S (S (S (n + 1))))))) 0 - 5))
    with n by lia.
  change (Z.to_nat 5) with 5%nat. cbn [Str.drop].
  apply take_append.
Qed.

(** The text [format] writes starts with [mm/dd/]. *)
Lemma strftime_shape {tzinfo : Type} (v : Fields.datetime tzinfo) :
  Fields.valid_datetime v = true ->
  exists a b c d g r,
    Fields.strftime v
    = String a (String b (String "/" (String c (String d (String "/" (String g r)))))).
Proof.
  unfold Fields.valid_datetime, Fields.valid_date, Fields.valid_time. intros H.
  repeat (apply andb_true_iff in H as [H ?]).
  assert (Fields.days_in_month (Fields.year v) (Fields.month v) <= 31).
  { unfold Fields.days_in_month. repeat case_match; lia. }
  destruct (pad2_two (Fields.month v)) as (a & b & Hm); [lia |].
  destruct (pad2_two (Fields.day v)) as (c & d & Hd); [lia |].
  unfold Fields.strftime. rewrite Hm, Hd. cbn [String.append].
  destruct (Fields.year_text (Fields.year v)) as [|g r] eqn:Hy.
  - exists a, b, c, d, " "%char. eexists. reflexivity.
  - exists a, b, c, d, g. eexists. cbn [String.append]. reflexivity.
Qed.

Lemma parse_strftime {tzinfo : Type} (timezone : option tzinfo)
    (v : Fields.datetime tzinfo) :
  Fields.valid_datetime v = true ->
  Fields.GSheetsDateTime_parse timezone (Some (Fields.strftime v)) = Raise ValueError.
Proof.
  intros Hv. destruct (strftime_shape v Hv) as (a & b & c & d & g & r & ->).
  unfold Fields.GSheetsDateTime_parse. change (Str.len "Date(") with 5.
  destruct (slice_5_m1_head a b "/" c d "/" g r) as [w ->].
  destruct (split_head "," "/" w eq_refl) as (w1 & ws & ->).
  cbn [traverse]. rewrite int_slash. reflexivity.
Qed.

Lemma split_provider_datetime (a b c d e f : string) :
  all_digits a = true -> all_digits b = true -> all_digits c = true ->
  all_digits d = true -> all_digits e = true -> all_digits f = true ->
  Str.split ","
    (a +:+ "," +:+ b +:+ "," +:+ c +:+ "," +:+ d +:+ "," +:+ e +:+ "," +:+ f)
  = [a; b; c; d; e; f].
Proof.
  intros Ha Hb Hc Hd He Hf.
  rewrite (split_append "," a) by now apply all_digits_no_comma.
  rewrite (split_append "," b) by now apply all_digits_no_comma.
  rewrite (split_append "," c) by now apply all_digits_no_comma.
  rewrite (split_append "," d) by now apply all_digits_no_comma.
  rewrite (split_append "," e) by now apply all_digits_no_comma.
  now rewrite split_single by now apply all_digits_no_comma.
Qed.

Lemma parse_provider_datetime {tzinfo : Type} (timezone : option tzinfo)
    (v : Fields.datetime tzinfo) :
  Fields.valid_datetime v = true ->
  Fields.GSheetsDateTime_parse timezone (Some (provider_datetime v))
  = Ok (Some (to_second timezone v)).
Proof.
  intros Hv. destruct v as [y m d h mi s us tz].
  unfold Fields.valid_datetime in Hv. cbn [Fields.year Fields.month Fields.day
    Fields.hour Fields.minute Fields.second Fields.microsecond] in Hv.
  apply andb_true_iff in Hv as [Hd Ht].
  assert (Fields.valid_time h mi s 0 = true) as Ht0.
  { unfold Fields.valid_time in *. repeat (apply andb_true_iff in Ht as [Ht ?]).
    repeat (apply andb_true_iff; split); try assumption; reflexivity. }
  assert (0 <= y /\ 0 <= m - 1 /\ 0 <= d) as (Hy & Hm & Hd').
  { unfold Fields.valid_date in Hd. repeat (apply andb_true_iff in Hd as [Hd ?]). lia. }
  assert (0 <= h /\ 0 <= mi /\ 0 <= s) as (Hh & Hmi & Hs).
  { unfold Fields.valid_time in Ht. repeat (apply andb_true_iff in Ht as [Ht ?]). lia. }
  unfold Fields.GSheetsDateTime_parse, provider_datetime, to_second.
  change (Str.len "Date(") with 5.
  cbn [Fields.year Fields.month Fields.day Fields.hour Fields.minute Fields.second].
  replace ("Date(" +:+ Py.str_int y +:+ "," +:+ Py.str_int (m - 1) +:+ ","
           +:+ Py.str_int d +:+ "," +:+ Py.str_int h +:+ "," +:+ Py.str_int mi
           +:+ "," +:+ Py.str_int s +:+ ")")
    with ("Date(" +:+ (Py.str_int y +:+ "," +:+ Py.str_int (m - 1) +:+ ","
           +:+ Py.str_int d +:+ "," +:+ Py.str_int h +:+ "," +:+ Py.str_int mi
           +:+ "," +:+ Py.str_int s) +:+ ")")
    by (now rewrite !append_assoc).
  rewrite slice_5_m1_literal.
  rewrite split_provider_datetime;
    try (unfold Py.str_int;
         match goal with |- context [?n <? 0] =>
           destruct (Z.ltb_spec n 0); [lia | now apply str_nonneg_spec] end).
  assert (y <= 9999 /\ m <= 12 /\ d <= 31 /\ h <= 23 /\ mi <= 59 /\ s <= 59)
    as (Hy' & Hm' & Hd'' & Hh' & Hmi' & Hs').
  { unfold Fields.valid_date in Hd. unfold Fields.valid_time in Ht.
    repeat (apply andb_true_iff in Hd as [Hd ?]).
    repeat (apply andb_true_iff in Ht as [Ht ?]).
    assert (Fields.days_in_month y m <= 31)
      by (unfold Fields.days_in_month; repeat case_match; lia).
    lia. }
  cbn [traverse]. rewrite !int_str_int by (apply str_fits_small; lia).
  cbn [mbind res_bind].
  replace (m - 1 + 1) with m by lia.
  unfold Fields.datetime_new.
  replace (8 <? length [y; m; d; h; mi; s])%nat with false by reflexivity.
  replace (forallb Fields.c_int (firstn 7 [y; m; d; h; mi; s])) with true.
  2:{ symmetry. cbn [firstn forallb]. unfold Fields.c_int.
      change (2 ^ 31) with 2147483648.
      repeat (apply andb_true_iff; split); lia. }
  cbn [negb]. now rewrite Hd, Ht0.
Qed.

Section RoundTrip.

Context {tzinfo : Type}.
Variable astimezone : Fields.datetime tzinfo -> tzinfo -> res (Fields.datetime tzinfo).

(** Converting a [datetime] to a zone gives a [datetime]. *)
Hypothesis astimezone_valid : forall v tz v',
  Fields.valid_datetime v = true -> astimezone v tz = Ok v' ->
  Fields.valid_datetime v' = true.

Lemma format_then_parse_raises (timezone : option tzinfo)
    (v : Fields.datetime tzinfo) :
  Fields.valid_datetime v = true ->
  exists e, format_then_parse astimezone timezone v = Raise e.
Proof.
  intros Hv. unfold format_then_parse, Fields.GSheetsDateTime_format.
  destruct timezone as [tz|].
  - destruct (astimezone v tz) as [v'|e] eqn:E; [| now exists e].
    exists ValueError. cbn [mbind res_bind].
    apply parse_strftime. eapply astimezone_valid; eassumption.
  - exists ValueError. cbn [mbind res_bind]. now apply parse_strftime.
Qed.

(** The text [format] writes: month, day, hour, minute and second with two
    digits, the year with all its digits. *)
Lemma strftime_fields (v : Fields.datetime tzinfo) :
  Fields.valid_datetime v = true ->
  exists mm dd yyyy HH MM SS,
    Fields.strftime v
    = mm +:+ "/" +:+ dd +:+ "/" +:+ yyyy +:+ " " +:+ HH +:+ ":" +:+ MM +:+ ":" +:+ SS
    /\ two_digits mm (Fields.month v) /\ two_digits dd (Fields.day v)
    /\ yyyy = Py.str_int (Fields.year v) /\ Py.int yyyy = Ok (Fields.year v)
    /\ two_digits HH (Fields.hour v) /\ two_digits MM (Fields.minute v)
    /\ two_digits SS (Fields.second v).
Proof.
  unfold Fields.valid_datetime, Fields.valid_date, Fields.valid_time. intros H.
  repeat (apply andb_true_iff in H as [H ?]).
  assert (Fields.days_in_month (Fields.year v) (Fields.month v) <= 31).
  { unfold Fields.days_in_month. repeat case_match; lia. }
  exists (Fields.pad2 (Fields.month v)), (Fields.pad2 (Fields.day v)),
    (Py.str_int (Fields.year v)), (Fields.pad2 (Fields.hour v)),
    (Fields.pad2 (Fields.minute v)), (Fields.pad2 (Fields.second v)).
  split; [reflexivity |].
  repeat split;
    first [ apply pad2_two_digits; lia
          | apply int_str_int, str_fits_small; lia ].
Qed.

(** C1 (amended). [format] writes a valid [datetime], taken to the zone
    of the sheet when the sheet has one, as [mm/dd/YYYY HH:MM:SS]: the
    fields of the converted value, two digits for each but the year.
    [parse] raises [ValueError] on every such text, so that formatting and
    then parsing never yields a value. What [parse] reads is the provider's
    [Date(Y,M-1,D,h,m,s)]: parsing that text of a value yields the value
    truncated to the second, in the zone of the sheet. *)
Theorem GSheetsDateTime_format_parse (timezone : option tzinfo)
    (v : Fields.datetime tzinfo) :
  Fields.valid_datetime v = true ->
  Fields.GSheetsDateTime_format astimezone timezone (Some v)
  = (v' ← in_sheet_zone astimezone timezone v; Ok (Some (Fields.strftime v')))
  /\ (forall v', in_sheet_zone astimezone timezone v = Ok v' ->
        Fields.valid_datetime v' = true
        /\ (exists mm dd yyyy HH MM SS,
              Fields.strftime v'
              = mm +:+ "/" +:+ dd +:+ "/" +:+ yyyy +:+ " "
                +:+ HH +:+ ":" +:+ MM +:+ ":" +:+ SS
              /\ two_digits mm (Fields.month v') /\ two_digits dd (Fields.day v')
              /\ yyyy = Py.str_int (Fields.year v') /\ Py.int yyyy = Ok (Fields.year v')
              /\ two_digits HH (Fields.hour v') /\ two_digits MM (Fields.minute v')
              /\ two_digits SS (Fields.second v'))
        /\ Fields.GSheetsDateTime_parse timezone (Some (Fields.strftime v'))
           = Raise ValueError)
  /\ (exists e, format_then_parse astimezone timezone v = Raise e)
  /\ Fields.GSheetsDateTime_parse timezone (Some (provider_datetime v))
     = Ok (Some (to_second timezone v)).
Proof.
  intros Hv. split; [| split; [| split]].
  - unfold Fields.GSheetsDateTime_format, in_sheet_zone.
    destruct timezone as [tz|]; reflexivity.
  - intros v' Hv'.
    assert (Fields.valid_datetime v' = true) as Hvalid.
    { unfold in_sheet_zone in Hv'. destruct timezone as [tz|].
      - eapply astimezone_valid; eassumption.
      - now injection Hv' as <-. }
    split; [exact Hvalid |].
    split; [now apply strftime_fields | now apply parse_strftime].
  - now apply format_then_parse_raises.
  - now apply parse_provider_datetime.
Qed.

End RoundTrip.

(** In the one-zone world a conversion changes no field. *)
Lemma utc_astimezone_valid (v : Fields.datetime unit) (tz : unit) (v' : Fields.datetime unit) :
  Fields.valid_datetime v = true -> Fields.utc_astimezone v tz = Ok v' ->
  Fields.valid_datetime v' = true.
Proof. intros Hv [= <-]. exact Hv. Qed.

(** In the world of fixed offsets a conversion changes the hour only. *)
Lemma offset_astimezone_valid (v : Fields.datetime Z) (tz : Z) (v' : Fields.datetime Z) :
  Fields.valid_datetime v = true -> Fields.offset_astimezone v tz = Ok v' ->
  Fields.valid_datetime v' = true.
Proof.
  unfold Fields.offset_astimezone. intros Hv Hv'.
  destruct (Fields.dt_tzinfo v) as [from|]; [| discriminate].
  destruct ((0 <=? _) && (_ <? 24)) eqn:Hh; [| discriminate].
  injection Hv' as <-.
  unfold Fields.valid_datetime, Fields.valid_date, Fields.valid_time in *.
  cbn [Fields.year Fields.month Fields.day Fields.hour Fields.minute
       Fields.second Fields.microsecond].
  repeat (apply andb_true_iff in Hv as [Hv ?]).
  repeat match goal with
         | H : (_ && _) = true |- _ => apply andb_true_iff in H as [H ?]
         end.
  repeat (apply andb_true_iff; split); try assumption; lia.
Qed.

(** A value of 15:04:05 in the zone of UTC, for a sheet two hours ahead:
    [format] writes 17:04:05, [parse] refuses that text, and reads the text
    of the provider as a value in the zone of the sheet. *)
Lemma GSheetsDateTime_format_parse_witness :
  let v := Fields.DateTime 2018 9 1 15 4 5 123 (Some 0) in
  let v' := Fields.DateTime 2018 9 1 17 4 5 123 (Some 2) in
  Fields.valid_datetime v = true
  /\ in_sheet_zone Fields.offset_astimezone (Some 2) v = Ok v'
  /\ Fields.GSheetsDateTime_format Fields.offset_astimezone (Some 2) (Some v)
     = Ok (Some "09/01/2018 17:04:05")
  /\ Fields.GSheetsDateTime_parse (Some 2) (Some "09/01/2018 17:04:05")
     = Raise ValueError
  /\ (exists e, format_then_parse Fields.offset_astimezone (Some 2) v = Raise e)
  /\ Fields.GSheetsDateTime_parse (Some 2) (Some "Date(2018,8,1,15,4,5)")
     = Ok (Some (Fields.DateTime 2018 9 1 15 4 5 0 (Some 2))).
Proof.
  destruct (GSheetsDateTime_format_parse Fields.offset_astimezone
              offset_astimezone_valid (Some 2)
              (Fields.DateTime 2018 9 1 15 4 5 123 (Some 0)) eq_refl)
    as (Hformat & Hfields & Hraises & Hparse).
  split; [reflexivity |]. split; [reflexivity |].
  split; [exact Hformat |].
  split; [exact (proj2 (proj2 (Hfields _ eq_refl))) |].
  split; [exact Hraises | exact Hparse].
Defined.

(** C1 as stated fails: the text [format] writes for 2018-09-01 15:04:05 is
    [09/01/2018 15:04:05], and [parse] raises [ValueError] on it instead of
    returning the value. *)
Lemma GSheetsDateTime_round_trip_fails :
  let v := Fields.DateTime 2018 9 1 15 4 5 123 (Some tt) in
  Fields.GSheetsDateTime_format Fields.utc_astimezone (Some tt) (Some v)
    = Ok (Some "09/01/2018 15:04:05")
  /\ format_then_parse Fields.utc_astimezone (Some tt) v = Raise ValueError
  /\ format_then_parse Fields.utc_astimezone (Some tt) v
     <> Ok (Some (to_second (Some tt) v)).
Proof. repeat split. discriminate. Qed.

(** C10. A missing cell is not converted: every [parse] and the [format] of
    [GSheetsDateTime] return [None] for [None], and raise nothing. *)
Theorem parse_format_None {tzinfo : Type}
    (astimezone : Fields.datetime tzinfo -> tzinfo -> res (Fields.datetime tzinfo))
    (timezone : option tzinfo) :
  Fields.GSheetsDateTime_parse timezone None = Ok None
  /\ Fields.GSheetsDateTime_format astimezone timezone None = Ok None
  /\ Fields.GSheetsDate_parse None = Ok None
  /\ Fields.GSheetsTime_parse None = Ok None.
Proof. repeat split. Qed.

(** ** The resource locator *)

Lemma drop_append (a b : string) : Str.drop (String.length a) (a +:+ b) = b.
Proof. induction a as [|c a IH]; simpl; [now destruct b | exact IH]. Qed.

Lemma endswith_append (a b : string) : Str.endswith b (a +:+ b) = true.
Proof.
  unfold Str.endswith. rewrite length_append.
  replace (String.length a + String.length b - String.length b)%nat
    with (String.length a) by lia.
  rewrite drop_append, String.eqb_refl, andb_true_r.
  apply Nat.leb_le. lia.
Qed.

Lemma endpoint_args_lookup (headers gid : Z) (sheet : option string) :
  Dict.get "headers" (endpoint_args headers gid sheet)
    = (if 0 <? headers then Some (VInt headers) else None)
  /\ Dict.get "sheet" (endpoint_args headers gid sheet) = VStr <$> sheet
  /\ Dict.get "gid" (endpoint_args headers gid sheet)
     = match sheet with Some _ => None | None => Some (VInt gid) end.
Proof.
  unfold endpoint_args. destruct (0 <? headers), sheet; repeat split; reflexivity.
Qed.

Section GetUrl.

Variable urllib : Url.urllib_parse.

(** What get_url returns when the numbers of the URL are numbers.
    [headers0], [gid0] and [sheet0] are the arguments of get_url, which the
    query string overrides. *)
Lemma get_url_returns (uri : string) (parts : Url.ParseResult)
    (qs : odict (list string)) (headers0 gid0 : Z) (sheet0 : option string)
    (headers query_gid gid : Z) (query_sheet : option string) (params : string) :
  Url.urlparse urllib uri = Ok parts ->
  Url.parse_qs urllib (Url.query parts) = Ok qs ->
  int_param "headers" qs headers0 = Ok headers ->
  int_param "gid" qs gid0 = Ok query_gid ->
  str_param "sheet" qs = Ok query_sheet ->
  fragment_gid (Url.fragment parts) query_gid = Ok gid ->
  Url.urlencode urllib (endpoint_args headers gid (first_given query_sheet sheet0))
    = Ok params ->
  Url.get_url urllib uri headers0 gid0 sheet0
  = Ok (Url.urlunparse urllib (Some (Url.scheme parts)) (Some (Url.netloc parts))
          (Some (endpoint_path (Url.path parts))) None (Some params) None).
Proof.
  intros Hparts Hqs Hh Hg Hs Hf Hp.
  unfold Url.get_url. rewrite Hparts. cbn [mbind res_bind]. rewrite Hqs.
  cbn [mbind res_bind].
  change (Str.len "/edit") with 5. change (- 5) with (-5).
  change (Str.len "gid=") with 4.
  assert (forall a b : string, Str.join "/" [a; b] = a +:+ "/" +:+ b) as -> by reflexivity.
  fold (int_param "headers" qs headers0). rewrite Hh. cbn [mbind res_bind].
  fold (int_param "gid" qs gid0). rewrite Hg. cbn [mbind res_bind].
  assert (match Dict.get "sheet" qs with
          | Some vs => v ← Url.last_item vs; Ok (Some v)
          | None => Ok sheet0
          end = Ok (first_given query_sheet sheet0)) as ->.
  { unfold str_param in Hs. destruct (Dict.get "sheet" qs) as [vs|].
    - destruct (Url.last_item vs); [| discriminate]. now injection Hs as <-.
    - now injection Hs as <-. }
  cbn [mbind res_bind].
  fold (fragment_gid (Url.fragment parts) query_gid). rewrite Hf. cbn [mbind res_bind].
  replace (match first_given query_sheet sheet0 with
           | Some sheet1 =>
               Dict.set "sheet" (VStr sheet1)
                 (if 0 <? headers then Dict.set "headers" (VInt headers) [] else [])
           | None =>
               Dict.set "gid" (VInt gid)
                 (if 0 <? headers then Dict.set "headers" (VInt headers) [] else [])
           end) with (endpoint_args headers gid (first_given query_sheet sheet0))
    by (unfold endpoint_args;
        destruct (0 <? headers), (first_given query_sheet sheet0); reflexivity).
  rewrite Hp. reflexivity.
Qed.

(** A parameter that is not a number stops get_url: it raises what [int]
    raises, for the headers, for the sheet id of the query string (even when
    the fragment has one), and for the sheet id of the fragment. *)
Lemma get_url_not_a_number (uri : string) (parts : Url.ParseResult)
    (qs : odict (list string)) (headers0 gid0 : Z) (sheet0 : option string)
    (e : exn) :
  Url.urlparse urllib uri = Ok parts ->
  Url.parse_qs urllib (Url.query parts) = Ok qs ->
  int_param "headers" qs headers0 = Raise e
  \/ (exists headers, int_param "headers" qs headers0 = Ok headers
                      /\ int_param "gid" qs gid0 = Raise e)
  \/ (exists headers query_gid sheet,
        int_param "headers" qs headers0 = Ok headers
        /\ int_param "gid" qs gid0 = Ok query_gid
        /\ str_param "sheet" qs = Ok sheet
        /\ fragment_gid (Url.fragment parts) query_gid = Raise e) ->
  Url.get_url urllib uri headers0 gid0 sheet0 = Raise e.
Proof.
  intros Hparts Hqs H.
  unfold Url.get_url. rewrite Hparts. cbn [mbind res_bind]. rewrite Hqs.
  cbn [mbind res_bind]. change (Str.len "gid=") with 4.
  fold (int_param "headers" qs headers0).
  destruct H as [-> | [(h & -> & Hg) | (h & g & sheet & -> & Hg & Hs & Hf)]];
    [reflexivity | |]; cbn [mbind res_bind];
    fold (int_param "gid" qs gid0); rewrite Hg; [reflexivity |].
  cbn [mbind res_bind].
  assert (exists sheet', match Dict.get "sheet" qs with
                         | Some vs => v ← Url.last_item vs; Ok (Some v)
                         | None => Ok sheet0
                         end = Ok sheet') as [sheet' ->].
  { unfold str_param in Hs. destruct (Dict.get "sheet" qs) as [vs|]; [| eauto].
    destruct (Url.last_item vs); [eauto | discriminate]. }
  cbn [mbind res_bind]. fold (fragment_gid (Url.fragment parts) g).
  now rewrite Hf.
Qed.

(** C3 (amended). For a spreadsheet URL whose numeric parameters (the
    last [headers] and the last [gid] of the query string, and the text
    after [gid=] when the fragment starts with it) are numbers as [int]
    reads them, get_url returns the URL that [urlunparse] builds from the
    scheme and host of the input, the endpoint path (the path without a
    final [/edit] and without final slashes, then [/gviz/tq]), no fragment,
    and the encoded arguments: [headers] as the query string gives it (else
    the argument of get_url), only when positive; [sheet] as the query
    string gives it (else the argument), and then no [gid]; otherwise
    [gid], which is the number of a fragment [gid=N] when there is one,
    else the one of the query string, else the argument, 0 by default.
    Nothing else of the fragment is read, and a fragment that starts with
    [gid=] is read whole. When one of these parameters is not a number,
    get_url raises the error of [int] and returns no URL. The URL ending in
    [/edit#gid=7] resolves to the endpoint with [gid=7] alone. *)
Theorem get_url_spec (uri : string) (parts : Url.ParseResult)
    (qs : odict (list string)) (headers0 gid0 : Z) (sheet0 : option string) :
  Url.urlparse urllib uri = Ok parts ->
  Url.parse_qs urllib (Url.query parts) = Ok qs ->
  (forall (headers query_gid gid : Z) (query_sheet : option string) (params : string),
     int_param "headers" qs headers0 = Ok headers ->
     int_param "gid" qs gid0 = Ok query_gid ->
     str_param "sheet" qs = Ok query_sheet ->
     fragment_gid (Url.fragment parts) query_gid = Ok gid ->
     let sheet := first_given query_sheet sheet0 in
     Url.urlencode urllib (endpoint_args headers gid sheet) = Ok params ->
     Url.get_url urllib uri headers0 gid0 sheet0
     = Ok (Url.urlunparse urllib (Some (Url.scheme parts)) (Some (Url.netloc parts))
             (Some (endpoint_path (Url.path parts))) None (Some params) None)
     /\ Str.endswith "/gviz/tq" (endpoint_path (Url.path parts)) = true
     /\ Dict.get "headers" (endpoint_args headers gid sheet)
        = (if 0 <? headers then Some (VInt headers) else None)
     /\ Dict.get "sheet" (endpoint_args headers gid sheet) = VStr <$> sheet
     /\ Dict.get "gid" (endpoint_args headers gid sheet)
        = match sheet with Some _ => None | None => Some (VInt gid) end)
  /\ (forall e,
        int_param "headers" qs headers0 = Raise e
        \/ (exists headers, int_param "headers" qs headers0 = Ok headers
                            /\ int_param "gid" qs gid0 = Raise e)
        \/ (exists headers query_gid sheet,
              int_param "headers" qs headers0 = Ok headers
              /\ int_param "gid" qs gid0 = Ok query_gid
              /\ str_param "sheet" qs = Ok sheet
              /\ fragment_gid (Url.fragment parts) query_gid = Raise e) ->
        Url.get_url urllib uri headers0 gid0 sheet0 = Raise e)
  /\ Url.get_url Urllib.cpython
       "https://docs.google.com/spreadsheets/d/ID/edit#gid=7" 0 0 None
     = Ok "https://docs.google.com/spreadsheets/d/ID/gviz/tq?gid=7".
Proof.
  intros Hparts Hqs. split; [| split; [| reflexivity]].
  - intros headers query_gid gid query_sheet params Hh Hg Hs Hf sheet Hp.
    split; [now apply (get_url_returns uri parts qs headers0 gid0 sheet0
                         headers query_gid gid query_sheet params) |].
    split; [apply endswith_append | apply endpoint_args_lookup].
  - intros e H. now apply (get_url_not_a_number uri parts qs headers0 gid0 sheet0 e).
Qed.

End GetUrl.

Lemma get_url_spec_witness :
  (Url.get_url Urllib.cpython
     "https://docs.google.com/spreadsheets/d/ID/edit?gid=1&headers=2&gid=3#gid=5"
     1 4 None
   = Ok (Url.urlunparse Urllib.cpython (Some "https") (Some "docs.google.com")
           (Some "/spreadsheets/d/ID/gviz/tq") None (Some "headers=2&gid=5") None)
   /\ Str.endswith "/gviz/tq" (endpoint_path "/spreadsheets/d/ID/edit") = true
   /\ Dict.get "headers" (endpoint_args 2 5 None) = Some (VInt 2)
   /\ Dict.get "sheet" (endpoint_args 2 5 None) = None
   /\ Dict.get "gid" (endpoint_args 2 5 None) = Some (VInt 5))
  /\ Url.get_url Urllib.cpython
       "https://docs.google.com/spreadsheets/d/ID/edit#gid=7" 0 0 None
     = Ok "https://docs.google.com/spreadsheets/d/ID/gviz/tq?gid=7"
  /\ Url.get_url Urllib.cpython
       "https://docs.google.com/spreadsheets/d/ID/edit?headers=two#gid=7" 0 0 None
     = Raise ValueError.
Proof.
  destruct (get_url_spec Urllib.cpython
    "https://docs.google.com/spreadsheets/d/ID/edit?gid=1&headers=2&gid=3#gid=5"
    {| Url.scheme := "https"; Url.netloc := "docs.google.com";
       Url.path := "/spreadsheets/d/ID/edit"; Url.params := "";
       Url.query := "gid=1&headers=2&gid=3"; Url.fragment := "gid=5" |}
    [("gid", ["1"; "3"]); ("headers", ["2"])] 1 4 None eq_refl eq_refl)
    as (Hreturns & _ & Hscenario).
  split; [| split; [exact Hscenario |]].
  - exact (Hreturns 2 3 5 None "headers=2&gid=5" eq_refl eq_refl eq_refl eq_refl eq_refl).
  - destruct (get_url_spec Urllib.cpython
      "https://docs.google.com/spreadsheets/d/ID/edit?headers=two#gid=7"
      {| Url.scheme := "https"; Url.netloc := "docs.google.com";
         Url.path := "/spreadsheets/d/ID/edit"; Url.params := "";
         Url.query := "headers=two"; Url.fragment := "gid=7" |}
      [("headers", ["two"])] 0 0 None eq_refl eq_refl)
      as (_ & Hraises & _).
    exact (Hraises ValueError (or_introl eq_refl)).
Defined.

(** C3 as stated fails. The URL that the application shows when a cell is
    selected is a spreadsheet URL (supports accepts it), its fragment starts
    with [gid=], and get_url raises [ValueError] on it: it reads the whole
    fragment after [gid=] as the number. *)
Lemma get_url_range_fragment_raises :
  let uri := "https://docs.google.com/spreadsheets/d/ID/edit#gid=0&range=A1" in
  Constructor.supports Urllib.cpython uri = Ok true
  /\ (exists parts, Urllib.urlparse uri = Ok parts
                    /\ Url.fragment parts = "gid=0&range=A1")
  /\ Url.get_url Urllib.cpython uri 0 0 None = Raise ValueError
  /\ ~ (exists url, Url.get_url Urllib.cpython uri 0 0 None = Ok url).
Proof.
  split; [reflexivity |]. split; [eexists; split; reflexivity |].
  split; [reflexivity |]. intros [url H]. discriminate H.
Qed.


(** ** The adapter: reads and mutations *)

Section AdapterFacts.

Context {tzinfo : Type}.
Variable urllib : Url.urllib_parse.
Variable session : list Request -> Request -> res Response.
Variable Filter : Type.
Variable RequestedOrder : Type.
Variable build_sql :
  odict (Adapter.Field tzinfo) -> odict Filter -> list (string * RequestedOrder) ->
  odict value -> Z -> res string.

Abbreviation state := (Adapter.state tzinfo).
Abbreviation self := (Adapter.self tzinfo).
Abbreviation heap := (Adapter.heap tzinfo).
Abbreviation log := (Adapter.log tzinfo).
Abbreviation row_ids := (Adapter.row_ids tzinfo).
Abbreviation columns := (Adapter.columns tzinfo).

(** C2. When the translator signals that the filters can never be
    satisfied, get_data yields no row and leaves the state as it is: no
    request is sent. *)
Theorem get_data_impossible_filter (bounds : odict Filter)
    (order : list (string * RequestedOrder)) (s : state) :
  build_sql (columns (self s)) bounds order
    (Adapter._column_map tzinfo (self s)) (Adapter._offset tzinfo (self s))
  = Raise ImpossibleFilterError ->
  Adapter.get_data tzinfo urllib session Filter RequestedOrder build_sql bounds order s
  = (Ok [], s)
  /\ log (snd (Adapter.get_data tzinfo urllib session Filter RequestedOrder
                 build_sql bounds order s)) = log s.
Proof.
  intros H. unfold Adapter.get_data, mbind, Adapter.M_bind, Adapter.get_self.
  rewrite H. split; reflexivity.
Qed.

(** *** What the steps of a method leave as it is *)

Lemma keeps_ret {A : Type} (a : A) : keeps (mret a : Adapter.M tzinfo A).
Proof. intros s. now split. Qed.

Lemma keeps_bind {A B : Type} (m : Adapter.M tzinfo A) (f : A -> Adapter.M tzinfo B) :
  keeps m -> (forall a, keeps (f a)) -> keeps (m ≫= f).
Proof.
  intros Hm Hf s. unfold mbind, Adapter.M_bind.
  specialize (Hm s). destruct (m s) as [[a|e] s1]; simpl in *; [| exact Hm].
  specialize (Hf a s1). unfold same_objects in *.
  destruct Hf as [-> ->]. exact Hm.
Qed.

Lemma keeps_lift {A : Type} (r : res A) : keeps (Adapter.lift tzinfo r).
Proof. intros s. now split. Qed.

Lemma keeps_raise {A : Type} (e : exn) : keeps (@Adapter.raise tzinfo A e).
Proof. intros s. now split. Qed.

Lemma keeps_get_self : keeps (Adapter.get_self tzinfo).
Proof. intros s. now split. Qed.

Lemma keeps_load (l : loc) : keeps (Adapter.load tzinfo l).
Proof. intros s. unfold Adapter.load. destruct (heap s !! l); now split. Qed.

Lemma keeps_send (req : Request) : keeps (Adapter.send tzinfo session req).
Proof. intros s. now split. Qed.

Lemma keeps_json (response : Response) : keeps (Adapter.json tzinfo response).
Proof. unfold Adapter.json. apply keeps_lift. Qed.

(** What [response.json()] decodes is the body of a text without the
    prefix of the query endpoint. *)
Lemma response_json_ok (response : Response) (payload : value) :
  response_json response = Ok payload <->
  Str.startswith JSON_PAYLOAD_PREFIX (text response) = false
  /\ body response = Some payload.
Proof.
  unfold response_json.
  destruct (Str.startswith JSON_PAYLOAD_PREFIX (text response)), (body response);
    split; try (intros [? ?]); try intros ?; try discriminate; try congruence; auto.
  split; congruence.
Qed.

Ltac keeps_step :=
  first
    [ apply keeps_ret | apply keeps_lift | apply keeps_raise | apply keeps_get_self
    | apply keeps_load | apply keeps_send | apply keeps_json
    | apply keeps_bind; [| intros ?]
    | match goal with
      | |- keeps (match ?x with _ => _ end) => destruct x
      | |- keeps (if ?x then _ else _) => destruct x
      end ].

Lemma keeps_check_error (payload : value) : keeps (Adapter.check_error tzinfo payload).
Proof. unfold Adapter.check_error. repeat keeps_step. Qed.

Lemma keeps_row_values (row : loc) : keeps (Adapter.row_values tzinfo row).
Proof. unfold Adapter.row_values. repeat keeps_step. Qed.

(** Locating a row changes neither the adapter nor the rows. *)
Lemma keeps_find_row_number (row : loc) :
  keeps (Adapter._find_row_number tzinfo session row).
Proof.
  unfold Adapter._find_row_number.
  repeat first [apply keeps_row_values | apply keeps_check_error | keeps_step].
Qed.

(** [check_error] passes exactly the payloads without the key. *)
Lemma check_error_ok (payload : value) (s : state) :
  fst (Adapter.check_error tzinfo payload s) = Ok tt <->
  Py.contains "error" payload = Ok false.
Proof.
  unfold Adapter.check_error, mbind, Adapter.M_bind, Adapter.lift.
  destruct (Py.contains "error" payload) as [[]|]; simpl;
    [| split; reflexivity | split; discriminate].
  destruct (res_bind _ _ _ _); simpl; split; discriminate.
Qed.

Lemma check_error_state (payload : value) (s : state) :
  snd (Adapter.check_error tzinfo payload s) = s.
Proof.
  unfold Adapter.check_error, mbind, Adapter.M_bind, Adapter.lift.
  destruct (Py.contains "error" payload) as [[]|]; try reflexivity.
  destruct (res_bind _ _ _ _); reflexivity.
Qed.

(** C5. delete_data with an identifier that is not in the row identity map
    raises, and the state is as it was: no request is sent. (It raises
    ProgrammingError with the identifier in its message; for an identifier
    of more digits than the interpreter writes, the [ValueError] of the
    f-string.) With an identifier in the map, either it returns, the entry
    is gone and the last request sent is the row deletion, answered by a
    payload without an error; or it raises and the map is as it was. *)
Theorem delete_data_spec (row_id : Z) (s : state) :
  match row_ids (self s) !! row_id with
  | None =>
      Adapter.delete_data tzinfo session row_id s
      = (Raise (if Py.str_fits row_id
                then ProgrammingError
                       [Lit ("Invalid row to delete: " +:+ Py.str_int row_id)]
                else ValueError), s)
  | Some row =>
      match Adapter.delete_data tzinfo session row_id s with
      | (Ok _, s') =>
          row_ids (self s') = delete row_id (row_ids (self s))
          /\ exists sent req response payload,
               log s' = sent ++ [req]
               /\ req_method req = POST
               /\ req_url req
                  = "https://sheets.googleapis.com/v4/spreadsheets/"
                    +:+ str_opt (Adapter._spreadsheet_id tzinfo (self s))
                    +:+ ":batchUpdate"
               /\ session sent req = Ok response
               /\ body response = Some payload
               /\ Py.contains "error" payload = Ok false
      | (Raise _, s') => row_ids (self s') = row_ids (self s)
      end
  end.
Proof.
  destruct (row_ids (self s) !! row_id) as [row|] eqn:Hrow;
    unfold Adapter.delete_data, mbind at 1, Adapter.M_bind at 1, Adapter.get_self;
    rewrite Hrow;
    [| unfold mbind, Adapter.M_bind, Adapter.lift, fstring_int;
       now destruct (Py.str_fits row_id)].
  unfold mbind, Adapter.M_bind.
  destruct (keeps_find_row_number row s) as [Hself _].
  destruct (Adapter._find_row_number tzinfo session row s) as [[n|e] s1];
    simpl in Hself; [| now rewrite Hself].
  unfold Adapter.send.
  match goal with |- context [session ?l ?r] =>
    set (req := r); destruct (session l req) as [response|e] eqn:Hsend
  end; [| simpl; now rewrite Hself].
  unfold Adapter.json, Adapter.lift.
  destruct (response_json response) as [payload|] eqn:Hjson;
    [| simpl; now rewrite Hself].
  apply response_json_ok in Hjson as [_ Hbody].
  unfold mret, Adapter.M_ret.
  match goal with |- context [Adapter.check_error tzinfo payload ?s2] =>
    pose proof (check_error_state payload s2) as Hst;
    pose proof (check_error_ok payload s2) as Hok;
    destruct (Adapter.check_error tzinfo payload s2) as [[[]|e] s3]
  end; simpl in Hst; subst s3; [| simpl; now rewrite Hself].
  simpl. rewrite Hself. split; [reflexivity |].
  exists (log s1), req, response, payload.
  repeat split; try assumption. now apply Hok.
Qed.

(** *** Inserting a row *)

Lemma bind_ok {A B : Type} (m : Adapter.M tzinfo A) (f : A -> Adapter.M tzinfo B)
    (s s1 : state) (a : A) :
  m s = (Ok a, s1) -> (m ≫= f) s = f a s1.
Proof. intros H. unfold mbind, Adapter.M_bind. now rewrite H. Qed.

Lemma fold_max_spec (l : list Z) (x : Z) :
  (fold_left Z.max l x = x \/ In (fold_left Z.max l x) l)
  /\ x <= fold_left Z.max l x
  /\ forall y, In y l -> y <= fold_left Z.max l x.
Proof.
  revert x. induction l as [|z l IH]; intros x; simpl.
  - split; [now left |]. split; [lia | intros y []].
  - destruct (IH (Z.max x z)) as (Hin & Hle & Hall).
    split; [| split].
    + destruct Hin as [Heq | Hin]; [| now right; right].
      rewrite Heq. destruct (Z.max_spec x z) as [[_ ->] | [_ ->]]; [right; now left | now left].
    + lia.
    + intros y [<- | Hy]; [lia | now apply Hall].
Qed.

Lemma py_max_spec (l : list Z) :
  l <> [] -> exists m, py_max l = Ok m /\ In m l /\ forall y, In y l -> y <= m.
Proof.
  destruct l as [|x l]; [congruence |]. intros _. simpl.
  eexists. split; [reflexivity |].
  destruct (fold_max_spec l x) as (Hin & Hle & Hall).
  split.
  - destruct Hin as [-> | Hin]; [now left | now right].
  - intros y [<- | Hy]; [exact Hle | now apply Hall].
Qed.

Lemma keys_spec (m : gmap Z loc) (k : Z) :
  In k (map_to_list m).*1 <-> is_Some (m !! k).
Proof.
  rewrite <- list_elem_of_In, list_elem_of_fmap. split.
  - intros [[k' l] [-> H]]. apply elem_of_map_to_list in H. now exists l.
  - intros [l H]. exists (k, l). split; [reflexivity |].
    now apply elem_of_map_to_list.
Qed.

(** The identifier given to a row that comes without one. *)
Lemma new_row_id_spec (m : gmap Z loc) :
  exists new_id,
    (if decide (m = ∅) then mret 0
     else x ← Adapter.lift tzinfo (py_max (map_to_list m).*1); mret (x + 1))
    = (mret new_id : Adapter.M tzinfo Z)
    /\ (m = ∅ -> new_id = 0)
    /\ (m <> ∅ ->
        is_Some (m !! (new_id - 1))
        /\ forall k, is_Some (m !! k) -> k <= new_id - 1).
Proof.
  destruct (decide (m = ∅)) as [-> | Hne].
  - exists 0. split; [reflexivity |]. split; [reflexivity | congruence].
  - destruct (py_max_spec (map_to_list m).*1) as (x & Hx & Hin & Hmax).
    { intros H. apply fmap_nil_inv in H. now apply map_to_list_empty_iff in H. }
    exists (x + 1). rewrite Hx. split; [reflexivity |].
    split; [congruence |]. intros _.
    replace (x + 1 - 1) with x by lia. split.
    + now apply keys_spec.
    + intros k Hk. apply Hmax. now apply keys_spec.
Qed.

(** C6. For a row that comes with no identifier (its [rowid] is [None]),
    insert_data stores the row, without the [rowid] key, under a new
    identifier, and returns that identifier when it returns: 0 when the map
    is empty, else one more than the greatest identifier of the map. With
    the identifiers 0, 1 and 2 in the map the new one is 3. *)
Theorem insert_data_new_row_id (row : loc) (d : dict) (s : state) :
  heap s !! row = Some d ->
  Dict.get "rowid" d = Some VNone ->
  exists new_id,
    row_ids (self (snd (Adapter.insert_data tzinfo session row s)))
      = <[new_id := row]> (row_ids (self s))
    /\ heap (snd (Adapter.insert_data tzinfo session row s)) !! row
       = Some (Dict.remove "rowid" d)
    /\ (forall id, fst (Adapter.insert_data tzinfo session row s) = Ok id -> id = new_id)
    /\ (row_ids (self s) = ∅ -> new_id = 0)
    /\ (row_ids (self s) <> ∅ ->
        is_Some (row_ids (self s) !! (new_id - 1))
        /\ forall k, is_Some (row_ids (self s) !! k) -> k <= new_id - 1)
    /\ (dom (row_ids (self s)) = {[0; 1; 2]} -> new_id = 3).
Proof.
  intros Hrow Hid.
  destruct (new_row_id_spec (row_ids (self s))) as (new_id & Hnew & Hempty & Hmax).
  exists new_id.
  unfold Adapter.insert_data.
  set (s1 := {| Adapter.self := self s;
                Adapter.heap := <[row := Dict.remove "rowid" d]> (heap s);
                Adapter.next_loc := Adapter.next_loc tzinfo s;
                Adapter.log := log s |}).
  rewrite (bind_ok _ _ s s1 VNone).
  2:{ unfold Adapter.pop_rowid, mbind, Adapter.M_bind, Adapter.load.
      rewrite Hrow, Hid. reflexivity. }
  rewrite (bind_ok _ _ s1 s1 (self s)) by reflexivity.
  rewrite Hnew.
  rewrite (bind_ok _ _ s1 s1 new_id) by reflexivity.
  set (s2 := {| Adapter.self := Adapter.set_row_ids tzinfo
                                  (<[new_id := row]> (row_ids (self s))) (self s);
                Adapter.heap := heap s1;
                Adapter.next_loc := Adapter.next_loc tzinfo s1;
                Adapter.log := log s1 |}).
  rewrite (bind_ok _ _ s1 s2 tt) by reflexivity.
  match goal with |- context [(?m ≫= ?f) s2] => set (rest := m ≫= f) end.
  assert (keeps rest) as Hkeeps.
  { subst rest.
    repeat first [apply keeps_row_values | apply keeps_check_error | keeps_step]. }
  destruct (Hkeeps s2) as [Hself Hheap].
  rewrite Hself, Hheap.
  split; [reflexivity |].
  split; [apply lookup_insert_eq |].
  split.
  { subst rest. unfold mbind, Adapter.M_bind.
    repeat match goal with
           | |- context [match ?x with _ => _ end] => destruct x
           end; simpl; intros id H; congruence. }
  split; [exact Hempty |]. split; [exact Hmax |].
  intros Hdom.
  assert (row_ids (self s) <> ∅) as Hne.
  { intros H. rewrite H, dom_empty_L in Hdom. set_solver. }
  destruct (Hmax Hne) as [Hin Hle].
  apply elem_of_dom in Hin. rewrite Hdom in Hin.
  assert (is_Some (row_ids (self s) !! 2)) as H2.
  { apply elem_of_dom. rewrite Hdom. set_solver. }
  apply Hle in H2.
  set_unfold in Hin. lia.
Qed.

(** *** Locating a row *)

Lemma find_equal_spec (l : list value) (x : value) (i0 : Z) :
  match find_equal i0 l x with
  | Some i =>
      exists (k : nat) (rv : value),
        i = i0 + Z.of_nat k /\ l !! k = Some rv /\ Py.eq rv x = true
        /\ forall (j : nat) (rv' : value),
             (j < k)%nat -> l !! j = Some rv' -> Py.eq rv' x = false
  | None => forall rv, In rv l -> Py.eq rv x = false
  end.
Proof.
  revert i0. induction l as [|y l IH]; intros i0; simpl; [intros rv [] |].
  destruct (Py.eq y x) eqn:E.
  - exists O, y. repeat split; [lia | assumption | lia].
  - specialize (IH (i0 + 1)). destruct (find_equal (i0 + 1) l x) as [i|].
    + destruct IH as (k & rv & -> & Hk & Hrv & Hfirst).
      exists (S k), rv. repeat split; [lia | assumption | assumption |].
      intros [|j] rv' Hj Hl; simpl in Hl; [congruence |].
      apply (Hfirst j); [lia | assumption].
    + intros rv [<- | Hin]; [assumption | now apply IH].
Qed.

(** C7. Once the values of the row are read and the provider has answered
    the request for the values of the sheet with a JSON text without error
    whose rows are [remote], _find_row_number returns the position, counted
    from 0, of the first of these rows that is equal to the list of values
    of the row, whatever rows equal to it come after; when no row is equal
    it raises ProgrammingError with the message "Could not find row: "
    followed by the row (the [ValueError] of the f-string when the row holds
    a number of more digits than the interpreter writes). One request is
    sent and neither the adapter nor the rows change. *)
Theorem find_row_number_first_match (row : loc) (d : dict)
    (values remote : list value) (response : Response) (payload : value)
    (s : state) :
  heap s !! row = Some d ->
  traverse (fun column => Py.getitem (VDict d) column) (Dict.keys (columns (self s)))
    = Ok values ->
  session (log s) (values_request (self s)) = Ok response ->
  response_json response = Ok payload ->
  Py.contains "error" payload = Ok false ->
  (v ← Py.getitem payload "values"; Py.iter v) = Ok remote ->
  same_objects s (snd (Adapter._find_row_number tzinfo session row s))
  /\ log (snd (Adapter._find_row_number tzinfo session row s))
     = log s ++ [values_request (self s)]
  /\ (forall (i : nat) (rv : value),
        remote !! i = Some rv -> Py.eq rv (VList values) = true ->
        (forall (j : nat) (rv' : value),
           (j < i)%nat -> remote !! j = Some rv' ->
           Py.eq rv' (VList values) = false) ->
        fst (Adapter._find_row_number tzinfo session row s) = Ok (Z.of_nat i))
  /\ ((forall rv, In rv remote -> Py.eq rv (VList values) = false) ->
      fst (Adapter._find_row_number tzinfo session row s)
      = Raise (if Py.formattable (VDict d)
               then ProgrammingError [Lit "Could not find row: "; Fmt (VDict d)]
               else ValueError))
  /\ ((exists (i : nat) (rv : value),
         remote !! i = Some rv /\ Py.eq rv (VList values) = true
         /\ forall (j : nat) (rv' : value),
              (j < i)%nat -> remote !! j = Some rv' ->
              Py.eq rv' (VList values) = false)
      \/ (forall rv, In rv remote -> Py.eq rv (VList values) = false)).
Proof.
  intros Hrow Hvalues Hsend Hjson Herr Hremote.
  split; [apply keeps_find_row_number |].
  unfold Adapter._find_row_number.
  rewrite (bind_ok _ _ s s values).
  2:{ unfold Adapter.row_values, mbind, Adapter.M_bind, Adapter.load,
        Adapter.get_self, Adapter.lift. now rewrite Hrow, Hvalues. }
  rewrite (bind_ok _ _ s s (self s)) by reflexivity.
  fold (values_request (self s)).
  set (s1 := {| Adapter.self := self s; Adapter.heap := heap s;
                Adapter.next_loc := Adapter.next_loc tzinfo s;
                Adapter.log := log s ++ [values_request (self s)] |}).
  rewrite (bind_ok _ _ s s1 response)
    by (unfold Adapter.send; now rewrite Hsend).
  rewrite (bind_ok _ _ s1 s1 payload)
    by (unfold Adapter.json, Adapter.lift; now rewrite Hjson).
  rewrite (bind_ok _ _ s1 s1 tt)
    by (unfold Adapter.check_error, mbind, Adapter.M_bind, Adapter.lift;
        now rewrite Herr).
  rewrite (bind_ok _ _ s1 s1 remote)
    by (unfold Adapter.lift; now rewrite Hremote).
  pose proof (find_equal_spec remote (VList values) 0) as Hfind.
  destruct (find_equal 0 remote (VList values)) as [i|].
  - destruct Hfind as (k & rv & -> & Hk & Hrv & Hfirst).
    split; [reflexivity |].
    split; [| split].
    + intros i rv0 Hi Hrv0 Hbefore. simpl. do 2 f_equal.
      destruct (Nat.lt_trichotomy i k) as [Hlt | [-> | Hgt]]; [| reflexivity |].
      * rewrite (Hfirst i rv0 Hlt Hi) in Hrv0. discriminate.
      * rewrite (Hbefore k rv Hgt Hk) in Hrv. discriminate.
    + intros Hnone. apply list_elem_of_lookup_2, list_elem_of_In in Hk.
      rewrite (Hnone rv Hk) in Hrv. discriminate.
    + left. now exists k, rv.
  - rewrite (bind_ok _ _ s1 s1 d)
      by (unfold Adapter.load; simpl; now rewrite Hrow).
    unfold mbind, Adapter.M_bind, Adapter.lift, fstring.
    split; [now destruct (Py.formattable (VDict d)) |].
    split; [| split].
    + intros i rv Hi Hrv _. apply list_elem_of_lookup_2, list_elem_of_In in Hi.
      rewrite (Hfind rv Hi) in Hrv. discriminate.
    + intros _. now destruct (Py.formattable (VDict d)).
    + now right.
Qed.

End AdapterFacts.

(** ** The adapter: schema resolution *)

Lemma dict_get_set {V : Type} (k k' : string) (v : V) (d : odict V) :
  Dict.get k (Dict.set k' v d) = if String.eqb k k' then Some v else Dict.get k d.
Proof.
  induction d as [|[k0 v0] d IH]; simpl.
  - reflexivity.
  - destruct (String.eqb_spec k' k0) as [-> | Hne]; simpl.
    + now destruct (String.eqb k k0).
    + destruct (String.eqb_spec k k0) as [-> | Hne'].
      * destruct (String.eqb_spec k0 k'); [congruence | reflexivity].
      * exact IH.
Qed.

#[local] Arguments column_value : simpl never.
#[local] Arguments cell_value : simpl never.

Lemma find_append {A : Type} (f : A -> bool) (l1 l2 : list A) :
  List.find f (l1 ++ l2)
  = match List.find f l1 with Some x => Some x | None => List.find f l2 end.
Proof.
  induction l1 as [|x l1 IH]; simpl; [reflexivity |].
  now destruct (f x).
Qed.

Lemma getitem_column_label (c : QueryResultsColumn) :
  Py.getitem (column_value c) "label" = Ok (VStr (col_label c)).
Proof. reflexivity. Qed.

Lemma getitem_column_id (c : QueryResultsColumn) :
  Py.getitem (column_value c) "id" = Ok (VStr (col_id c)).
Proof. reflexivity. Qed.

Lemma getitem_column_type (c : QueryResultsColumn) :
  Py.getitem (column_value c) "type" = Ok (VStr (col_type c)).
Proof. reflexivity. Qed.

Section SchemaFacts.

Context {tzinfo : Type}.
Variable urllib : Url.urllib_parse.
Variable session : list Request -> Request -> res Response.

Abbreviation state := (Adapter.state tzinfo).
Abbreviation self := (Adapter.self tzinfo).

Lemma labels_all_empty_columns (cols : list QueryResultsColumn) :
  Adapter.labels_all_empty (List.map column_value cols)
  = Ok (forallb (fun c => negb (labelled c)) cols).
Proof.
  induction cols as [|c cols IH]; [reflexivity |].
  cbn [List.map Adapter.labels_all_empty forallb].
  rewrite getitem_column_label. unfold labelled at 1. cbn. rewrite IH.
  now destruct (String.eqb (col_label c) "").
Qed.

(** The map of all the columns: the identifier of a trimmed label is the
    one of the last column that has it. *)
Lemma column_map_of_columns (cols : list QueryResultsColumn) (acc : odict value) :
  exists cm,
    Adapter.column_map_of (List.map column_value cols) acc = Ok cm
    /\ forall k, Dict.get k cm
         = match last_labelled k cols with
           | Some c => Some (VStr (col_id c))
           | None => Dict.get k acc
           end.
Proof.
  revert acc. induction cols as [|c cols IH]; intros acc.
  - exists acc. split; reflexivity.
  - cbn [List.map Adapter.column_map_of].
    rewrite getitem_column_label, getitem_column_id. cbn.
    destruct (IH (Dict.set (Str.strip (col_label c)) (VStr (col_id c)) acc))
      as (cm & -> & Hcm).
    exists cm. split; [reflexivity |]. intros k. rewrite Hcm.
    unfold last_labelled. cbn [List.rev]. rewrite find_append.
    destruct (find _ (List.rev cols)); [reflexivity |].
    rewrite dict_get_set. cbn [find]. rewrite String.eqb_sym.
    now destruct (String.eqb (Str.strip (col_label c)) k).
Qed.

Lemma get_field_column (c : QueryResultsColumn) (timezone : option tzinfo) :
  exists f, Adapter.get_field tzinfo (column_value c) timezone = Ok f.
Proof.
  unfold Adapter.get_field. rewrite getitem_column_type. cbn.
  repeat match goal with
         | |- context [if ?b then _ else _] => destruct b
         end; eexists; reflexivity.
Qed.

(** The schema: the trimmed labels that are not empty. *)
Lemma columns_of_columns (timezone : option tzinfo)
    (cols : list QueryResultsColumn) (acc : odict (Adapter.Field tzinfo)) :
  exists cs,
    Adapter.columns_of tzinfo timezone (List.map column_value cols) acc = Ok cs
    /\ forall k, Dict.contains k cs = true <->
         (k <> "" /\ exists c, In c cols /\ Str.strip (col_label c) = k)
         \/ Dict.contains k acc = true.
Proof.
  revert acc. induction cols as [|c cols IH]; intros acc.
  - exists acc. split; [reflexivity |]. intros k. split; [now right |].
    intros [(_ & c & [] & _) | H]; exact H.
  - cbn [List.map Adapter.columns_of].
    destruct (get_field_column c timezone) as [fld Hfld].
    rewrite getitem_column_label, Hfld. cbn.
    destruct (String.eqb_spec (Str.strip (col_label c)) "") as [Hblank | Hlabel];
      cbn [negb].
    + destruct (IH acc) as (cs & -> & Hcs). exists cs. split; [reflexivity |].
      intros k. rewrite Hcs. split.
      * intros [(Hk & c' & Hin & Hc') | H]; [left | now right].
        split; [exact Hk |]. exists c'. split; [now right | exact Hc'].
      * intros [(Hk & c' & [<- | Hin] & Hc') | H]; [congruence | left | now right].
        split; [exact Hk |]. now exists c'.
    + destruct (IH (Dict.set (Str.strip (col_label c)) fld acc)) as (cs & -> & Hcs).
      exists cs. split; [reflexivity |]. intros k. rewrite Hcs.
      unfold Dict.contains. rewrite dict_get_set.
      destruct (String.eqb_spec k (Str.strip (col_label c))) as [-> | Hne].
      * split; intros _; [| now right]. left. split; [exact Hlabel |].
        exists c. split; [now left | reflexivity].
      * split.
        -- intros [(Hk & c' & Hin & Hc') | H]; [left | now right].
           split; [exact Hk |]. exists c'. split; [now right | exact Hc'].
        -- intros [(Hk & c' & [<- | Hin] & Hc') | H]; [congruence | left | now right].
           split; [exact Hk |]. now exists c'.
Qed.

Lemma some_labelled (cols : list QueryResultsColumn) :
  existsb labelled cols = true ->
  forallb (fun c => negb (labelled c)) cols = false.
Proof.
  induction cols as [|c cols IH]; simpl; [discriminate |].
  destruct (labelled c); simpl; [reflexivity | exact IH].
Qed.

(** The second half of schema resolution, from the columns as they are
    labelled then. *)
Lemma schema_of_columns (cols : list QueryResultsColumn) (s : state) :
  exists cm cs,
    (column_map ← Adapter.lift tzinfo
        (Adapter.column_map_of (List.map column_value cols) []);
     Adapter.update_self tzinfo (Adapter.set_column_map tzinfo column_map);;
     self ← Adapter.get_self tzinfo;
     columns ← Adapter.lift tzinfo
        (Adapter.columns_of tzinfo (Adapter._timezone tzinfo self)
           (List.map column_value cols) []);
     Adapter.update_self tzinfo (Adapter.set_columns tzinfo columns)) s
    = (Ok tt,
       {| Adapter.self :=
            Adapter.set_columns tzinfo cs (Adapter.set_column_map tzinfo cm (self s));
          Adapter.heap := Adapter.heap tzinfo s;
          Adapter.next_loc := Adapter.next_loc tzinfo s;
          Adapter.log := Adapter.log tzinfo s |})
    /\ (forall k, Dict.get k cm = (fun c => VStr (col_id c)) <$> last_labelled k cols)
    /\ (forall k, Dict.contains k cs = true <->
          k <> "" /\ exists c, In c cols /\ Str.strip (col_label c) = k)
    /\ Dict.contains "" cs = false.
Proof.
  destruct (column_map_of_columns cols []) as (cm & Hcm & Hget).
  destruct (columns_of_columns (Adapter._timezone tzinfo (self s)) cols [])
    as (cs & Hcs & Hin).
  exists cm, cs.
  assert (forall k, Dict.contains k cs = true <->
            k <> "" /\ exists c, In c cols /\ Str.strip (col_label c) = k)
    as Hin'.
  { intros k. rewrite Hin. split; [| now left].
    intros [H | H]; [exact H | discriminate]. }
  split; [| split; [| split; [exact Hin' |]]].
  - rewrite (bind_ok _ _ s s cm) by (unfold Adapter.lift; now rewrite Hcm).
    set (s2 := {| Adapter.self := Adapter.set_column_map tzinfo cm (self s);
                  Adapter.heap := Adapter.heap tzinfo s;
                  Adapter.next_loc := Adapter.next_loc tzinfo s;
                  Adapter.log := Adapter.log tzinfo s |}).
    rewrite (bind_ok _ _ s s2 tt) by reflexivity.
    rewrite (bind_ok _ _ s2 s2 (self s2)) by reflexivity.
    rewrite (bind_ok _ _ s2 s2 cs) by (unfold Adapter.lift; simpl; now rewrite Hcs).
    reflexivity.
  - intros k. rewrite Hget. now destruct (last_labelled k cols).
  - destruct (Dict.contains "" cs) eqn:E; [| reflexivity].
    apply Hin' in E as [E _]. congruence.
Qed.

(** *** Sheets without labels *)

Lemma none_labelled (cols : list QueryResultsColumn) :
  existsb labelled cols = false ->
  forallb (fun c => negb (labelled c)) cols = true.
Proof.
  induction cols as [|c cols IH]; simpl; [reflexivity |].
  destruct (labelled c); simpl; [discriminate | exact IH].
Qed.

Lemma label_with_ids_columns (cols : list QueryResultsColumn) :
  Adapter.label_with_ids (List.map column_value cols)
  = Ok (List.map column_value (label_from_ids cols)).
Proof.
  unfold Adapter.label_with_ids, label_from_ids.
  induction cols as [|c cols IH]; [reflexivity |].
  cbn [List.map traverse]. rewrite getitem_column_id, IH. reflexivity.
Qed.

Lemma label_with_cells_columns (cols : list QueryResultsColumn)
    (texts : list (string * option string)) :
  Adapter.label_with_cells (List.map column_value cols)
    (List.map cell_value (List.map text_cell texts))
  = Ok (List.map column_value (label_from_row cols (List.map fst texts))).
Proof.
  revert texts. induction cols as [|c cols IH]; intros [|[l f] texts];
    try reflexivity.
  cbn [List.map Adapter.label_with_cells label_from_row fst].
  assert (Py.getitem (cell_value (text_cell (l, f))) "v" = Ok (VStr l)) as ->
    by reflexivity.
  cbn [mbind res_bind].
  assert (Py.setitem (column_value c) "label" (VStr l)
          = Ok (column_value (with_label l c))) as -> by reflexivity.
  cbn [mbind res_bind]. rewrite IH. reflexivity.
Qed.

Lemma getitem_int_head (x : value) (l : list value) :
  Py.getitem_int (VList (x :: l)) 0 = Ok x.
Proof.
  unfold Py.getitem_int. change (0 <? 0) with false. cbv iota.
  destruct (Z.ltb_spec 0 (Z.of_nat (length (x :: l)))) as [_ | H];
    [reflexivity | simpl in H; lia].
Qed.

(** The policy for a sheet without labels. When the probe query returns
    columns whose labels are all empty: with no row, the columns are labelled
    with their identifiers and the offset is unchanged; with a first row
    whose cells hold texts, the columns are labelled with these texts and the
    offset is 1. The schema and the map are then those of the labelled
    columns. *)
Lemma set_columns_unlabelled (t : QueryResultsTable) (s s1 : state) :
  Adapter._run_query tzinfo urllib session "SELECT * LIMIT 1" s
    = (Ok (results_value t), s1) ->
  existsb labelled (table_cols t) = false ->
  match table_rows t with
  | [] =>
      exists cm cs,
        Adapter._set_columns tzinfo urllib session s
        = (Ok tt,
           {| Adapter.self :=
                Adapter.set_columns tzinfo cs
                  (Adapter.set_column_map tzinfo cm (self s1));
              Adapter.heap := Adapter.heap tzinfo s1;
              Adapter.next_loc := Adapter.next_loc tzinfo s1;
              Adapter.log := Adapter.log tzinfo s1 |})
        /\ (forall k, Dict.get k cm
              = (fun c => VStr (col_id c))
                <$> last_labelled k (label_from_ids (table_cols t)))
        /\ (forall k, Dict.contains k cs = true <->
              k <> "" /\ exists c, In c (table_cols t) /\ Str.strip (col_id c) = k)
  | row :: _ =>
      forall texts, row_c row = List.map text_cell texts ->
      exists cm cs,
        Adapter._set_columns tzinfo urllib session s
        = (Ok tt,
           {| Adapter.self :=
                Adapter.set_columns tzinfo cs
                  (Adapter.set_column_map tzinfo cm
                     (Adapter.set_offset tzinfo 1 (self s1)));
              Adapter.heap := Adapter.heap tzinfo s1;
              Adapter.next_loc := Adapter.next_loc tzinfo s1;
              Adapter.log := Adapter.log tzinfo s1 |})
        /\ (forall k, Dict.get k cm
              = (fun c => VStr (col_id c))
                <$> last_labelled k
                      (label_from_row (table_cols t) (List.map fst texts)))
        /\ (forall k, Dict.contains k cs = true <->
              k <> "" /\ exists c,
                In c (label_from_row (table_cols t) (List.map fst texts))
                /\ Str.strip (col_label c) = k)
  end.
Proof.
  intros Hquery Hlabel.
  destruct (table_rows t) as [|row rows] eqn:Hrows.
  - destruct (schema_of_columns (label_from_ids (table_cols t)) s1)
      as (cm & cs & Heq & Hget & Hin & _).
    exists cm, cs. split; [| split; [exact Hget |]].
    + unfold Adapter._set_columns.
      rewrite (bind_ok _ _ s s1 (results_value t) Hquery).
      rewrite (bind_ok _ _ s1 s1 (VList (List.map column_value (table_cols t))))
        by reflexivity.
      rewrite (bind_ok _ _ s1 s1 (VList []))
        by (unfold Adapter.lift, results_value, table_value; now rewrite Hrows).
      rewrite (bind_ok _ _ s1 s1 (List.map column_value (table_cols t))) by reflexivity.
      rewrite (bind_ok _ _ s1 s1 true)
        by (unfold Adapter.lift;
            now rewrite labels_all_empty_columns, none_labelled).
      rewrite (bind_ok _ _ s1 s1 (List.map column_value (label_from_ids (table_cols t))))
        by (cbn [Py.truthy]; unfold Adapter.lift; now rewrite label_with_ids_columns).
      exact Heq.
    + intros k. rewrite Hin. unfold label_from_ids. split.
      * intros (Hk & c & Hc & Hl). split; [exact Hk |].
        apply in_map_iff in Hc as (c0 & <- & Hc0). now exists c0.
      * intros (Hk & c & Hc & Hl). split; [exact Hk |].
        exists (with_label (col_id c) c). split; [| exact Hl].
        apply in_map_iff. now exists c.
  - intros texts Htexts.
    set (s1' := {| Adapter.self := Adapter.set_offset tzinfo 1 (self s1);
                   Adapter.heap := Adapter.heap tzinfo s1;
                   Adapter.next_loc := Adapter.next_loc tzinfo s1;
                   Adapter.log := Adapter.log tzinfo s1 |}).
    destruct (schema_of_columns (label_from_row (table_cols t) (List.map fst texts)) s1')
      as (cm & cs & Heq & Hget & Hin & _).
    exists cm, cs. split; [| split; [exact Hget | exact Hin]].
    unfold Adapter._set_columns.
    rewrite (bind_ok _ _ s s1 (results_value t) Hquery).
    rewrite (bind_ok _ _ s1 s1 (VList (List.map column_value (table_cols t))))
      by reflexivity.
    rewrite (bind_ok _ _ s1 s1 (VList (row_value row :: List.map row_value rows)))
      by (unfold Adapter.lift, results_value, table_value; now rewrite Hrows).
    rewrite (bind_ok _ _ s1 s1 (List.map column_value (table_cols t))) by reflexivity.
    rewrite (bind_ok _ _ s1 s1 true)
      by (unfold Adapter.lift;
          now rewrite labels_all_empty_columns, none_labelled).
    rewrite (bind_ok _ _ s1 s1'
               (List.map column_value
                  (label_from_row (table_cols t) (List.map fst texts)))).
    2:{ cbn [Py.truthy]. rewrite (bind_ok _ _ s1 s1' tt) by reflexivity.
        unfold Adapter.lift. rewrite getitem_int_head.
        unfold row_value at 1. cbn [mbind res_bind Py.getitem Dict.get String.eqb
          Ascii.eqb Bool.eqb Py.iter].
        now rewrite Htexts, label_with_cells_columns. }
    exact Heq.
Qed.

(** *** The schema, whatever the labels *)

Lemma label_with_cells_facing (cols : list QueryResultsColumn)
    (cells : list (option QueryResultsCell)) (texts : list string) :
  facing_texts cols cells = Some texts ->
  Adapter.label_with_cells (List.map column_value cols) (List.map cell_value cells)
  = Ok (List.map column_value (label_from_row cols texts)).
Proof.
  revert cells texts. induction cols as [|c cols IH]; intros [|[cell|] cells] texts;
    cbn [facing_texts]; try (intros [= <-]; reflexivity); try discriminate.
  destruct (cell_v cell) as [| | | |l| |] eqn:Hv; try discriminate.
  destruct (facing_texts cols cells) as [texts'|] eqn:Hrest; [| discriminate].
  intros [= <-].
  cbn [List.map Adapter.label_with_cells label_from_row].
  assert (Py.getitem (cell_value (Some cell)) "v" = Ok (VStr l)) as ->
    by (unfold cell_value; cbn; now rewrite Hv).
  cbn [mbind res_bind].
  assert (Py.setitem (column_value c) "label" (VStr l)
          = Ok (column_value (with_label l c))) as -> by reflexivity.
  cbn [mbind res_bind]. now rewrite (IH cells texts' Hrest).
Qed.

(** A first row that cannot give the labels stops schema resolution, when
    a cell is read or when a label is trimmed. *)
Lemma label_with_cells_fails (cols : list QueryResultsColumn)
    (cells : list (option QueryResultsCell)) :
  facing_texts cols cells = None ->
  match Adapter.label_with_cells (List.map column_value cols)
          (List.map cell_value cells) with
  | Raise _ => True
  | Ok cols' => exists e, forall acc, Adapter.column_map_of cols' acc = Raise e
  end.
Proof.
  revert cells. induction cols as [|c cols IH]; intros [|[cell|] cells];
    cbn [facing_texts]; try discriminate; [| intros _; exact I].
  intros Hnone.
  cbn [List.map Adapter.label_with_cells].
  assert (Py.getitem (cell_value (Some cell)) "v" = Ok (cell_v cell)) as ->
    by reflexivity.
  cbn [mbind res_bind].
  assert (exists col,
            Py.setitem (column_value c) "label" (cell_v cell) = Ok col
            /\ Py.getitem col "label" = Ok (cell_v cell)
            /\ Py.getitem col "id" = Ok (VStr (col_id c))) as (col & -> & Hlabel & Hid).
  { eexists. split; [reflexivity |]. split; reflexivity. }
  cbn [mbind res_bind].
  destruct (cell_v cell) as [| | | |l| |] eqn:Hv.
  5:{ destruct (facing_texts cols cells) as [texts|] eqn:Hrest; [discriminate |].
      specialize (IH cells Hrest).
      destruct (Adapter.label_with_cells _ _) as [cols'|]; [| exact I].
      destruct IH as [e He]. exists e. intros acc.
      cbn [Adapter.column_map_of]. rewrite Hlabel, Hid. cbn. apply He. }
  all: destruct (Adapter.label_with_cells _ _) as [cols'|]; [| exact I].
  all: exists AttributeError; intros acc;
    cbn [Adapter.column_map_of]; now rewrite Hlabel.
Qed.

Lemma label_from_row_ids (cols : list QueryResultsColumn) (texts : list string) :
  List.map col_id (label_from_row cols texts) = List.map col_id cols.
Proof.
  revert texts. induction cols as [|c cols IH]; intros [|l texts]; try reflexivity.
  cbn [label_from_row List.map]. now rewrite IH.
Qed.

(** Relabelling keeps the columns and their identifiers. *)
Lemma resolved_columns_ids (t : QueryResultsTable) (cols : list QueryResultsColumn) :
  resolved_columns t = Some cols ->
  List.map col_id cols = List.map col_id (table_cols t).
Proof.
  unfold resolved_columns. destruct (existsb labelled (table_cols t)).
  - now intros [= <-].
  - destruct (table_rows t) as [|row rows].
    + intros [= <-]. unfold label_from_ids. rewrite List.map_map. reflexivity.
    + destruct (facing_texts (table_cols t) (row_c row)) as [texts|];
        [| discriminate].
      intros [= <-]. apply label_from_row_ids.
Qed.

(** Schema resolution once the probe has returned the table [t]. *)
Lemma set_columns_after_probe (t : QueryResultsTable) (s s1 : state) :
  Adapter._run_query tzinfo urllib session "SELECT * LIMIT 1" s
    = (Ok (results_value t), s1) ->
  Adapter._set_columns tzinfo urllib session s
  = (cols ← (if forallb (fun c => negb (labelled c)) (table_cols t) then
               if Py.truthy (VList (List.map row_value (table_rows t))) then
                 Adapter.update_self tzinfo (Adapter.set_offset tzinfo 1);;
                 Adapter.lift tzinfo
                   (row ← Py.getitem_int
                            (VList (List.map row_value (table_rows t))) 0;
                    cells ← Py.getitem row "c";
                    cells ← Py.iter cells;
                    Adapter.label_with_cells
                      (List.map column_value (table_cols t)) cells)
               else Adapter.lift tzinfo
                      (Adapter.label_with_ids (List.map column_value (table_cols t)))
             else mret (List.map column_value (table_cols t)));
     column_map ← Adapter.lift tzinfo (Adapter.column_map_of cols []);
     Adapter.update_self tzinfo (Adapter.set_column_map tzinfo column_map);;
     self ← Adapter.get_self tzinfo;
     columns ← Adapter.lift tzinfo
       (Adapter.columns_of tzinfo (Adapter._timezone tzinfo self) cols []);
     Adapter.update_self tzinfo (Adapter.set_columns tzinfo columns)) s1.
Proof.
  intros Hquery. unfold Adapter._set_columns.
  rewrite (bind_ok _ _ s s1 (results_value t) Hquery).
  rewrite (bind_ok _ _ s1 s1 (VList (List.map column_value (table_cols t))))
    by reflexivity.
  rewrite (bind_ok _ _ s1 s1 (VList (List.map row_value (table_rows t))))
    by reflexivity.
  rewrite (bind_ok _ _ s1 s1 (List.map column_value (table_cols t))) by reflexivity.
  now rewrite (bind_ok _ _ s1 s1 (forallb (fun c => negb (labelled c)) (table_cols t)))
    by (unfold Adapter.lift; now rewrite labels_all_empty_columns).
Qed.

(** C9 (amended). Schema resolution, once the probe has returned the
    table [t]. Let the columns be labelled as resolution labels them: as the
    provider labels them when one label at least is not empty, else with
    the texts of the first row, else (no row) with their identifiers. Then
    schema resolution returns; the exposed schema has exactly the trimmed
    labels that are not empty; and the map from labels to provider
    identifiers is built from all the columns, by trimmed label: a label
    maps to the identifier of the last column that has it, so that the
    columns whose trimmed label is empty share the one key "" and only the
    last of them is in the map. The offset is 1 when the first row is read
    as the labels, and else unchanged. Schema resolution fails only when
    the first row is to give the labels and cannot: one of its cells is
    [null] or does not hold a text. So it does not fail when one column at
    least has a label. *)
Theorem set_columns_blank_labels (t : QueryResultsTable) (s s1 : state) :
  Adapter._run_query tzinfo urllib session "SELECT * LIMIT 1" s
    = (Ok (results_value t), s1) ->
  (forall cols, resolved_columns t = Some cols ->
     List.map col_id cols = List.map col_id (table_cols t)
     /\ exists cm cs,
          Adapter._set_columns tzinfo urllib session s
          = (Ok tt,
             {| Adapter.self :=
                  Adapter.set_columns tzinfo cs
                    (Adapter.set_column_map tzinfo cm
                       (if first_row_is_header t
                        then Adapter.set_offset tzinfo 1 (self s1)
                        else self s1));
                Adapter.heap := Adapter.heap tzinfo s1;
                Adapter.next_loc := Adapter.next_loc tzinfo s1;
                Adapter.log := Adapter.log tzinfo s1 |})
          /\ (forall k, Dict.get k cm
                = (fun c => VStr (col_id c)) <$> last_labelled k cols)
          /\ (forall k, Dict.contains k cs = true <->
                k <> "" /\ exists c, In c cols /\ Str.strip (col_label c) = k)
          /\ Dict.contains "" cs = false)
  /\ (resolved_columns t = None ->
      exists e, fst (Adapter._set_columns tzinfo urllib session s) = Raise e)
  /\ (existsb labelled (table_cols t) = true ->
      resolved_columns t = Some (table_cols t)).
Proof.
  intros Hquery.
  rewrite (set_columns_after_probe t s s1 Hquery).
  unfold resolved_columns, first_row_is_header.
  destruct (existsb labelled (table_cols t)) eqn:Hlabel; cbn [negb andb].
  - rewrite (some_labelled _ Hlabel).
    split; [| split; [discriminate | reflexivity]].
    intros cols [= <-]. split; [reflexivity |].
    destruct (schema_of_columns (table_cols t) s1) as (cm & cs & Heq & Hrest).
    exists cm, cs. split; [| exact Hrest].
    now rewrite (bind_ok _ _ s1 s1 (List.map column_value (table_cols t))).
  - rewrite (none_labelled _ Hlabel).
    split; [| split; [| discriminate]].
    + intros cols Hcols. split.
      { apply resolved_columns_ids. unfold resolved_columns. now rewrite Hlabel. }
      destruct (table_rows t) as [|row rows].
      * injection Hcols as <-.
        destruct (schema_of_columns (label_from_ids (table_cols t)) s1)
          as (cm & cs & Heq & Hrest).
        exists cm, cs. split; [| exact Hrest].
        now rewrite (bind_ok _ _ s1 s1
                       (List.map column_value (label_from_ids (table_cols t))))
          by (cbn [List.map Py.truthy]; unfold Adapter.lift;
              now rewrite label_with_ids_columns).
      * destruct (facing_texts (table_cols t) (row_c row)) as [texts|] eqn:Htexts;
          [| discriminate].
        injection Hcols as <-.
        set (s1' := {| Adapter.self := Adapter.set_offset tzinfo 1 (self s1);
                       Adapter.heap := Adapter.heap tzinfo s1;
                       Adapter.next_loc := Adapter.next_loc tzinfo s1;
                       Adapter.log := Adapter.log tzinfo s1 |}).
        destruct (schema_of_columns (label_from_row (table_cols t) texts) s1')
          as (cm & cs & Heq & Hrest).
        exists cm, cs. split; [| exact Hrest].
        rewrite (bind_ok _ _ s1 s1'
                   (List.map column_value (label_from_row (table_cols t) texts)));
          [exact Heq |].
        cbn [List.map Py.truthy]. rewrite (bind_ok _ _ s1 s1' tt) by reflexivity.
        unfold Adapter.lift. rewrite getitem_int_head.
        cbn [mbind res_bind].
        assert (Py.getitem (row_value row) "c"
                = Ok (VList (List.map cell_value (row_c row)))) as -> by reflexivity.
        cbn [mbind res_bind Py.iter].
        now rewrite (label_with_cells_facing _ _ _ Htexts).
    + destruct (table_rows t) as [|row rows]; [discriminate |].
      destruct (facing_texts (table_cols t) (row_c row)) as [texts|] eqn:Htexts;
        [discriminate |].
      intros _. pose proof (label_with_cells_fails _ _ Htexts) as Hfails.
      cbn [List.map Py.truthy].
      unfold mbind at 1, Adapter.M_bind at 1.
      unfold mbind at 1, Adapter.M_bind at 1, Adapter.update_self at 1.
      unfold Adapter.lift at 1. rewrite getitem_int_head.
      cbn [mbind res_bind].
      assert (Py.getitem (row_value row) "c"
              = Ok (VList (List.map cell_value (row_c row)))) as -> by reflexivity.
      cbn [mbind res_bind Py.iter].
      destruct (Adapter.label_with_cells _ _) as [cols'|e]; [| now exists e].
      destruct Hfails as [e He]. exists e.
      unfold mbind, Adapter.M_bind, Adapter.lift. now rewrite He.
Qed.

End SchemaFacts.

(** ** The properties in the closed world *)

Lemma get_data_impossible_filter_witness :
  let bounds := [("cnt", Translator.FRange (Some 10) (Some 5) false false)] in
  let s := World.three_rows in
  World.get_data [] bounds [] s = (Ok [], s)
  /\ Adapter.log unit (snd (World.get_data [] bounds [] s)) = Adapter.log unit s.
Proof.
  exact (get_data_impossible_filter Urllib.cpython (scripted []) Translator.Filter
           Translator.RequestedOrder World.build_sql
           [("cnt", Translator.FRange (Some 10) (Some 5) false false)] []
           World.three_rows eq_refl).
Defined.

Lemma insert_data_new_row_id_witness :
  let s := World.three_rows in
  let row := 3%nat in
  let d := [("country", VStr "FR"); ("cnt", VInt 4); ("rowid", VNone)] in
  let session := scripted [World.done_answer] in
  exists new_id,
    Adapter.row_ids unit (Adapter.self unit (snd (Adapter.insert_data unit session row s)))
      = <[new_id := row]> (Adapter.row_ids unit (Adapter.self unit s))
    /\ Adapter.heap unit (snd (Adapter.insert_data unit session row s)) !! row
       = Some (Dict.remove "rowid" d)
    /\ (forall id, fst (Adapter.insert_data unit session row s) = Ok id -> id = new_id)
    /\ (Adapter.row_ids unit (Adapter.self unit s) = ∅ -> new_id = 0)
    /\ (Adapter.row_ids unit (Adapter.self unit s) <> ∅ ->
        is_Some (Adapter.row_ids unit (Adapter.self unit s) !! (new_id - 1))
        /\ forall k, is_Some (Adapter.row_ids unit (Adapter.self unit s) !! k) ->
                     k <= new_id - 1)
    /\ (dom (Adapter.row_ids unit (Adapter.self unit s)) = {[0; 1; 2]} -> new_id = 3).
Proof.
  exact (insert_data_new_row_id (scripted [World.done_answer]) 3%nat
           [("country", VStr "FR"); ("cnt", VInt 4); ("rowid", VNone)]
           World.three_rows eq_refl eq_refl).
Defined.

(** The row known by the identifier 0 holds the text [BR] and the integer
    1. It is located at position 2 of the remote values, where the number is
    the float 1.0, after two rows that are different and before a row that
    is equal too. *)
Lemma find_row_number_first_match_witness :
  let s := World.three_rows in
  let session := scripted [World.values_answer World.remote_values] in
  fst (Adapter._find_row_number unit session 0%nat s) = Ok 2
  /\ World.remote_values !! 2%nat = Some [VStr "BR"; VFloat (FFin 1 0)]
  /\ World.remote_values !! 3%nat = Some [VStr "BR"; VInt 1]
  /\ same_objects s (snd (Adapter._find_row_number unit session 0%nat s))
  /\ Adapter.log unit (snd (Adapter._find_row_number unit session 0%nat s))
     = Adapter.log unit s ++ [values_request (Adapter.self unit s)].
Proof.
  destruct (find_row_number_first_match
              (scripted [World.values_answer World.remote_values]) 0%nat
              [("country", VStr "BR"); ("cnt", VInt 1)] [VStr "BR"; VInt 1]
              (List.map VList World.remote_values)
              (plain_response (VDict [("range", VStr "Sheet1!A1:Z1000");
                                      ("majorDimension", VStr "ROWS");
                                      ("values", VList (List.map VList World.remote_values))]))
              (VDict [("range", VStr "Sheet1!A1:Z1000");
                      ("majorDimension", VStr "ROWS");
                      ("values", VList (List.map VList World.remote_values))])
              World.three_rows eq_refl eq_refl eq_refl eq_refl eq_refl eq_refl)
    as (Hsame & Hlog & Hfound & _).
  split.
  - apply (Hfound 2%nat (VList [VStr "BR"; VFloat (FFin 1 0)]) eq_refl eq_refl).
    intros [|[|j]] rv' Hj Hrv'; [now injection Hrv' as <- .. |].
    exfalso. apply (Nat.nlt_0_r j). now do 2 apply Nat.succ_lt_mono.
  - repeat split; first [exact Hlog | apply Hsame].
Defined.

(** The row is at position 2 of the remote values, before its copy. *)
Example find_row_number_examples :
  fst (World._find_row_number [World.values_answer World.remote_values] 0%nat
         World.three_rows) = Ok 2
  /\ fst (World._find_row_number [World.values_answer World.remote_values] 2%nat
            World.three_rows)
     = Raise (ProgrammingError
                [Lit "Could not find row: ";
                 Fmt (VDict [("country", VStr "ZA"); ("cnt", VInt 3)])]).
Proof. split; reflexivity. Qed.

(** Deleting and updating the first of the three rows: the row is located
    at position 2, the identifier leaves the map only when the provider
    accepts the deletion, and an update moves the row to the identifier it
    comes with. *)
Example mutation_examples :
  (let r := World.delete_data [World.values_answer World.remote_values; World.done_answer]
              0 World.three_rows in
   fst r = Ok tt
   /\ List.map fst (World.rows_known (snd r)) = [2; 1]
   /\ List.map req_method (Adapter.log unit (snd r)) = [GET; POST])
  /\ (let r := World.delete_data
                 [World.values_answer World.remote_values; World.error_answer "denied"]
                 0 World.three_rows in
      fst r = Raise (ProgrammingError [Lit "denied"])
      /\ List.map fst (World.rows_known (snd r)) = [2; 1; 0])
  /\ (let r := World.delete_data [] 7 World.three_rows in
      fst r = Raise (ProgrammingError [Lit "Invalid row to delete: 7"])
      /\ Adapter.log unit (snd r) = [])
  /\ (let s := World.with_rows World.sheet
                 [(0, [("country", VStr "BR"); ("cnt", VInt 1)])]
                 [[("country", VStr "FR"); ("cnt", VInt 4); ("rowid", VInt 7)]] in
      let r := World.update_data [World.values_answer World.remote_values; World.done_answer]
                 0 1%nat s in
      fst r = Ok tt
      /\ World.rows_known (snd r) = [(7, Some [("country", VStr "FR"); ("cnt", VInt 4)])]
      /\ List.map req_url (Adapter.log unit (snd r))
         = ["https://sheets.googleapis.com/v4/spreadsheets/1/values/Sheet1";
            "https://sheets.googleapis.com/v4/spreadsheets/1/values/Sheet1!A3"]).
Proof. repeat split; reflexivity. Qed.

(** A sheet whose columns A, B and C have no label and whose first row
    holds the texts [country], a blank and [cnt ]: the first row gives the
    labels, the offset is 1, the schema has the columns [country] and [cnt],
    and the map has the three trimmed labels, the empty one for B. *)
Lemma set_columns_blank_labels_witness :
  let session := scripted [World.answer Cases.blank_first_row] in
  let s := World.start World.fresh in
  let s1 := snd (Adapter._run_query unit Urllib.cpython session "SELECT * LIMIT 1" s) in
  let cols := [World.column "A" "country" "string"; World.column "B" " " "string";
               World.column "C" "cnt " "number"] in
  List.map col_id cols = ["A"; "B"; "C"]
  /\ exists cm cs,
       Adapter._set_columns unit Urllib.cpython session s
       = (Ok tt,
          {| Adapter.self :=
               Adapter.set_columns unit cs
                 (Adapter.set_column_map unit cm
                    (Adapter.set_offset unit 1 (Adapter.self unit s1)));
             Adapter.heap := Adapter.heap unit s1;
             Adapter.next_loc := Adapter.next_loc unit s1;
             Adapter.log := Adapter.log unit s1 |})
       /\ (forall k, Dict.get k cm
             = (fun c => VStr (col_id c)) <$> last_labelled k cols)
       /\ (forall k, Dict.contains k cs = true <->
             k <> "" /\ exists c, In c cols /\ Str.strip (col_label c) = k)
       /\ Dict.contains "" cs = false.
Proof.
  exact (proj1 (set_columns_blank_labels Urllib.cpython
                  (scripted [World.answer Cases.blank_first_row])
                  Cases.blank_first_row (World.start World.fresh)
                  (snd (Adapter._run_query unit Urllib.cpython
                          (scripted [World.answer Cases.blank_first_row])
                          "SELECT * LIMIT 1" (World.start World.fresh)))
                  eq_refl)
           [World.column "A" "country" "string"; World.column "B" " " "string";
            World.column "C" "cnt " "number"]
           eq_refl).
Defined.

(** C9 as stated fails. Of the columns B and C of this sheet, whose trimmed
    labels are empty, only C is in the map from labels to identifiers: no
    key maps to B. *)
Lemma blank_columns_not_retained :
  let r := World._set_columns [World.answer World.sparse] (World.start World.fresh) in
  let column_map := Adapter._column_map unit (Adapter.self unit (snd r)) in
  fst r = Ok tt
  /\ column_map = [("country", VStr "A"); ("", VStr "C")]
  /\ Dict.keys (Adapter.columns unit (Adapter.self unit (snd r))) = ["country"]
  /\ ~ (forall c, In c (table_cols World.sparse) ->
          Str.strip (col_label c) = "" ->
          exists k, Dict.get k column_map = Some (VStr (col_id c))).
Proof.
  split; [reflexivity |]. split; [reflexivity |]. split; [reflexivity |].
  intros H.
  destruct (H (World.column "B" "" "number")) as [k Hk];
    [right; now left | reflexivity |].
  change (Dict.get k [("country", VStr "A"); ("", VStr "C")] = Some (VStr "B")) in Hk.
  cbn [Dict.get] in Hk.
  destruct (String.eqb k "country"); [discriminate |].
  destruct (String.eqb k ""); discriminate.
Qed.

(** C4 on sheets without a header row. When the cells of the first row are
    texts they become the labels and the offset is 1, and when there is no row
    the identifiers become the labels and the offset stays 0. But schema
    resolution raises when the first row has an empty cell, which the provider
    sends as [null] and which get_data accepts ([cell["v"] if cell else
    None]), and when it has a number: the row is not used as labels. *)
Theorem set_columns_first_row :
  let resolve t := World._set_columns [World.answer t] (World.start World.fresh) in
  (* texts *)
  (let r := resolve (World.headerless [World.cell (VStr "country"); World.cell (VStr "cnt ")]) in
   fst r = Ok tt
   /\ World.observe (snd r)
      = (1, [("country", VStr "A"); ("cnt", VStr "B")], ["country"; "cnt"], [], 1%nat))
  (* no row *)
  /\ (let r := resolve (World.table [World.column "A" "" "string"; World.column "B" "" "number"] []) in
      fst r = Ok tt
      /\ World.observe (snd r)
         = (0, [("A", VStr "A"); ("B", VStr "B")], ["A"; "B"], [], 1%nat))
  (* an empty cell *)
  /\ (let r := resolve (World.headerless [World.cell (VStr "country"); None]) in
      fst r = Raise TypeError
      /\ World.observe (snd r) = (1, [], [], [], 1%nat))
  (* a number *)
  /\ (let r := resolve (World.headerless [World.cell (VStr "country"); World.cell (VFloat (FFin 1 0))]) in
      fst r = Raise AttributeError
      /\ World.observe (snd r) = (1, [], [], [], 1%nat)).
Proof. repeat split; reflexivity. Qed.

(** C8 after a fetch. get_data stores each row in the map and then writes
    its identifier in the same dict object, so that the row the map holds has
    the key [rowid]; the other paths remove the key before they store the row
    (insert_data here). *)
Theorem get_data_stores_rowid :
  (let r := World.get_data [World.answer World.countries] [] [] (World.start World.sheet) in
   fst r = Ok [0%nat]
   /\ World.rows_known (snd r)
      = [(0, Some [("country", VStr "BR"); ("cnt", VFloat (FFin 1 0)); ("rowid", VInt 0)])]
   /\ (exists row d,
         Adapter.row_ids unit (Adapter.self unit (snd r)) !! 0 = Some row
         /\ Adapter.heap unit (snd r) !! row = Some d
         /\ Dict.contains "rowid" d = true))
  /\ (let r := World.insert_data [World.done_answer] 3%nat World.three_rows in
      fst r = Ok 3
      /\ exists row d,
           Adapter.row_ids unit (Adapter.self unit (snd r)) !! 3 = Some row
           /\ Adapter.heap unit (snd r) !! row = Some d
           /\ Dict.contains "rowid" d = false).
Proof.
  split.
  - repeat split.
    exists 0%nat, [("country", VStr "BR"); ("cnt", VFloat (FFin 1 0)); ("rowid", VInt 0)].
    repeat split.
  - split; [reflexivity |].
    exists 3%nat, [("country", VStr "FR"); ("cnt", VInt 4)].
    repeat split.
Qed.

(** The modelled translator on contradictory bounds: a range whose start is
    above its end, or equal to it with a bound excluded, makes the
    translation fail before any text is written, whatever the other
    filters. *)
Lemma translator_impossible {Field : Type} (columns : odict Field)
    (bounds : odict Translator.Filter)
    (order : list (string * Translator.RequestedOrder))
    (column_map : odict value) (offset : Z) (name : string) (a b : Z)
    (include_start include_end : bool) :
  In (name, Translator.FRange (Some a) (Some b) include_start include_end) bounds ->
  b < a \/ (a = b /\ include_start && include_end = false) ->
  Translator.build_sql columns bounds order column_map offset
  = Raise ImpossibleFilterError.
Proof.
  intros Hin Hcontra. unfold Translator.build_sql.
  assert (existsb (fun '(_, f) => Translator.impossible f) bounds = true) as ->;
    [| reflexivity].
  apply existsb_exists. eexists. split; [exact Hin |].
  simpl. destruct Hcontra as [Hlt | [-> ->]].
  - apply orb_true_iff. left. now apply Z.ltb_lt.
  - rewrite Z.eqb_refl. apply orb_true_r.
Qed.

(** ** The adapter: the rows a fetch registers *)

Section FetchFacts.

Context {tzinfo : Type}.
Variable urllib : Url.urllib_parse.
Variable session : list Request -> Request -> res Response.
Variable Filter : Type.
Variable RequestedOrder : Type.
Variable build_sql :
  odict (Adapter.Field tzinfo) -> odict Filter -> list (string * RequestedOrder) ->
  odict value -> Z -> res string.

Abbreviation state := (Adapter.state tzinfo).
Abbreviation self := (Adapter.self tzinfo).
Abbreviation heap := (Adapter.heap tzinfo).
Abbreviation next_loc := (Adapter.next_loc tzinfo).
Abbreviation row_ids := (Adapter.row_ids tzinfo).

(** The new objects are at the next locations, in order; the objects that
    were there are as they were. *)
Lemma alloc_all_spec (ds : list dict) (s : state) :
  exists s',
    Adapter.alloc_all tzinfo ds s = (Ok (seq (next_loc s) (length ds)), s')
    /\ self s' = self s
    /\ Adapter.log tzinfo s' = Adapter.log tzinfo s
    /\ (forall (i : nat) d, ds !! i = Some d -> heap s' !! ((next_loc s + i)%nat : loc) = Some d)
    /\ (forall l : loc, (l < next_loc s)%nat -> heap s' !! l = heap s !! l).
Proof.
  revert s. induction ds as [|d ds IH]; intros s.
  - exists s. repeat split; try reflexivity. intros i d H. now destruct i.
  - cbn [Adapter.alloc_all length seq].
    set (s1 := {| Adapter.self := self s;
                  Adapter.heap := <[next_loc s := d]> (heap s);
                  Adapter.next_loc := S (next_loc s);
                  Adapter.log := Adapter.log tzinfo s |}).
    rewrite (bind_ok _ _ s s1 (next_loc s)) by reflexivity.
    destruct (IH s1) as (s' & Heq & Hself & Hlog & Hnew & Hold).
    rewrite (bind_ok _ _ s1 s' _ Heq).
    exists s'. split; [reflexivity |]. split; [exact Hself |]. split; [exact Hlog |].
    split.
    + intros [|i] d' Hi; simpl in Hi.
      * injection Hi as <-. rewrite Nat.add_0_r.
        rewrite (Hold (next_loc s)) by (simpl; lia).
        apply lookup_insert_eq.
      * replace (next_loc s + S i)%nat with (next_loc s1 + i)%nat by (simpl; lia).
        now apply Hnew.
    + intros l Hl. rewrite (Hold l) by (simpl; lia).
      apply lookup_insert_ne. lia.
Qed.

(** What the loop of get_data does with the rows at the locations from [l]
    on, numbered from [k] on: each is stored under its number, and then
    receives its number under the key [rowid]. *)
Lemma register_rows (ds : list dict) (k : nat) (l : loc) (s : state) :
  (forall (i : nat) d, ds !! i = Some d -> heap s !! ((l + i)%nat : loc) = Some d) ->
  exists s',
    Adapter.for_each tzinfo
      (fun '(i, row) =>
         Adapter.update_self tzinfo
           (fun a => Adapter.set_row_ids tzinfo (<[i := row]> (row_ids a)) a);;
         d ← Adapter.load tzinfo row;
         Adapter.store tzinfo row (Dict.set "rowid" (VInt i) d))
      (zip (List.map Z.of_nat (seq k (length ds))) (seq l (length ds))) s
    = (Ok tt, s')
    /\ Adapter.log tzinfo s' = Adapter.log tzinfo s
    /\ (forall (i : nat) d, ds !! i = Some d ->
          row_ids (self s') !! Z.of_nat (k + i) = Some (l + i)%nat
          /\ heap s' !! ((l + i)%nat : loc)
             = Some (Dict.set "rowid" (VInt (Z.of_nat (k + i))) d))
    /\ (forall l' : loc, (l' < l)%nat -> heap s' !! l' = heap s !! l')
    /\ (forall z, z < Z.of_nat k -> row_ids (self s') !! z = row_ids (self s) !! z).
Proof.
  revert k l s. induction ds as [|d ds IH]; intros k l s Hheap.
  - exists s. split; [reflexivity |]. split; [reflexivity |].
    split; [intros i d H; now destruct i |]. split; reflexivity.
  - cbn [length seq List.map zip zip_with Adapter.for_each].
    set (s1 := {| Adapter.self :=
                    Adapter.set_row_ids tzinfo (<[Z.of_nat k := l]> (row_ids (self s)))
                      (self s);
                  Adapter.heap := <[l := Dict.set "rowid" (VInt (Z.of_nat k)) d]> (heap s);
                  Adapter.next_loc := next_loc s;
                  Adapter.log := Adapter.log tzinfo s |}).
    rewrite (bind_ok _ _ s s1 tt).
    2:{ unfold mbind, Adapter.M_bind, Adapter.update_self, Adapter.load, Adapter.store.
        cbn [Adapter.heap Adapter.self Adapter.next_loc Adapter.log].
        specialize (Hheap O d eq_refl). rewrite Nat.add_0_r in Hheap.
        now rewrite Hheap. }
    destruct (IH (S k) (S l) s1) as (s' & Heq & Hlog & Hrows & Hold & Hids).
    { intros i d' Hi. cbn. rewrite lookup_insert_ne by lia.
      replace (S (l + i)) with (l + S i)%nat by lia. now apply Hheap. }
    exists s'. split; [exact Heq |]. split; [exact Hlog |]. split; [| split].
    + intros [|i] d' Hi; simpl in Hi.
      * injection Hi as <-. rewrite !Nat.add_0_r. split.
        -- rewrite Hids by lia. cbn. apply lookup_insert_eq.
        -- rewrite Hold by lia. cbn. apply lookup_insert_eq.
      * replace (k + S i)%nat with (S k + i)%nat by lia.
        replace (l + S i)%nat with (S l + i)%nat by lia.
        now apply Hrows.
    + intros l' Hl'. rewrite Hold by lia. cbn. apply lookup_insert_ne. lia.
    + intros z Hz. rewrite Hids by lia. cbn. apply lookup_insert_ne. lia.
Qed.

(** Every row of a fetch is in the map with its identifier in it: when the
    translation gives a query, the query succeeds and its payload gives the
    rows [ds], get_data yields as many new objects, and the map takes the
    i-th of them under the identifier i, with the key [rowid] set to i. *)
Lemma get_data_registers_rowid (bounds : odict Filter)
    (order : list (string * RequestedOrder)) (sql : string) (payload : value)
    (ds : list dict) (s s1 : state) :
  build_sql (Adapter.columns tzinfo (self s)) bounds order
    (Adapter._column_map tzinfo (self s)) (Adapter._offset tzinfo (self s)) = Ok sql ->
  Adapter._run_query tzinfo urllib session sql s = (Ok payload, s1) ->
  (table ← Py.getitem payload "table";
   rows ← Py.getitem table "rows";
   rows ← Py.iter rows;
   traverse (fun row =>
     cells ← Py.getitem row "c";
     cells ← Py.iter cells;
     Adapter.row_of_cells (Dict.keys (Adapter.columns tzinfo (self s1))) cells []) rows)
  = Ok ds ->
  exists s',
    Adapter.get_data tzinfo urllib session Filter RequestedOrder build_sql bounds order s
    = (Ok (seq (next_loc s1) (length ds)), s')
    /\ Adapter.log tzinfo s' = Adapter.log tzinfo s1
    /\ forall (i : nat) d, ds !! i = Some d ->
         row_ids (self s') !! Z.of_nat i = Some (next_loc s1 + i)%nat
         /\ heap s' !! ((next_loc s1 + i)%nat : loc)
            = Some (Dict.set "rowid" (VInt (Z.of_nat i)) d)
         /\ Dict.contains "rowid" (Dict.set "rowid" (VInt (Z.of_nat i)) d) = true.
Proof.
  intros Hsql Hquery Hrows.
  destruct (alloc_all_spec ds s1) as (s2 & Halloc & Hself & Hlog & Hnew & _).
  destruct (register_rows ds 0 (next_loc s1) s2 Hnew)
    as (s' & Hloop & Hlog' & Hreg & _ & _).
  exists s'. split; [| split; [congruence |]].
  - unfold Adapter.get_data.
    rewrite (bind_ok _ _ s s (self s)) by reflexivity.
    rewrite Hsql.
    rewrite (bind_ok _ _ s s1 payload Hquery).
    rewrite (bind_ok _ _ s1 s1 (self s1)) by reflexivity.
    rewrite (bind_ok _ _ s1 s1 ds) by (unfold Adapter.lift; now rewrite Hrows).
    rewrite (bind_ok _ _ s1 s2 _ Halloc).
    rewrite length_seq.
    rewrite (bind_ok _ _ s2 s' tt Hloop).
    reflexivity.
  - intros i d Hi. destruct (Hreg i d Hi) as [Hid Hrow].
    split; [exact Hid |]. split; [exact Hrow |].
    unfold Dict.contains. now rewrite dict_get_set, String.eqb_refl.
Qed.

End FetchFacts.
(** * Properties of the rest of the file *)

(** ** The typed fields: dates *)

Lemma str_int_digits (n : Z) : 0 <= n -> all_digits (Py.str_int n) = true.
Proof.
  intros Hn. unfold Py.str_int.
  destruct (Z.ltb_spec n 0); [lia | now apply str_nonneg_spec].
Qed.

(** The slice the parsers take starts after five characters, whatever they
    are, and leaves the last character out. *)
Lemma slice_5_m1 (lead body : string) (close : ascii) :
  String.length lead = 5%nat ->
  Str.slice (Some 5) (Some (-1)) (lead +:+ body +:+ String close EmptyString) = body.
Proof.
  intros Hlead.
  destruct lead as [|a [|b [|c [|d [|e [|f lead]]]]]]; try discriminate.
  unfold Str.slice, Str.len. cbn [String.append String.length from_option].
  rewrite length_append. cbn [String.length].
  set (n := String.length body).
  change (5 <? 0) with false. change (-1 <? 0) with true. cbv iota.
  replace (Z.min 5 (Z.of_nat (S (S (S (S (S (n + 1)))))))) with 5 by lia.
  replace (Z.to_nat (Z.max (-1 + Z.of_nat (S (S (S (S (S (n + 1))))))) 0 - 5))
    with n by lia.
  change (Z.to_nat 5) with 5%nat. cbn [Str.drop].
  apply take_append.
Qed.

Lemma split_date_fields (a b c : string) :
  all_digits a = true -> all_digits b = true -> all_digits c = true ->
  Str.split "," (a +:+ "," +:+ b +:+ "," +:+ c) = [a; b; c].
Proof.
  intros Ha Hb Hc.
  rewrite (split_append "," a) by now apply all_digits_no_comma.
  rewrite (split_append "," b) by now apply all_digits_no_comma.
  now rewrite split_single by now apply all_digits_no_comma.
Qed.

(** The numbers the parsers read between the parentheses of the text of a
    date. *)
Lemma int_date_fields (y m d : Z) :
  0 <= y < 1000000 -> 1 <= m < 1000000 -> 0 <= d < 1000000 ->
  traverse Py.int (Str.split "," (date_fields (Fields.Date y m d))) = Ok [y; m - 1; d].
Proof.
  intros Hy Hm Hd. unfold date_fields. cbn [Fields.d_year Fields.d_month Fields.d_day].
  rewrite split_date_fields by (apply str_int_digits; lia).
  cbn [traverse]. now rewrite !int_str_int by (apply str_fits_small; lia).
Qed.

Lemma valid_date_bounds (y m d : Z) :
  Fields.valid_date y m d = true -> 0 <= y < 10000 /\ 1 <= m < 13 /\ 0 <= d < 32.
Proof.
  unfold Fields.valid_date. intros H.
  repeat (apply andb_true_iff in H as [H ?]).
  assert (Fields.days_in_month y m <= 31)
    by (unfold Fields.days_in_month; repeat case_match; lia).
  lia.
Qed.

(** The numbers of a date and of a time are C [int]s. *)
Lemma c_int_small (n : Z) : - 1000000 < n < 1000000 -> Fields.c_int n = true.
Proof.
  intros H. unfold Fields.c_int. change (2 ^ 31) with 2147483648.
  apply andb_true_iff. split; lia.
Qed.

(** X1. GSheetsDate.parse reads the text the provider sends for a date,
    [Date(Y,M-1,D)] with the month counted from zero, back to the date, for
    every date of the calendar. It does not look at the five characters
    before the numbers nor at the one after them: any text with the same
    numbers in between is read as the same date. *)
Theorem GSheetsDate_parse_provider (y m d : Z) (lead : string) (close : ascii) :
  Fields.valid_date y m d = true ->
  String.length lead = 5%nat ->
  Fields.GSheetsDate_parse (Some (provider_date (Fields.Date y m d)))
    = Ok (Some (Fields.Date y m d))
  /\ Fields.GSheetsDate_parse
       (Some (lead +:+ date_fields (Fields.Date y m d) +:+ String close EmptyString))
     = Ok (Some (Fields.Date y m d)).
Proof.
  intros Hv Hlead.
  destruct (valid_date_bounds y m d Hv) as (Hy & Hm & Hd).
  assert (forall lead close, String.length lead = 5%nat ->
            Fields.GSheetsDate_parse
              (Some (lead +:+ date_fields (Fields.Date y m d) +:+ String close EmptyString))
            = Ok (Some (Fields.Date y m d))) as H.
  { intros l c Hl. unfold Fields.GSheetsDate_parse. change (Str.len "Date(") with 5.
    rewrite slice_5_m1 by exact Hl.
    rewrite int_date_fields by lia. cbn [mbind res_bind].
    replace (m - 1 + 1) with m by lia.
    unfold Fields.date_new. cbn [length forallb].
    replace (3 <? 3)%nat with false by reflexivity.
    rewrite !c_int_small by lia. cbn [andb negb]. now rewrite Hv. }
  split; [| now apply H].
  exact (H "Date(" ")"%char eq_refl).
Qed.

Lemma GSheetsDate_parse_provider_witness :
  Fields.GSheetsDate_parse (Some (provider_date (Fields.Date 2020 2 29)))
    = Ok (Some (Fields.Date 2020 2 29))
  /\ Fields.GSheetsDate_parse
       (Some ("Time[" +:+ date_fields (Fields.Date 2020 2 29) +:+ String "]" EmptyString))
     = Ok (Some (Fields.Date 2020 2 29)).
Proof.
  exact (GSheetsDate_parse_provider 2020 2 29 "Time[" "]"%char eq_refl eq_refl).
Defined.

(** X2. The two parsers on each other's texts. GSheetsDateTime.parse
    reads the text of a date, which has three numbers, as the midnight of
    that date in the time zone of the sheet. GSheetsDate.parse raises
    [TypeError] on the text of a [datetime], which has six. *)
Theorem parse_other_literal {tzinfo : Type} (timezone : option tzinfo)
    (v : Fields.datetime tzinfo) :
  Fields.valid_datetime v = true ->
  Fields.GSheetsDateTime_parse timezone
    (Some (provider_date (Fields.Date (Fields.year v) (Fields.month v) (Fields.day v))))
  = Ok (Some (Fields.DateTime (Fields.year v) (Fields.month v) (Fields.day v)
                0 0 0 0 timezone))
  /\ Fields.GSheetsDate_parse (Some (provider_datetime v)) = Raise TypeError.
Proof.
  intros Hv. destruct v as [y m d h mi s us tz].
  unfold Fields.valid_datetime in Hv.
  cbn [Fields.year Fields.month Fields.day Fields.hour Fields.minute Fields.second
       Fields.microsecond] in *.
  apply andb_true_iff in Hv as [Hd Ht].
  destruct (valid_date_bounds y m d Hd) as (Hy & Hm & Hd').
  assert (0 <= h /\ 0 <= mi /\ 0 <= s) as (Hh & Hmi & Hs).
  { unfold Fields.valid_time in Ht. repeat (apply andb_true_iff in Ht as [Ht ?]). lia. }
  split.
  - unfold Fields.GSheetsDateTime_parse, provider_date. change (Str.len "Date(") with 5.
    rewrite slice_5_m1_literal, int_date_fields by lia.
    cbn [mbind res_bind]. replace (m - 1 + 1) with m by lia.
    unfold Fields.datetime_new. cbn [length firstn forallb].
    replace (8 <? 3)%nat with false by reflexivity.
    rewrite !c_int_small by lia. cbn [andb negb]. now rewrite Hd.
  - unfold Fields.GSheetsDate_parse, provider_datetime.
    change (Str.len "Date(") with 5.
    cbn [Fields.year Fields.month Fields.day Fields.hour Fields.minute Fields.second].
    replace ("Date(" +:+ Py.str_int y +:+ "," +:+ Py.str_int (m - 1) +:+ ","
             +:+ Py.str_int d +:+ "," +:+ Py.str_int h +:+ "," +:+ Py.str_int mi
             +:+ "," +:+ Py.str_int s +:+ ")")
      with ("Date(" +:+ (Py.str_int y +:+ "," +:+ Py.str_int (m - 1) +:+ ","
             +:+ Py.str_int d +:+ "," +:+ Py.str_int h +:+ "," +:+ Py.str_int mi
             +:+ "," +:+ Py.str_int s) +:+ ")")
      by (now rewrite !append_assoc).
    rewrite slice_5_m1_literal.
    rewrite split_provider_datetime by (apply str_int_digits; lia).
    assert (h < 24 /\ mi < 60 /\ s < 60) as (Hh' & Hmi' & Hs').
    { unfold Fields.valid_time in Ht. repeat (apply andb_true_iff in Ht as [Ht ?]). lia. }
    cbn [traverse]. rewrite !int_str_int by (apply str_fits_small; lia). reflexivity.
Qed.

Lemma parse_other_literal_witness :
  let v := Fields.DateTime 2018 9 1 15 4 5 0 (Some tt) in
  Fields.GSheetsDateTime_parse (Some tt) (Some (provider_date (Fields.Date 2018 9 1)))
  = Ok (Some (Fields.DateTime 2018 9 1 0 0 0 0 (Some tt)))
  /\ Fields.GSheetsDate_parse (Some (provider_datetime v)) = Raise TypeError.
Proof.
  exact (parse_other_literal (Some tt) (Fields.DateTime 2018 9 1 15 4 5 0 (Some tt))
           eq_refl).
Defined.
(** ** The fields of the columns and the query *)

Section QueryFacts.

Context {tzinfo : Type}.
Variable urllib : Url.urllib_parse.
Variable session : list Request -> Request -> res Response.

Abbreviation state := (Adapter.state tzinfo).
Abbreviation self := (Adapter.self tzinfo).
Abbreviation log := (Adapter.log tzinfo).

(** X3. get_field on a column whose type is a text never fails, and
    the field is exact and can be ordered either way, whatever the type. It
    is filtered by range for the types number, date, datetime and timeofday,
    and by equality otherwise; a type the adapter does not know gives a
    String field; a datetime field has the time zone of the sheet. A column
    without a type raises [KeyError]. *)
Theorem get_field_by_type (col col' : dict) (type : string) (timezone : option tzinfo) :
  Dict.get "type" col = Some (VStr type) ->
  Dict.get "type" col' = None ->
  (exists f,
     Adapter.get_field tzinfo (VDict col) timezone = Ok f
     /\ Adapter.order tzinfo f = ANY /\ Adapter.exact tzinfo f = true
     /\ Adapter.filters tzinfo f
        = [if Urllib.in_list type range_types then Range else Equal]
     /\ (~ In type known_types -> Adapter.field tzinfo f = Adapter.StringField tzinfo)
     /\ (type = "datetime" ->
         Adapter.field tzinfo f = Adapter.GSheetsDateTime tzinfo timezone))
  /\ Adapter.get_field tzinfo (VDict col') timezone = Raise (KeyError (VStr "type")).
Proof.
  intros Htype Hnone. split.
  2:{ unfold Adapter.get_field, Py.getitem. now rewrite Hnone. }
  unfold Adapter.get_field, Py.getitem. rewrite Htype. cbn [mbind res_bind].
  destruct (String.eqb_spec type "string") as [-> | H1];
    [| destruct (String.eqb_spec type "number") as [-> | H2];
       [| destruct (String.eqb_spec type "boolean") as [-> | H3];
          [| destruct (String.eqb_spec type "date") as [-> | H4];
             [| destruct (String.eqb_spec type "datetime") as [-> | H5];
                [| destruct (String.eqb_spec type "timeofday") as [-> | H6]]]]]].
  1-6: (eexists; split; [reflexivity |]; cbn;
        repeat split;
        first [ discriminate | reflexivity
              | intros H; exfalso; apply H; simpl; tauto ]).
  eexists. split; [reflexivity |]. cbn.
  repeat split; try congruence.
  unfold Urllib.in_list, range_types. cbn [existsb].
  repeat match goal with
         | |- context [String.eqb type ?x] =>
             destruct (String.eqb_spec type x); [congruence |]
         end.
  reflexivity.
Qed.

(** *** _run_query *)

(** The outcomes of a query, case by case. *)
Lemma run_query_cases (sql : string) (s : state) :
  Adapter._run_query tzinfo urllib session sql s
  = (match session (log s) (query_request urllib (self s) sql) with
     | Raise e => Raise e
     | Ok response =>
         if negb (status_code response =? 200)
         then Raise (ProgrammingError [Lit (text response)])
         else
           match body response with
           | None =>
               Raise (if Str.startswith JSON_PAYLOAD_PREFIX (text response)
                      then JSONDecodeError
                      else ProgrammingError [Lit not_json_message])
           | Some result =>
               match Py.getitem result "status" with
               | Raise e => Raise e
               | Ok status =>
                   if Py.eq status (VStr "error") then
                     match (errors ← Py.getitem result "errors";
                            format_error_message errors) with
                     | Ok message => Raise (ProgrammingError [Lit message])
                     | Raise e => Raise e
                     end
                   else Ok result
               end
           end
     end,
     sent s (query_request urllib (self s) sql)).
Proof.
  unfold Adapter._run_query, sent, query_request, response_json, loads_after_prefix,
    not_json_message.
  unfold mbind, Adapter.M_bind, Adapter.get_self, Adapter.send, Adapter.json,
    Adapter.lift, Adapter.raise, mret, Adapter.M_ret.
  cbn [Adapter.self Adapter.heap Adapter.next_loc Adapter.log].
  destruct (session _ _) as [response|e]; [| reflexivity].
  destruct (negb _); [reflexivity |].
  destruct (Str.startswith _ _), (body response) as [result|]; try reflexivity.
  all: destruct (Py.getitem result "status") as [status|]; [| reflexivity].
  all: destruct (Py.eq status (VStr "error")); [| reflexivity].
  all: now destruct (res_bind _ _ _ _).
Qed.

(** The state after a query, whatever its outcome. *)
Lemma run_query_state (sql : string) (s : state) :
  snd (Adapter._run_query tzinfo urllib session sql s)
  = sent s (query_request urllib (self s) sql).
Proof. now rewrite run_query_cases. Qed.

(** A query that is answered with the code 200 and a JSON text whose status
    is not [error] returns the decoded text. *)
Lemma run_query_ok (sql : string) (s : state) (response : Response)
    (result status : value) :
  session (log s) (query_request urllib (self s) sql) = Ok response ->
  status_code response = 200 ->
  body response = Some result ->
  Py.getitem result "status" = Ok status ->
  Py.eq status (VStr "error") = false ->
  Adapter._run_query tzinfo urllib session sql s
  = (Ok result, sent s (query_request urllib (self s) sql)).
Proof.
  intros Hsend Hcode Hbody Hstatus Herror.
  now rewrite run_query_cases, Hsend, Hcode, Hbody, Hstatus, Herror.
Qed.

(** X4. Whatever the provider answers, _run_query sends exactly
    one request: a GET of the URL of the adapter followed by [&tq=] and the
    quoted query, with the header [X-DataSource-Auth: true]. It changes
    neither the adapter nor any row. *)
Theorem run_query_one_request (sql : string) (s : state) :
  let s' := snd (Adapter._run_query tzinfo urllib session sql s) in
  log s' = log s ++ [query_request urllib (self s) sql]
  /\ same_objects s s'
  /\ Adapter.next_loc tzinfo s' = Adapter.next_loc tzinfo s
  /\ req_method (query_request urllib (self s) sql) = GET
  /\ req_url (query_request urllib (self s) sql)
     = Adapter.url tzinfo (self s) +:+ "&tq=" +:+ Url.quote urllib sql "/()"
  /\ req_headers (query_request urllib (self s) sql) = [("X-DataSource-Auth", "true")].
Proof. cbv zeta. rewrite run_query_state. repeat split. Qed.

Lemma format_error_message_errors (errors : list QueryResultsError) :
  format_error_message (VList (List.map error_value errors))
  = Ok (Str.join (nl +:+ nl) (List.map detailed_message errors)).
Proof.
  unfold format_error_message. cbn [Py.iter mbind res_bind].
  assert (traverse (fun error => Py.getitem error "detailed_message")
            (List.map error_value errors)
          = Ok (List.map (fun e => VStr (detailed_message e)) errors)) as ->.
  { induction errors as [|e errors IH]; [reflexivity |].
    cbn [List.map traverse]. rewrite IH. reflexivity. }
  cbn [mbind res_bind].
  assert (traverse (fun m => match m with VStr s => Ok s | _ => Raise TypeError end)
            (List.map (fun e => VStr (detailed_message e)) errors)
          = Ok (List.map detailed_message errors)) as ->.
  { induction errors as [|e errors IH]; [reflexivity |].
    cbn [List.map traverse]. rewrite IH. reflexivity. }
  reflexivity.
Qed.

(** What a query that returns was answered. *)
Lemma run_query_inv (sql : string) (s s' : state) (result : value) :
  Adapter._run_query tzinfo urllib session sql s = (Ok result, s') ->
  exists response status,
    session (log s) (query_request urllib (self s) sql) = Ok response
    /\ status_code response = 200
    /\ body response = Some result
    /\ Py.getitem result "status" = Ok status
    /\ Py.eq status (VStr "error") = false.
Proof.
  rewrite run_query_cases.
  destruct (session _ _) as [response|e]; [| discriminate].
  destruct (Z.eqb_spec (status_code response) 200) as [Hcode | Hcode];
    cbn [negb]; [| discriminate].
  destruct (body response) as [r|] eqn:Hbody; [| discriminate].
  destruct (Py.getitem r "status") as [status|] eqn:Hstatus; [| discriminate].
  destruct (Py.eq status (VStr "error")) eqn:Herror;
    [destruct (_ ≫= _); discriminate |].
  intros [= <- _]. exists response, status. repeat split;
    first [assumption | reflexivity].
Qed.

(** X5. _run_query returns a result exactly when the request is
    answered with the status code 200 and a JSON text (with or without the
    prefix the provider may put before it) whose [status] is not the text
    [error]; the result is then the decoded text, as it is. *)
Theorem run_query_returns (sql : string) (s : state) (result : value) :
  fst (Adapter._run_query tzinfo urllib session sql s) = Ok result
  <-> exists response status,
        session (log s) (query_request urllib (self s) sql) = Ok response
        /\ status_code response = 200
        /\ body response = Some result
        /\ Py.getitem result "status" = Ok status
        /\ Py.eq status (VStr "error") = false.
Proof.
  split.
  - destruct (Adapter._run_query tzinfo urllib session sql s) as [r s'] eqn:Hrun.
    cbn [fst]. intros ->. exact (run_query_inv sql s s' result Hrun).
  - intros (response & status & Hsend & Hcode & Hbody & Hstatus & Herror).
    now rewrite (run_query_ok sql s response result status).
Qed.

(** X6. How _run_query fails. A response whose status code is not
    200 raises ProgrammingError with the text of the response, whatever the
    text is. With the code 200, a text that is not JSON raises
    ProgrammingError with the advice to verify the credentials, unless the
    text starts with the prefix of the provider: then the decoding error is
    raised as it is. A failed query raises ProgrammingError with the detailed
    messages of its errors, one blank line between them; their reasons and
    short messages are not reported. *)
Theorem run_query_fails (sql : string) (s : state) (response : Response) :
  session (log s) (query_request urllib (self s) sql) = Ok response ->
  (status_code response <> 200 ->
   fst (Adapter._run_query tzinfo urllib session sql s)
   = Raise (ProgrammingError [Lit (text response)]))
  /\ (status_code response = 200 -> body response = None ->
      fst (Adapter._run_query tzinfo urllib session sql s)
      = Raise (if Str.startswith JSON_PAYLOAD_PREFIX (text response)
               then JSONDecodeError
               else ProgrammingError [Lit not_json_message]))
  /\ (forall errors,
        status_code response = 200 ->
        body response = Some (failed_results errors) ->
        fst (Adapter._run_query tzinfo urllib session sql s)
        = Raise (ProgrammingError
                   [Lit (Str.join (nl +:+ nl) (List.map detailed_message errors))])).
Proof.
  intros Hsend. rewrite run_query_cases, Hsend. cbn [fst].
  repeat split.
  - intros Hcode.
    destruct (Z.eqb_spec (status_code response) 200); [congruence |].
    reflexivity.
  - intros Hcode Hbody. now rewrite Hcode, Hbody.
  - intros errors Hcode Hbody. rewrite Hcode, Hbody. cbn [Z.eqb Pos.eqb negb].
    unfold failed_results.
    cbn [Py.getitem Dict.get String.eqb Ascii.eqb Bool.eqb Py.eq mbind res_bind].
    now rewrite format_error_message_errors.
Qed.

End QueryFacts.
(** ** Schema resolution on any payload *)

Lemma dict_contains_set {V : Type} (k k' : string) (v : V) (d : odict V) :
  Dict.contains k (Dict.set k' v d) = String.eqb k k' || Dict.contains k d.
Proof. unfold Dict.contains. rewrite dict_get_set. now destruct (String.eqb k k'). Qed.

Lemma keys_set {V : Type} (k k' : string) (v : V) (d : odict V) :
  In k (Dict.keys (Dict.set k' v d)) <-> k = k' \/ In k (Dict.keys d).
Proof.
  unfold Dict.keys. induction d as [|[k0 v0] d IH]; simpl.
  - split; [intros [<- | []]; now left | intros [-> | []]; now left].
  - destruct (String.eqb_spec k' k0) as [-> | Hne]; simpl.
    + split; [intros [<- | H]; [now left | now right; right] |].
      intros [-> | [<- | H]]; [now left | now left | now right].
    + rewrite IH. tauto.
Qed.

Lemma keys_contains {V : Type} (k : string) (d : odict V) :
  In k (Dict.keys d) <-> Dict.contains k d = true.
Proof.
  unfold Dict.keys, Dict.contains. induction d as [|[k0 v0] d IH]; simpl.
  - split; [intros [] | discriminate].
  - destruct (String.eqb_spec k k0) as [-> | Hne].
    + split; [reflexivity | now left].
    + rewrite <- IH. split; [intros [H | H]; [congruence | exact H] | now right].
Qed.

(** Assigning to a key keeps every key once. *)
Lemma keys_set_NoDup {V : Type} (k : string) (v : V) (d : odict V) :
  List.NoDup (Dict.keys d) -> List.NoDup (Dict.keys (Dict.set k v d)).
Proof.
  unfold Dict.keys. induction d as [|[k0 v0] d IH]; simpl; intros H.
  - constructor; [intros [] | constructor].
  - inversion H as [|? ? Hnotin Hd]; subst.
    destruct (String.eqb_spec k k0) as [-> | Hne]; simpl.
    + now constructor.
    + constructor; [| now apply IH].
      intros Hin. apply (keys_set k0 k v d) in Hin as [-> | Hin]; [congruence |].
      now apply Hnotin.
Qed.

Section SchemaInvariants.

Context {tzinfo : Type}.
Variable urllib : Url.urllib_parse.
Variable session : list Request -> Request -> res Response.

Abbreviation state := (Adapter.state tzinfo).
Abbreviation self := (Adapter.self tzinfo).
Abbreviation Field := (Adapter.Field tzinfo).

Lemma get_field_shape (col : value) (timezone : option tzinfo) (f : Field) :
  Adapter.get_field tzinfo col timezone = Ok f ->
  Adapter.exact tzinfo f = true /\ Adapter.order tzinfo f = ANY
  /\ (Adapter.filters tzinfo f = [Equal] \/ Adapter.filters tzinfo f = [Range]).
Proof.
  unfold Adapter.get_field. destruct (Py.getitem col "type") as [type|]; [| discriminate].
  cbn [mbind res_bind]. destruct type; try discriminate;
    try (intros [= <-]; cbn; tauto).
  repeat match goal with
         | |- context [if ?b then _ else _] => destruct b
         end; intros [= <-]; cbn; tauto.
Qed.

Lemma column_map_of_grows (cols : list value) (acc cm : odict value) :
  Adapter.column_map_of cols acc = Ok cm ->
  forall k, Dict.contains k acc = true -> Dict.contains k cm = true.
Proof.
  revert acc. induction cols as [|col cols IH]; intros acc; cbn [Adapter.column_map_of].
  - now intros [= <-].
  - destruct (Py.getitem col "label") as [label|]; [| discriminate].
    cbn [mbind res_bind]. destruct (Py.strip label) as [key|]; [| discriminate].
    cbn [mbind res_bind]. destruct (Py.getitem col "id") as [id|]; [| discriminate].
    cbn [mbind res_bind]. intros H k Hk. apply (IH _ H).
    rewrite dict_contains_set, Hk. apply orb_true_r.
Qed.

(** Every trimmed label is a key of the map of the columns. *)
Lemma column_map_of_labels (cols : list value) (acc cm : odict value) :
  Adapter.column_map_of cols acc = Ok cm ->
  forall col label k,
    In col cols -> Py.getitem col "label" = Ok label -> Py.strip label = Ok k ->
    Dict.contains k cm = true.
Proof.
  revert acc. induction cols as [|c cols IH]; intros acc; cbn [Adapter.column_map_of].
  - intros _ col label k [].
  - destruct (Py.getitem c "label") as [label0|] eqn:Hl; [| discriminate].
    cbn [mbind res_bind]. destruct (Py.strip label0) as [key|] eqn:Hk; [| discriminate].
    cbn [mbind res_bind]. destruct (Py.getitem c "id") as [id|]; [| discriminate].
    cbn [mbind res_bind]. intros H col label k [<- | Hin] Hlabel Hstrip.
    + rewrite Hl in Hlabel. injection Hlabel as <-.
      rewrite Hk in Hstrip. injection Hstrip as <-.
      apply (column_map_of_grows _ _ _ H).
      now rewrite dict_contains_set, String.eqb_refl.
    + now apply (IH _ H col label k).
Qed.

(** The schema made of columns: its names, its fields, and that it has
    every name once. *)
Lemma columns_of_invariant (timezone : option tzinfo) (cols : list value)
    (acc cs : odict Field) :
  Adapter.columns_of tzinfo timezone cols acc = Ok cs ->
  (forall k, Dict.contains k cs = true ->
     Dict.contains k acc = true
     \/ (k <> "" /\ exists col label,
           In col cols /\ Py.getitem col "label" = Ok label /\ Py.strip label = Ok k))
  /\ (forall k f, Dict.get k cs = Some f ->
        Dict.get k acc = Some f
        \/ exists col, In col cols /\ Adapter.get_field tzinfo col timezone = Ok f)
  /\ (List.NoDup (Dict.keys acc) -> List.NoDup (Dict.keys cs)).
Proof.
  revert acc. induction cols as [|c cols IH]; intros acc; cbn [Adapter.columns_of].
  - intros [= <-]. repeat split; auto.
  - destruct (Py.getitem c "label") as [label|] eqn:Hl; [| discriminate].
    cbn [mbind res_bind]. destruct (Py.strip label) as [key|] eqn:Hk; [| discriminate].
    cbn [mbind res_bind].
    destruct (String.eqb_spec key "") as [Hblank | Hkey]; cbn [negb].
    + intros H. destruct (IH _ H) as (Hkeys & Hfields & Hnodup).
      repeat split; [| | exact Hnodup].
      * intros k Hin. destruct (Hkeys k Hin) as [Hacc | (Hne & col & l & Hc & Hcl & Hcs)];
          [now left | right].
        split; [exact Hne |]. exists col, l. repeat split; [now right | |]; assumption.
      * intros k f Hget. destruct (Hfields k f Hget) as [Hacc | (col & Hc & Hf)];
          [now left | right]. exists col. split; [now right | exact Hf].
    + destruct (Adapter.get_field tzinfo c timezone) as [fld|] eqn:Hfld; [| discriminate].
      cbn [mbind res_bind].
      intros H. destruct (IH _ H) as (Hkeys & Hfields & Hnodup).
      repeat split.
      * intros k Hin. destruct (Hkeys k Hin) as [Hacc | (Hne & col & l & Hc & Hcl & Hcs)].
        -- rewrite dict_contains_set in Hacc.
           destruct (String.eqb_spec k key) as [-> | Hne]; [right | now left].
           split; [exact Hkey |]. exists c, label. repeat split; [now left | |]; assumption.
        -- right. split; [exact Hne |]. exists col, l.
           repeat split; [now right | |]; assumption.
      * intros k f Hget. destruct (Hfields k f Hget) as [Hacc | (col & Hc & Hf)].
        -- rewrite dict_get_set in Hacc.
           destruct (String.eqb_spec k key) as [-> | Hne]; [right | now left].
           injection Hacc as <-. exists c. split; [now left | exact Hfld].
        -- right. exists col. split; [now right | exact Hf].
      * intros Hacc. apply Hnodup. now apply keys_set_NoDup.
Qed.

(** *** Running a method step by step *)

Lemma bind_inv {A B : Type} (m : Adapter.M tzinfo A) (f : A -> Adapter.M tzinfo B)
    (s s' : state) (b : B) :
  (m ≫= f) s = (Ok b, s') ->
  exists a s1, m s = (Ok a, s1) /\ f a s1 = (Ok b, s').
Proof.
  unfold mbind, Adapter.M_bind. destruct (m s) as [[a|e] s1]; [| discriminate].
  intros H. now exists a, s1.
Qed.

Lemma lift_inv {A : Type} (r : res A) (s s' : state) (a : A) :
  Adapter.lift tzinfo r s = (Ok a, s') -> r = Ok a /\ s' = s.
Proof. unfold Adapter.lift. intros [= -> ->]. now split. Qed.

(** What a successful schema resolution has done: it has sent the probe,
    taken the columns [cols] of the answer, labelled as the policy for
    sheets without labels says, and made the map and the schema of them. *)
Lemma set_columns_inv (s s' : state) :
  Adapter._set_columns tzinfo urllib session s = (Ok tt, s') ->
  exists (a1 : Adapter.GSheetsAPI tzinfo) (cols : list value) cm cs,
    (a1 = self s \/ a1 = Adapter.set_offset tzinfo 1 (self s))
    /\ Adapter.column_map_of cols [] = Ok cm
    /\ Adapter.columns_of tzinfo (Adapter._timezone tzinfo (self s)) cols [] = Ok cs
    /\ s' = {| Adapter.self :=
                 Adapter.set_columns tzinfo cs (Adapter.set_column_map tzinfo cm a1);
               Adapter.heap := Adapter.heap tzinfo s;
               Adapter.next_loc := Adapter.next_loc tzinfo s;
               Adapter.log := Adapter.log tzinfo s ++ [query_request urllib (self s) probe] |}.
Proof.
  unfold Adapter._set_columns. intros H.
  apply bind_inv in H as (results & s1 & Hquery & H).
  pose proof (run_query_state urllib session probe s) as Hs1.
  fold probe in Hquery. rewrite Hquery in Hs1. cbn [snd] in Hs1. subst s1.
  apply bind_inv in H as (cols0 & s2 & [_ ->]%lift_inv & H).
  apply bind_inv in H as (rows & s2 & [_ ->]%lift_inv & H).
  apply bind_inv in H as (cols1 & s2 & [_ ->]%lift_inv & H).
  apply bind_inv in H as (all_empty & s2 & [_ ->]%lift_inv & H).
  apply bind_inv in H as (cols & s2 & Hcols & H).
  assert (exists a1,
            (a1 = self s \/ a1 = Adapter.set_offset tzinfo 1 (self s))
            /\ s2 = {| Adapter.self := a1;
                       Adapter.heap := Adapter.heap tzinfo s;
                       Adapter.next_loc := Adapter.next_loc tzinfo s;
                       Adapter.log := Adapter.log tzinfo s
                                      ++ [query_request urllib (self s) probe] |})
    as (a1 & Ha1 & ->).
  { destruct all_empty; [destruct (Py.truthy rows) |].
    - apply bind_inv in Hcols as ([] & s3 & [= <-] & [_ ->]%lift_inv).
      eexists. split; [right; reflexivity | reflexivity].
    - apply lift_inv in Hcols as [_ ->]. eexists. split; [left |]; reflexivity.
    - injection Hcols as _ <-. eexists. split; [left |]; reflexivity. }
  apply bind_inv in H as (cm & s2 & [Hcm ->]%lift_inv & H).
  apply bind_inv in H as ([] & s2 & [= <-] & H).
  apply bind_inv in H as (a2 & s2 & [= <- <-] & H).
  apply bind_inv in H as (cs & s2 & [Hcs ->]%lift_inv & H).
  injection H as <-.
  exists a1, cols, cm, cs. repeat split; try assumption.
  cbn in Hcs. now destruct Ha1 as [-> | ->].
Qed.

(** *** What schema resolution assigns *)

Lemma schema_step_refl (s : state) : schema_step s s.
Proof. repeat split. Qed.

Lemma schema_step_trans (s1 s2 s3 : state) :
  schema_step s1 s2 -> schema_step s2 s3 -> schema_step s1 s3.
Proof.
  unfold schema_step, same_sheet.
  intros (-> & -> & -> & -> & -> & -> & -> & -> & ->)
         (-> & -> & -> & -> & -> & -> & -> & -> & ->).
  repeat split.
Qed.

Lemma schema_only_bind {A B : Type} (m : Adapter.M tzinfo A)
    (f : A -> Adapter.M tzinfo B) :
  schema_only m -> (forall a, schema_only (f a)) -> schema_only (m ≫= f).
Proof.
  intros Hm Hf s. unfold mbind, Adapter.M_bind.
  specialize (Hm s). destruct (m s) as [[a|e] s1]; cbn [snd] in *; [| exact Hm].
  eapply schema_step_trans; [exact Hm | apply Hf].
Qed.

Lemma schema_only_lift {A : Type} (r : res A) : schema_only (Adapter.lift tzinfo r).
Proof. intros s. apply schema_step_refl. Qed.

Lemma schema_only_ret {A : Type} (a : A) : schema_only (mret a : Adapter.M tzinfo A).
Proof. intros s. apply schema_step_refl. Qed.

Lemma schema_only_get_self : schema_only (Adapter.get_self tzinfo).
Proof. intros s. apply schema_step_refl. Qed.

Lemma schema_only_set_offset (x : Z) :
  schema_only (Adapter.update_self tzinfo (Adapter.set_offset tzinfo x)).
Proof. intros s. repeat split. Qed.

Lemma schema_only_set_column_map (x : odict value) :
  schema_only (Adapter.update_self tzinfo (Adapter.set_column_map tzinfo x)).
Proof. intros s. repeat split. Qed.

Lemma schema_only_set_columns (x : odict Field) :
  schema_only (Adapter.update_self tzinfo (Adapter.set_columns tzinfo x)).
Proof. intros s. repeat split. Qed.

(** X7. Whatever the provider answers, schema resolution sends
    exactly one request, the probe [SELECT * LIMIT 1], and assigns nothing
    but the offset, the map of the columns and the schema: the other
    attributes of the adapter, the rows it knows and the row objects are as
    they were. *)
Theorem set_columns_one_request (s : state) :
  let s' := snd (Adapter._set_columns tzinfo urllib session s) in
  Adapter.log tzinfo s' = Adapter.log tzinfo s ++ [query_request urllib (self s) probe]
  /\ Adapter.heap tzinfo s' = Adapter.heap tzinfo s
  /\ Adapter.next_loc tzinfo s' = Adapter.next_loc tzinfo s
  /\ same_sheet (self s) (self s').
Proof.
  cbv zeta.
  assert (schema_step (sent s (query_request urllib (self s) probe))
            (snd (Adapter._set_columns tzinfo urllib session s)))
    as (Hheap & Hnext & Hlog & Hsheet).
  { unfold Adapter._set_columns. fold probe.
    unfold mbind at 1, Adapter.M_bind at 1.
    pose proof (run_query_state urllib session probe s) as Hs1.
    destruct (Adapter._run_query tzinfo urllib session probe s) as [[results|e] s1];
      cbn [snd] in Hs1; subst s1; [| apply schema_step_refl].
    match goal with
    | |- schema_step _ (snd (?m _)) => assert (schema_only m) as Hrest
    end; [| apply Hrest].
    repeat first
      [ apply schema_only_lift | apply schema_only_ret | apply schema_only_get_self
      | apply schema_only_set_offset | apply schema_only_set_column_map
      | apply schema_only_set_columns
      | apply schema_only_bind; [| intros ?]
      | match goal with
        | |- schema_only (if ?x then _ else _) => destruct x
        end ]. }
  rewrite Hheap, Hnext, Hlog. repeat split; apply Hsheet.
Qed.

(** The schema and the map made of the same columns. *)
Lemma schema_of_inv (timezone : option tzinfo) (cols : list value)
    (cm : odict value) (cs : odict Field) :
  Adapter.column_map_of cols [] = Ok cm ->
  Adapter.columns_of tzinfo timezone cols [] = Ok cs ->
  Dict.contains "" cs = false
  /\ List.NoDup (Dict.keys cs)
  /\ (forall k, Dict.contains k cs = true -> Dict.contains k cm = true)
  /\ (forall k f, Dict.get k cs = Some f ->
        Adapter.exact tzinfo f = true /\ Adapter.order tzinfo f = ANY
        /\ (Adapter.filters tzinfo f = [Equal] \/ Adapter.filters tzinfo f = [Range])).
Proof.
  intros Hcm Hcs.
  destruct (columns_of_invariant _ _ _ _ Hcs) as (Hkeys & Hfields & Hnodup).
  split.
  { destruct (Dict.contains "" cs) eqn:E; [| reflexivity].
    destruct (Hkeys "" E) as [H | [H _]]; [discriminate | congruence]. }
  split; [apply Hnodup; constructor |].
  split.
  - intros k Hk. destruct (Hkeys k Hk) as [H | (_ & col & label & Hc & Hl & Hs)];
      [discriminate |].
    exact (column_map_of_labels _ _ _ Hcm col label k Hc Hl Hs).
  - intros k f Hget. destruct (Hfields k f Hget) as [H | (col & _ & Hf)];
      [discriminate |].
    exact (get_field_shape _ _ _ Hf).
Qed.

(** X8. What holds of the schema once schema resolution has
    succeeded, whatever the payload of the provider was. The offset is as it
    was or is 1. No column of the schema has the empty name, and every name
    is there once. Every name of the schema is a key of the map from labels
    to provider identifiers. Every field is exact, can be ordered either
    way, and has one class of filters, equality or range. *)
Theorem set_columns_schema (s : state) :
  fst (Adapter._set_columns tzinfo urllib session s) = Ok tt ->
  let a' := self (snd (Adapter._set_columns tzinfo urllib session s)) in
  (Adapter._offset tzinfo a' = Adapter._offset tzinfo (self s)
   \/ Adapter._offset tzinfo a' = 1)
  /\ Dict.contains "" (Adapter.columns tzinfo a') = false
  /\ List.NoDup (Dict.keys (Adapter.columns tzinfo a'))
  /\ (forall k, Dict.contains k (Adapter.columns tzinfo a') = true ->
        Dict.contains k (Adapter._column_map tzinfo a') = true)
  /\ (forall k f, Dict.get k (Adapter.columns tzinfo a') = Some f ->
        Adapter.exact tzinfo f = true /\ Adapter.order tzinfo f = ANY
        /\ (Adapter.filters tzinfo f = [Equal] \/ Adapter.filters tzinfo f = [Range])).
Proof.
  intros Hok.
  destruct (Adapter._set_columns tzinfo urllib session s) as [r s'] eqn:Hrun.
  cbn [fst] in Hok. subst r.
  apply set_columns_inv in Hrun as (a1 & cols & cm & cs & Ha1 & Hcm & Hcs & ->).
  cbn.
  split; [now destruct Ha1 as [-> | ->]; [left | right] |].
  exact (schema_of_inv _ _ _ _ Hcm Hcs).
Qed.

End SchemaInvariants.
(** ** The rows of a fetch *)

Lemma fold_set_get_other {V : Type} (l : list (string * V)) (acc : odict V) (k : string) :
  ~ In k (List.map fst l) ->
  Dict.get k (fold_left (fun d kv => Dict.set (fst kv) (snd kv) d) l acc) = Dict.get k acc.
Proof.
  revert acc. induction l as [|[k0 v0] l IH]; intros acc Hk; [reflexivity |].
  cbn [fold_left fst snd]. rewrite IH by (intros H; apply Hk; now right).
  rewrite dict_get_set.
  destruct (String.eqb_spec k k0) as [-> | _]; [| reflexivity].
  exfalso. apply Hk. now left.
Qed.

Lemma in_fst_zip {A B : Type} (x : A) (l : list A) (k : list B) :
  In x (List.map fst (zip l k)) -> In x l.
Proof.
  revert k. induction l as [|a l IH]; intros [|b k]; simpl; try tauto.
  intros [<- | H]; [now left | right; now apply (IH k)].
Qed.

(** In a dict made of names that are all different, each name has the
    value that was zipped with it. *)
Lemma fold_set_get {V : Type} (names : list string) (vals : list V) (acc : odict V)
    (j : nat) (name : string) (v : V) :
  List.NoDup names -> names !! j = Some name -> vals !! j = Some v ->
  Dict.get name
    (fold_left (fun d kv => Dict.set (fst kv) (snd kv) d) (zip names vals) acc)
  = Some v.
Proof.
  revert vals acc j. induction names as [|n0 names IH]; intros vals acc j Hnd Hn Hv;
    [now destruct j |].
  destruct vals as [|v0 vals]; [now destruct j |].
  inversion Hnd as [|? ? Hnotin Hnd']; subst.
  cbn [zip zip_with fold_left fst snd].
  destruct j as [|j]; cbn in Hn, Hv.
  - injection Hn as <-. injection Hv as <-.
    rewrite fold_set_get_other by (intros H; apply Hnotin; now apply in_fst_zip in H).
    now rewrite dict_get_set, String.eqb_refl.
  - now apply (IH vals _ j).
Qed.

Lemma fold_set_contains {V : Type} (names : list string) (vals : list V)
    (acc : odict V) (k : string) :
  Dict.contains k
    (fold_left (fun d kv => Dict.set (fst kv) (snd kv) d) (zip names vals) acc) = true ->
  Dict.contains k acc = true
  \/ exists j : nat, names !! j = Some k /\ (j < length vals)%nat.
Proof.
  revert vals acc. induction names as [|n0 names IH]; intros vals acc H; [now left |].
  destruct vals as [|v0 vals]; [now left |].
  cbn [zip zip_with fold_left fst snd] in H.
  destruct (IH _ _ H) as [Hacc | (j & Hj & Hlt)].
  - rewrite dict_contains_set in Hacc.
    destruct (String.eqb_spec k n0) as [-> | _]; [| now left].
    right. exists 0%nat. split; [reflexivity | simpl; lia].
  - right. exists (S j). split; [exact Hj | simpl; lia].
Qed.

(** The row of a fetch made of typed cells. *)
Lemma row_of_cells_typed (names : list string) (cells : list (option QueryResultsCell))
    (acc : dict) :
  Adapter.row_of_cells names (List.map cell_value cells) acc
  = Ok (fold_left (fun d kv => Dict.set (fst kv) (snd kv) d)
          (zip names (List.map cell_object cells)) acc).
Proof.
  revert cells acc. induction names as [|n0 names IH]; intros [|cell cells] acc;
    try reflexivity.
  cbn [List.map Adapter.row_of_cells zip zip_with fold_left fst snd].
  destruct cell as [cell|]; unfold cell_value at 1 2; cbn [Py.truthy cell_object].
  - cbn [Py.getitem Dict.get String.eqb Ascii.eqb Bool.eqb mbind res_bind].
    apply IH.
  - cbn [mbind res_bind]. apply IH.
Qed.

Section FetchMore.

Context {tzinfo : Type}.
Variable urllib : Url.urllib_parse.
Variable session : list Request -> Request -> res Response.
Variable Filter : Type.
Variable RequestedOrder : Type.
Variable build_sql :
  odict (Adapter.Field tzinfo) -> odict Filter -> list (string * RequestedOrder) ->
  odict value -> Z -> res string.

Abbreviation state := (Adapter.state tzinfo).
Abbreviation self := (Adapter.self tzinfo).
Abbreviation heap := (Adapter.heap tzinfo).
Abbreviation next_loc := (Adapter.next_loc tzinfo).
Abbreviation log := (Adapter.log tzinfo).
Abbreviation row_ids := (Adapter.row_ids tzinfo).
Abbreviation columns := (Adapter.columns tzinfo).
Abbreviation get_data :=
  (Adapter.get_data tzinfo urllib session Filter RequestedOrder build_sql).

Lemma only_rows_refl (a : Adapter.GSheetsAPI tzinfo) : only_rows a a.
Proof. now destruct a. Qed.

Lemma only_rows_trans (a b c : Adapter.GSheetsAPI tzinfo) :
  only_rows a b -> only_rows b c -> only_rows a c.
Proof.
  unfold only_rows. destruct a, b, c. cbn. intros [= -> -> -> -> -> -> -> ->].
  intros [= -> -> -> -> -> -> -> ->]. reflexivity.
Qed.

(** What the loop of get_data leaves as it is, however far it gets: the
    attributes other than the map of the rows, the entries of the map under
    the other numbers, and the other objects. *)
Lemma register_frame (pairs : list (Z * loc)) (s s' : state) (r : res unit) :
  Adapter.for_each tzinfo register pairs s = (r, s') ->
  only_rows (self s) (self s')
  /\ log s' = log s
  /\ next_loc s' = next_loc s
  /\ (forall z, ~ In z (List.map fst pairs) ->
        row_ids (self s') !! z = row_ids (self s) !! z)
  /\ (forall l : loc, ~ In l (List.map snd pairs) -> heap s' !! l = heap s !! l).
Proof.
  revert s. induction pairs as [|[i row] pairs IH]; intros s Hrun.
  - injection Hrun as _ <-. repeat split. apply only_rows_refl.
  - cbn [Adapter.for_each List.map fst snd] in *.
    set (s1 := {| Adapter.self :=
                    Adapter.set_row_ids tzinfo (<[i := row]> (row_ids (self s))) (self s);
                  Adapter.heap := heap s; Adapter.next_loc := next_loc s;
                  Adapter.log := log s |}).
    assert (only_rows (self s) (self s1)) as Hs1 by (cbn; now destruct (self s)).
    unfold mbind at 1, Adapter.M_bind at 1 in Hrun.
    assert (exists s2, snd (register (i, row) s) = s2
              /\ self s2 = self s1 /\ log s2 = log s /\ next_loc s2 = next_loc s
              /\ (forall l : loc, l <> row -> heap s2 !! l = heap s !! l))
      as (s2 & Hs2 & Hself & Hlog & Hnext & Hheap).
    { unfold register, mbind, Adapter.M_bind, Adapter.update_self, Adapter.load,
        Adapter.store. cbn [Adapter.heap Adapter.self Adapter.next_loc Adapter.log].
      destruct (heap s !! row) as [d|]; eexists; (split; [reflexivity |]);
        cbn; repeat split; try reflexivity.
      intros l Hl. now apply lookup_insert_ne. }
    assert (forall z, z <> i -> row_ids (self s2) !! z = row_ids (self s) !! z) as Hids.
    { intros z Hz. rewrite Hself. cbn. now apply lookup_insert_ne. }
    destruct (register (i, row) s) as [[[]|e] s2'] eqn:Hreg; cbn [snd] in Hs2; subst s2'.
    + destruct (IH s2 Hrun) as (Hrows & Hlog' & Hnext' & Hids' & Hheap').
      repeat split.
      * eapply only_rows_trans; [| exact Hrows]. now rewrite Hself.
      * congruence.
      * congruence.
      * intros z Hz. rewrite Hids' by (intros H; apply Hz; now right).
        apply Hids. intros ->. apply Hz. now left.
      * intros l Hl. rewrite Hheap' by (intros H; apply Hl; now right).
        apply Hheap. intros ->. apply Hl. now left.
    + injection Hrun as _ <-. repeat split; try assumption.
      * now rewrite Hself.
      * intros z Hz. apply Hids. intros ->. apply Hz. now left.
      * intros l Hl. apply Hheap. intros ->. apply Hl. now left.
Qed.

Lemma fst_zip_seq (k n : nat) (l : loc) :
  List.map fst (zip (List.map Z.of_nat (seq k n)) (seq l n)) = List.map Z.of_nat (seq k n).
Proof.
  revert k l. induction n as [|n IH]; intros k l; [reflexivity |].
  cbn [seq List.map zip zip_with fst]. f_equal. apply IH.
Qed.

Lemma snd_zip_seq (k n : nat) (l : loc) :
  List.map snd (zip (List.map Z.of_nat (seq k n)) (seq l n)) = seq l n.
Proof.
  revert k l. induction n as [|n IH]; intros k l; [reflexivity |].
  cbn [seq List.map zip zip_with snd]. f_equal. apply IH.
Qed.

(** The ways get_data ends: without a query when the filters are
    impossible; else with the rows of the payload of its query, each a new
    object that the loop has registered. *)
Lemma get_data_ok_inv (bounds : odict Filter) (order : list (string * RequestedOrder))
    (s s' : state) (rows : list loc) :
  get_data bounds order s = (Ok rows, s') ->
  (rows = [] /\ s' = s)
  \/ exists sql payload (ds : list dict) s2,
       build_sql (columns (self s)) bounds order
         (Adapter._column_map tzinfo (self s)) (Adapter._offset tzinfo (self s)) = Ok sql
       /\ Adapter._run_query tzinfo urllib session sql s
          = (Ok payload, sent s (query_request urllib (self s) sql))
       /\ Adapter.alloc_all tzinfo ds (sent s (query_request urllib (self s) sql))
          = (Ok rows, s2)
       /\ rows = seq (next_loc s) (length ds)
       /\ Adapter.for_each tzinfo register
            (zip (List.map Z.of_nat (seq 0 (length rows))) rows) s2 = (Ok tt, s').
Proof.
  unfold Adapter.get_data. intros H.
  apply bind_inv in H as (a & s0 & [= <- <-] & H).
  destruct (build_sql _ _ _ _ _) as [sql|e] eqn:Hsql.
  2:{ destruct e; try discriminate. injection H as <- <-. now left. }
  right.
  apply bind_inv in H as (payload & s1 & Hquery & H).
  pose proof (run_query_state urllib session sql s) as Hs1.
  rewrite Hquery in Hs1. cbn [snd] in Hs1. subst s1.
  apply bind_inv in H as (a & s0 & [= <- <-] & H).
  apply bind_inv in H as (ds & s0 & [_ ->]%lift_inv & H).
  apply bind_inv in H as (ls & s2 & Halloc & H).
  apply bind_inv in H as ([] & s3 & Hloop & [= <- <-]).
  destruct (alloc_all_spec ds (sent s (query_request urllib (self s) sql)))
    as (s2' & Halloc' & _).
  rewrite Halloc in Halloc'. injection Halloc' as -> <-.
  exists sql, payload, ds, s2. repeat split; try assumption.
Qed.

(** X9. What a fetch leaves as it is. When get_data returns, the rows
    it yields are new objects, one after the other; the objects that were
    there, the rows of an earlier fetch among them, are unchanged; of the
    adapter only the map of the rows has changed; and the map still has,
    under every identifier that is not the number of a row of this fetch,
    the row it had: the rows of an earlier, longer fetch stay under their
    identifiers. *)
Theorem get_data_leaves (bounds : odict Filter) (order : list (string * RequestedOrder))
    (s s' : state) (rows : list loc) :
  get_data bounds order s = (Ok rows, s') ->
  rows = seq (next_loc s) (length rows)
  /\ only_rows (self s) (self s')
  /\ (forall z, z < 0 \/ Z.of_nat (length rows) <= z ->
        row_ids (self s') !! z = row_ids (self s) !! z)
  /\ (forall l : loc, (l < next_loc s)%nat -> heap s' !! l = heap s !! l).
Proof.
  intros H. apply get_data_ok_inv in H
    as [[-> ->] | (sql & payload & ds & s2 & _ & _ & Halloc & Hrows & Hloop)].
  { repeat split. apply only_rows_refl. }
  destruct (alloc_all_spec ds (sent s (query_request urllib (self s) sql)))
    as (s2' & Halloc' & Hself & _ & _ & Hold).
  rewrite Halloc in Halloc'. injection Halloc' as _ <-.
  apply register_frame in Hloop as (Honly & _ & _ & Hids & Hheap).
  subst rows. rewrite !length_seq in *.
  rewrite fst_zip_seq in Hids. rewrite snd_zip_seq in Hheap.
  rewrite Hself in Honly, Hids. cbn [Adapter.self sent] in Honly, Hids.
  split; [reflexivity |]. split; [exact Honly |]. split.
  - intros z Hz. apply Hids. rewrite in_map_iff. intros (k & <- & Hk).
    apply in_seq in Hk. lia.
  - intros l Hl. rewrite Hheap by (rewrite in_seq; cbn; lia).
    now apply Hold.
Qed.

Lemma get_data_raise_inv (bounds : odict Filter)
    (order : list (string * RequestedOrder)) (s s' : state) (e : exn) :
  get_data bounds order s = (Raise e, s') -> same_objects s s'.
Proof.
  unfold Adapter.get_data.
  unfold mbind at 1, Adapter.M_bind at 1, Adapter.get_self.
  destruct (build_sql _ _ _ _ _) as [sql|e0].
  2:{ destruct e0; intros [= _ <-]; now split. }
  unfold mbind at 1, Adapter.M_bind at 1.
  pose proof (run_query_state urllib session sql s) as Hs1.
  destruct (Adapter._run_query tzinfo urllib session sql s) as [[payload|e1] s1];
    cbn [snd] in Hs1; subst s1; [| intros [= _ <-]; now split].
  unfold mbind at 1, Adapter.M_bind at 1, Adapter.get_self.
  unfold mbind at 1, Adapter.M_bind at 1, Adapter.lift.
  match goal with
  | |- context [match ?x with Ok _ => _ | Raise _ => _ end] =>
      destruct x as [ds|e2]
  end; [| intros [= _ <-]; now split].
  unfold mbind at 1, Adapter.M_bind at 1.
  destruct (alloc_all_spec ds (sent s (query_request urllib (self s) sql)))
    as (s2 & -> & _ & _ & Hnew & _).
  rewrite length_seq.
  destruct (register_rows ds 0 (next_loc (sent s (query_request urllib (self s) sql)))
              s2 Hnew) as (s3 & Hloop & _).
  rewrite (bind_ok _ _ s2 s3 tt Hloop).
  discriminate.
Qed.

(** X10. A fetch that fails registers nothing: when get_data
    raises, whether the translator, the query or the shape of its payload
    fails, the adapter and the row objects are as they were. *)
Theorem get_data_fails (bounds : odict Filter) (order : list (string * RequestedOrder))
    (s : state) (e : exn) :
  fst (get_data bounds order s) = Raise e ->
  same_objects s (snd (get_data bounds order s)).
Proof.
  destruct (get_data bounds order s) as [r s'] eqn:Hrun. cbn [fst snd].
  intros ->. exact (get_data_raise_inv _ _ _ _ _ Hrun).
Qed.

(** The rows of the payload of a successful query, as get_data reads
    them. *)
Lemma rows_of_table (names : list string) (t : QueryResultsTable) :
  (table ← Py.getitem (results_value t) "table";
   rows ← Py.getitem table "rows";
   rows ← Py.iter rows;
   traverse (fun row =>
     cells ← Py.getitem row "c";
     cells ← Py.iter cells;
     Adapter.row_of_cells names cells []) rows)
  = Ok (List.map (fun row =>
          fold_left (fun d kv => Dict.set (fst kv) (snd kv) d)
            (zip names (List.map cell_object (row_c row))) []) (table_rows t)).
Proof.
  unfold results_value, table_value.
  cbn [Py.getitem Dict.get String.eqb Ascii.eqb Bool.eqb mbind res_bind Py.iter].
  induction (table_rows t) as [|row rows IH]; [reflexivity |].
  assert (forall row, Py.getitem (row_value row) "c"
                      = Ok (VList (List.map cell_value (row_c row)))) as Hc
    by reflexivity.
  cbn [List.map traverse]. rewrite Hc. cbn [mbind res_bind Py.iter].
  rewrite row_of_cells_typed. cbn [mbind res_bind]. now rewrite IH.
Qed.

(** X11. The rows of a fetch. When the translator gives a query and the
    provider answers it with a table, get_data yields one new dict object
    for each row of the table, in order. The object of the row number i is
    stored in the map under the identifier i and has i under the key
    [rowid]; under the name of the j-th column of the schema it has the
    value of the j-th cell of the row, and [None] when that cell is [null]
    (a column named [rowid] is hidden by the identifier); it has no other
    key, and no key for a column beyond the cells of the row. *)
Theorem get_data_rows (bounds : odict Filter) (order : list (string * RequestedOrder))
    (sql : string) (t : QueryResultsTable) (s : state) :
  build_sql (columns (self s)) bounds order
    (Adapter._column_map tzinfo (self s)) (Adapter._offset tzinfo (self s)) = Ok sql ->
  session (log s) (query_request urllib (self s) sql)
    = Ok (json_response (results_value t)) ->
  List.NoDup (Dict.keys (columns (self s))) ->
  fst (get_data bounds order s) = Ok (seq (next_loc s) (length (table_rows t)))
  /\ forall (i : nat) (row : QueryResultsRow),
       table_rows t !! i = Some row ->
       exists d,
         heap (snd (get_data bounds order s)) !! ((next_loc s + i)%nat : loc) = Some d
         /\ row_ids (self (snd (get_data bounds order s))) !! Z.of_nat i
            = Some (next_loc s + i)%nat
         /\ Dict.get "rowid" d = Some (VInt (Z.of_nat i))
         /\ (forall (j : nat) (name : string) (cell : option QueryResultsCell),
               Dict.keys (columns (self s)) !! j = Some name ->
               row_c row !! j = Some cell ->
               name <> "rowid" ->
               Dict.get name d = Some (cell_object cell))
         /\ (forall k, Dict.contains k d = true ->
               k = "rowid"
               \/ exists j : nat,
                    Dict.keys (columns (self s)) !! j = Some k
                    /\ (j < length (row_c row))%nat).
Proof.
  intros Hsql Hsend Hnodup.
  set (names := Dict.keys (columns (self s))) in *.
  set (ds := List.map (fun row =>
          fold_left (fun d kv => Dict.set (fst kv) (snd kv) d)
            (zip names (List.map cell_object (row_c row))) []) (table_rows t)).
  assert (Adapter._run_query tzinfo urllib session sql s
          = (Ok (results_value t), sent s (query_request urllib (self s) sql)))
    as Hquery.
  { now apply (run_query_ok urllib session sql s (json_response (results_value t))
                 (results_value t) (VStr "ok")). }
  destruct (get_data_registers_rowid urllib session Filter RequestedOrder build_sql
              bounds order sql (results_value t) ds s _ Hsql Hquery
              (rows_of_table names t)) as (s' & Hrun & _ & Hreg).
  rewrite Hrun. cbn [fst snd sent Adapter.next_loc] in *.
  split; [unfold ds; now rewrite length_map |].
  intros i row Hrow.
  destruct (Hreg i (fold_left (fun d kv => Dict.set (fst kv) (snd kv) d)
                      (zip names (List.map cell_object (row_c row))) []))
    as (Hid & Hheap & _).
  { unfold ds. now rewrite list_lookup_fmap, Hrow. }
  eexists. split; [exact Hheap |]. split; [exact Hid |].
  split; [now rewrite dict_get_set, String.eqb_refl |]. split.
  - intros j name cell Hname Hcell Hne. rewrite dict_get_set.
    destruct (String.eqb_spec name "rowid"); [congruence |].
    apply (fold_set_get names _ [] j); [exact Hnodup | exact Hname |].
    now rewrite list_lookup_fmap, Hcell.
  - intros k Hk. rewrite dict_contains_set in Hk.
    destruct (String.eqb_spec k "rowid") as [Heq | _]; [now left | right].
    cbn [orb] in Hk. apply fold_set_contains in Hk as [Hk | (j & Hj & Hlt)];
      [discriminate |].
    exists j. split; [exact Hj |]. now rewrite length_map in Hlt.
Qed.

End FetchMore.
(** ** The mutations *)

Section MutationFacts.

Context {tzinfo : Type}.
Variable session : list Request -> Request -> res Response.

Abbreviation state := (Adapter.state tzinfo).
Abbreviation self := (Adapter.self tzinfo).
Abbreviation heap := (Adapter.heap tzinfo).
Abbreviation next_loc := (Adapter.next_loc tzinfo).
Abbreviation log := (Adapter.log tzinfo).
Abbreviation row_ids := (Adapter.row_ids tzinfo).
Abbreviation columns := (Adapter.columns tzinfo).
Abbreviation insert_data := (Adapter.insert_data tzinfo session).
Abbreviation update_data := (Adapter.update_data tzinfo session).
Abbreviation delete_data := (Adapter.delete_data tzinfo session).
Abbreviation _find_row_number := (Adapter._find_row_number tzinfo session).

(** *** The steps the mutations share *)

(** Sending a request and reading the answer: the method goes on only
    when the request is accepted. *)
Lemma exchange_spec {A : Type} (req : Request) (k : Adapter.M tzinfo A) (s : state) :
  (response ← Adapter.send tzinfo session req;
   payload ← Adapter.json tzinfo response;
   Adapter.check_error tzinfo payload;;
   k) s
  = match session (log s) req with
    | Ok response =>
        match response_json response with
        | Ok payload =>
            match Py.contains "error" payload with
            | Ok false => k (sent s req)
            | Ok true =>
                (match (error ← Py.getitem payload "error"; Py.getitem error "message") with
                 | Ok message => Raise (ProgrammingError (message_of message))
                 | Raise e => Raise e
                 end, sent s req)
            | Raise e => (Raise e, sent s req)
            end
        | Raise e => (Raise e, sent s req)
        end
    | Raise e => (Raise e, sent s req)
    end.
Proof.
  unfold Adapter.check_error.
  unfold mbind, Adapter.M_bind, Adapter.send, Adapter.json,
    Adapter.lift, Adapter.raise, mret, Adapter.M_ret.
  fold (sent s req).
  destruct (session (log s) req) as [response|e]; [| reflexivity].
  destruct (response_json response) as [payload|]; [| reflexivity].
  destruct (Py.contains "error" payload) as [[]|e]; try reflexivity.
  now destruct (res_bind _ _ _ _).
Qed.

(** An exchange that is accepted goes on; one that is not raises, and
    the state is the one after the request. *)
Lemma exchange_cases {A : Type} (req : Request) (k : Adapter.M tzinfo A) (s : state) :
  (accepted (session (log s) req)
   /\ (response ← Adapter.send tzinfo session req;
       payload ← Adapter.json tzinfo response;
       Adapter.check_error tzinfo payload;;
       k) s = k (sent s req))
  \/ (~ accepted (session (log s) req)
      /\ exists e,
           (response ← Adapter.send tzinfo session req;
            payload ← Adapter.json tzinfo response;
            Adapter.check_error tzinfo payload;;
            k) s = (Raise e, sent s req)).
Proof.
  rewrite exchange_spec. unfold accepted.
  destruct (session (log s) req) as [response|e].
  2:{ right. split; [| now exists e]. intros (? & ? & [=] & _). }
  destruct (response_json response) as [payload|] eqn:Hbody.
  2:{ right. split; [| now eexists]. intros (? & ? & [= <-] & H & _). congruence. }
  destruct (Py.contains "error" payload) as [[]|e] eqn:Herror.
  - right. split.
    + intros (? & ? & [= <-] & H & H'). congruence.
    + match goal with
      | |- context [match ?x with Ok _ => _ | Raise _ => _ end] => destruct x
      end; now eexists.
  - left. split; [| reflexivity]. now exists response, payload.
  - right. split; [| now eexists]. intros (? & ? & [= <-] & H & H'). congruence.
Qed.

Lemma row_values_spec (row : loc) (d : dict) (s : state) :
  heap s !! row = Some d ->
  Adapter.row_values tzinfo row s = (values_of (self s) d, s).
Proof.
  intros H. unfold Adapter.row_values, mbind, Adapter.M_bind, Adapter.load,
    Adapter.get_self, Adapter.lift.
  now rewrite H.
Qed.

Lemma pop_rowid_spec (row : loc) (d : dict) (s : state) :
  heap s !! row = Some d ->
  Adapter.pop_rowid tzinfo row s
  = match Dict.get "rowid" d with
    | Some v => (Ok v, with_object row (Dict.remove "rowid" d) s)
    | None => (Raise (KeyError (VStr "rowid")), s)
    end.
Proof.
  intros H. unfold Adapter.pop_rowid, mbind, Adapter.M_bind, Adapter.load.
  rewrite H. now destruct (Dict.get "rowid" d).
Qed.

(** *** insert_data *)

(** The first half of insert_data: the identifier is taken off the row
    and the row is stored under it, or under a new one. *)
Lemma insert_data_registered (row : loc) (d : dict) (v : value) (s : state) :
  heap s !! row = Some d ->
  Dict.get "rowid" d = Some v ->
  v = VNone \/ (exists n, v = VInt n) ->
  exists id,
    (forall n, v = VInt n -> id = n)
    /\ insert_data row s
       = (values ← Adapter.row_values tzinfo row;
          response ← Adapter.send tzinfo session (append_request (self s) values);
          payload ← Adapter.json tzinfo response;
          Adapter.check_error tzinfo payload;;
          mret id)
           (with_row_ids (<[id := row]> (row_ids (self s)))
              (with_object row (Dict.remove "rowid" d) s)).
Proof.
  intros Hrow Hid Hv.
  assert (exists id,
            (forall n, v = VInt n -> id = n)
            /\ match v with
               | VNone =>
                   if decide (row_ids (self s) = ∅) then mret 0
                   else m ← Adapter.lift tzinfo (py_max (map_to_list (row_ids (self s))).*1);
                        mret (m + 1)
               | VInt n => mret n
               | _ => Adapter.raise tzinfo
                        (OutOfModel "a row identifier that is not Optional[int]")
               end = (mret id : Adapter.M tzinfo Z)) as (id & Hn & Hnew).
  { destruct Hv as [-> | [n ->]].
    - destruct (new_row_id_spec (tzinfo := tzinfo) (row_ids (self s)))
        as (id & Hnew & _).
      exists id. split; [discriminate | exact Hnew].
    - exists n. split; [now intros ? [= <-] | reflexivity]. }
  exists id. split; [exact Hn |].
  unfold Adapter.insert_data.
  set (s1 := with_object row (Dict.remove "rowid" d) s).
  rewrite (bind_ok _ _ s s1 v)
    by (rewrite (pop_rowid_spec row d s Hrow); now rewrite Hid).
  rewrite (bind_ok _ _ s1 s1 (self s)) by reflexivity.
  rewrite Hnew.
  rewrite (bind_ok _ _ s1 s1 id) by reflexivity.
  rewrite (bind_ok _ _ s1 (with_row_ids (<[id := row]> (row_ids (self s))) s1) tt)
    by reflexivity.
  reflexivity.
Qed.

(** What follows the registration of the row, when its values are
    [values]. *)
Lemma insert_data_exchange (row : loc) (d : dict) (v : value) (s : state) :
  heap s !! row = Some d ->
  Dict.get "rowid" d = Some v ->
  v = VNone \/ (exists n, v = VInt n) ->
  exists id,
    (forall n, v = VInt n -> id = n)
    /\ let s2 := with_row_ids (<[id := row]> (row_ids (self s)))
                   (with_object row (Dict.remove "rowid" d) s) in
       match values_of (self s) (Dict.remove "rowid" d) with
       | Raise e => insert_data row s = (Raise e, s2)
       | Ok values =>
           (accepted (session (log s) (append_request (self s) values))
            /\ insert_data row s = (Ok id, sent s2 (append_request (self s) values)))
           \/ (~ accepted (session (log s) (append_request (self s) values))
               /\ exists e,
                    insert_data row s
                    = (Raise e, sent s2 (append_request (self s) values)))
       end.
Proof.
  intros Hrow Hid Hv.
  destruct (insert_data_registered row d v s Hrow Hid Hv) as (id & Hn & Hrun).
  exists id. split; [exact Hn |]. cbv zeta.
  set (s2 := with_row_ids (<[id := row]> (row_ids (self s)))
               (with_object row (Dict.remove "rowid" d) s)) in *.
  assert (insert_data row s
          = match values_of (self s) (Dict.remove "rowid" d) with
            | Ok values =>
                (response ← Adapter.send tzinfo session (append_request (self s) values);
                 payload ← Adapter.json tzinfo response;
                 Adapter.check_error tzinfo payload;;
                 mret id) s2
            | Raise e => (Raise e, s2)
            end) as ->.
  { rewrite Hrun. unfold mbind at 1, Adapter.M_bind at 1.
    rewrite (row_values_spec row (Dict.remove "rowid" d) s2)
      by apply lookup_insert_eq.
    reflexivity. }
  destruct (values_of (self s) (Dict.remove "rowid" d)) as [values|e]; [| reflexivity].
  exact (exchange_cases (append_request (self s) values) (mret id) s2).
Qed.

(** X12. A row that comes with an identifier is stored under that
    identifier, without the key [rowid], whatever the provider answers and
    whether or not the map had a row under the identifier: the row that was
    there is no longer known. When insert_data returns, it returns that
    identifier. *)
Theorem insert_data_explicit_id (row : loc) (d : dict) (n : Z) (s : state) :
  heap s !! row = Some d ->
  Dict.get "rowid" d = Some (VInt n) ->
  row_ids (self (snd (insert_data row s))) = <[n := row]> (row_ids (self s))
  /\ heap (snd (insert_data row s)) = <[row := Dict.remove "rowid" d]> (heap s)
  /\ (forall id, fst (insert_data row s) = Ok id -> id = n).
Proof.
  intros Hrow Hid.
  destruct (insert_data_exchange row d (VInt n) s Hrow Hid) as (id & Hn & H);
    [right; now exists n |].
  rewrite (Hn n eq_refl) in H. clear Hn id. cbv zeta in H.
  destruct (values_of (self s) (Dict.remove "rowid" d)) as [values|e].
  - destruct H as [[_ ->] | [_ [e ->]]]; repeat split; intros id [= <-]; reflexivity.
  - rewrite H. repeat split. intros id [=].
Qed.

(** X13. insert_data on a row that is not complete. A row
    without the key [rowid] raises [KeyError], and nothing is sent or
    changed. A row that has the key but lacks the value of a column raises
    the [KeyError] of that column and nothing is sent, but by then the row
    is stored in the map and has lost its key [rowid]. *)
Theorem insert_data_incomplete (row : loc) (d : dict) (s : state) :
  heap s !! row = Some d ->
  (Dict.get "rowid" d = None ->
   insert_data row s = (Raise (KeyError (VStr "rowid")), s))
  /\ (forall v e,
        Dict.get "rowid" d = Some v ->
        v = VNone \/ (exists n, v = VInt n) ->
        values_of (self s) (Dict.remove "rowid" d) = Raise e ->
        fst (insert_data row s) = Raise e
        /\ log (snd (insert_data row s)) = log s
        /\ heap (snd (insert_data row s)) = <[row := Dict.remove "rowid" d]> (heap s)
        /\ exists id,
             row_ids (self (snd (insert_data row s))) = <[id := row]> (row_ids (self s))).
Proof.
  intros Hrow. split.
  - intros Hid. unfold Adapter.insert_data. unfold mbind at 1, Adapter.M_bind at 1.
    rewrite (pop_rowid_spec row d s Hrow). now rewrite Hid.
  - intros v e Hid Hv Hvalues.
    destruct (insert_data_exchange row d v s Hrow Hid Hv) as (id & _ & H).
    cbv zeta in H. rewrite Hvalues in H. rewrite H.
    repeat split. now exists id.
Qed.

(** X14. For a row that has its identifier (or [None] for
    it) and a value for every column, insert_data sends exactly one request:
    the POST that appends the values of the row, in the order of the
    columns, to the range named after the sheet, for the provider to read
    them as a user would have typed them. It returns exactly when the
    provider accepts the request; the row is in the map in either case. *)
Theorem insert_data_request (row : loc) (d : dict) (v : value)
    (values : list value) (s : state) :
  heap s !! row = Some d ->
  Dict.get "rowid" d = Some v ->
  v = VNone \/ (exists n, v = VInt n) ->
  values_of (self s) (Dict.remove "rowid" d) = Ok values ->
  log (snd (insert_data row s)) = log s ++ [append_request (self s) values]
  /\ ((exists id, fst (insert_data row s) = Ok id)
      <-> accepted (session (log s) (append_request (self s) values)))
  /\ (exists id,
        row_ids (self (snd (insert_data row s))) = <[id := row]> (row_ids (self s))).
Proof.
  intros Hrow Hid Hv Hvalues.
  destruct (insert_data_exchange row d v s Hrow Hid Hv) as (id & _ & H).
  cbv zeta in H. rewrite Hvalues in H.
  destruct H as [[Hacc ->] | [Hnot [e ->]]]; cbn [fst snd].
  - split; [reflexivity |]. split; [| now exists id].
    split; [intros _; exact Hacc | intros _; now exists id].
  - split; [reflexivity |]. split; [| now exists id].
    split; [intros [? [=]] | intros H; now destruct Hnot].
Qed.

(** *** update_data *)

(** update_data once the row to update is located: it reads the values of
    the new row, writes them at the row number, and then moves the new row
    to the identifier it comes with. *)
Lemma update_data_located (row_id : Z) (row current : loc) (n : Z) (s s1 : state) :
  row_ids (self s) !! row_id = Some current ->
  _find_row_number current s = (Ok n, s1) ->
  self s1 = self s /\ heap s1 = heap s
  /\ update_data row_id row s
     = match heap s !! row with
       | None => (Raise (OutOfModel "a reference to no object"), s1)
       | Some d =>
           match values_of (self s) d with
           | Raise e => (Raise e, s1)
           | Ok values =>
               (response ← Adapter.send tzinfo session (update_request (self s) n values);
                payload ← Adapter.json tzinfo response;
                Adapter.check_error tzinfo payload;;
                new_row_id ← Adapter.pop_rowid tzinfo row;
                match new_row_id with
                | VInt new_row_id =>
                    (if negb (new_row_id =? row_id)
                     then Adapter.update_self tzinfo
                            (fun a => Adapter.set_row_ids tzinfo
                                        (delete row_id (row_ids a)) a)
                     else mret tt);;
                    Adapter.update_self tzinfo
                      (fun a => Adapter.set_row_ids tzinfo
                                  (<[new_row_id := row]> (row_ids a)) a)
                | _ => Adapter.raise tzinfo
                         (OutOfModel "a row identifier that is not an int")
                end) s1
           end
       end.
Proof.
  intros Hcurrent Hfind.
  destruct (keeps_find_row_number session current s) as [Hself Hheap].
  rewrite Hfind in Hself, Hheap. cbn [snd] in Hself, Hheap.
  split; [exact Hself |]. split; [exact Hheap |].
  unfold Adapter.update_data.
  rewrite (bind_ok _ _ s s (self s)) by reflexivity.
  rewrite Hcurrent.
  rewrite (bind_ok _ _ s s1 n Hfind).
  unfold mbind at 1, Adapter.M_bind at 1.
  rewrite <- Hheap.
  destruct (heap s1 !! row) as [d|] eqn:Hrow.
  - rewrite (row_values_spec row d s1 Hrow). rewrite Hself.
    destruct (values_of (self s) d) as [values|e]; reflexivity.
  - unfold Adapter.row_values, mbind, Adapter.M_bind, Adapter.load. now rewrite Hrow.
Qed.

Lemma insert_delete_same (m : gmap Z loc) (i : Z) (l : loc) :
  <[i := l]> m = <[i := l]> (delete i m).
Proof. now rewrite insert_delete_eq. Qed.

(** The ways update_data ends on a state. *)
Lemma update_data_outcome (row_id : Z) (row : loc) (s s' : state) (r : res unit) :
  update_data row_id row s = (r, s') ->
  match row_ids (self s) !! row_id with
  | None =>
      r = Raise (if Py.str_fits row_id
                 then ProgrammingError
                        [Lit ("Invalid row to update: " +:+ Py.str_int row_id)]
                 else ValueError)
      /\ s' = s
  | Some current =>
      match r with
      | Ok _ =>
          exists d new_id,
            heap s !! row = Some d
            /\ Dict.get "rowid" d = Some (VInt new_id)
            /\ row_ids (self s') = <[new_id := row]> (delete row_id (row_ids (self s)))
            /\ heap s' = <[row := Dict.remove "rowid" d]> (heap s)
      | Raise _ => row_ids (self s') = row_ids (self s)
      end
  end.
Proof.
  intros Hrun.
  destruct (row_ids (self s) !! row_id) as [current|] eqn:Hcurrent.
  2:{ unfold Adapter.update_data in Hrun.
      rewrite (bind_ok _ _ s s (self s)) in Hrun by reflexivity.
      rewrite Hcurrent in Hrun.
      unfold mbind, Adapter.M_bind, Adapter.lift, fstring_int in Hrun.
      destruct (Py.str_fits row_id); injection Hrun as <- <-; now split. }
  destruct (_find_row_number current s) as [[n|e] s1] eqn:Hfind.
  2:{ destruct (keeps_find_row_number session current s) as [Hself _].
      rewrite Hfind in Hself. cbn [snd] in Hself.
      unfold Adapter.update_data in Hrun.
      rewrite (bind_ok _ _ s s (self s)) in Hrun by reflexivity.
      rewrite Hcurrent in Hrun. unfold mbind at 1, Adapter.M_bind at 1 in Hrun.
      rewrite Hfind in Hrun. injection Hrun as <- <-. now rewrite Hself. }
  destruct (update_data_located row_id row current n s s1 Hcurrent Hfind)
    as (Hself & Hheap & Heq).
  rewrite Heq in Hrun. clear Heq.
  destruct (heap s !! row) as [d|] eqn:Hrow.
  2:{ injection Hrun as <- <-. now rewrite Hself. }
  destruct (values_of (self s) d) as [values|e].
  2:{ injection Hrun as <- <-. now rewrite Hself. }
  rewrite exchange_spec in Hrun.
  destruct (session (log s1) (update_request (self s) n values)) as [response|e].
  2:{ injection Hrun as <- <-. cbn. now rewrite Hself. }
  destruct (response_json response) as [payload|].
  2:{ injection Hrun as <- <-. cbn. now rewrite Hself. }
  destruct (Py.contains "error" payload) as [[]|e].
  1:{ injection Hrun as <- <-.
      match goal with
      | |- match (match ?x with Ok _ => _ | Raise _ => _ end) with _ => _ end =>
          destruct x
      end; cbn; now rewrite Hself. }
  2:{ injection Hrun as <- <-. cbn. now rewrite Hself. }
  unfold mbind at 1, Adapter.M_bind at 1 in Hrun.
  rewrite (pop_rowid_spec row d (sent s1 (update_request (self s) n values))) in Hrun
    by (cbn; now rewrite Hheap).
  destruct (Dict.get "rowid" d) as [v|] eqn:Hid.
  2:{ injection Hrun as <- <-. cbn. now rewrite Hself. }
  destruct v as [| |new_id| | | |];
    try (injection Hrun as <- <-; cbn; now rewrite Hself).
  unfold mbind, Adapter.M_bind, Adapter.update_self, mret, Adapter.M_ret in Hrun.
  destruct (Z.eqb_spec new_id row_id) as [-> | Hne]; cbn [negb] in Hrun;
    injection Hrun as <- <-; exists d; eexists; (split; [reflexivity |]);
    (split; [exact Hid |]); cbn; rewrite Hself, Hheap;
    (split; [| reflexivity]).
  - apply insert_delete_same.
  - reflexivity.
Qed.

(** X15. update_data with an identifier that is not in the map raises
    ProgrammingError (for an identifier of more digits than the interpreter
    writes, the [ValueError] of the f-string) and the state is as it was:
    nothing is sent. With an identifier in the map, when it returns, the new
    row came with an identifier under the key [rowid]; the row has lost that
    key and is stored under that identifier, and the identifier given to
    update_data is no longer in the map unless it is the same one. When it
    raises, the map is as it was. *)
Theorem update_data_spec (row_id : Z) (row : loc) (s : state) :
  match row_ids (self s) !! row_id with
  | None =>
      update_data row_id row s
      = (Raise (if Py.str_fits row_id
                then ProgrammingError
                       [Lit ("Invalid row to update: " +:+ Py.str_int row_id)]
                else ValueError), s)
  | Some current =>
      match update_data row_id row s with
      | (Ok _, s') =>
          exists d new_id,
            heap s !! row = Some d
            /\ Dict.get "rowid" d = Some (VInt new_id)
            /\ row_ids (self s') = <[new_id := row]> (delete row_id (row_ids (self s)))
            /\ heap s' = <[row := Dict.remove "rowid" d]> (heap s)
            /\ (new_id <> row_id -> row_ids (self s') !! row_id = None)
      | (Raise _, s') => row_ids (self s') = row_ids (self s)
      end
  end.
Proof.
  destruct (update_data row_id row s) as [r s'] eqn:Hrun.
  apply update_data_outcome in Hrun.
  destruct (row_ids (self s) !! row_id) as [current|].
  - destruct r as [[]|e]; [| exact Hrun].
    destruct Hrun as (d & new_id & Hrow & Hid & Hids & Hheap).
    exists d, new_id. repeat split; try assumption.
    intros Hne. rewrite Hids, lookup_insert_ne by exact Hne. apply lookup_delete_eq.
  - destruct Hrun as [-> ->]. reflexivity.
Qed.

(** X16. Once the row to update is located at the row
    number n, and the new row has a value for every column, update_data
    sends one more request: the PUT of the values of the new row, in the
    order of the columns, to the range that starts at the cell A(n+1) of
    the sheet. When the provider does not accept it, update_data raises and
    neither the adapter nor any row has changed. When the provider accepts
    it and the new row carries an integer identifier, update_data returns.
    When the provider accepts it and the new row has no key [rowid],
    update_data raises [KeyError]: the values are written in the sheet, and
    neither the adapter nor any row has changed. *)
Theorem update_data_request (row_id : Z) (row current : loc) (n : Z)
    (d : dict) (values : list value) (s s1 : state) :
  row_ids (self s) !! row_id = Some current ->
  _find_row_number current s = (Ok n, s1) ->
  heap s !! row = Some d ->
  values_of (self s) d = Ok values ->
  log (snd (update_data row_id row s)) = log s1 ++ [update_request (self s) n values]
  /\ (~ accepted (session (log s1) (update_request (self s) n values)) ->
      (exists e, fst (update_data row_id row s) = Raise e)
      /\ same_objects s (snd (update_data row_id row s)))
  /\ (accepted (session (log s1) (update_request (self s) n values)) ->
      (forall new_id, Dict.get "rowid" d = Some (VInt new_id) ->
         fst (update_data row_id row s) = Ok tt)
      /\ (Dict.get "rowid" d = None ->
          fst (update_data row_id row s) = Raise (KeyError (VStr "rowid"))
          /\ same_objects s (snd (update_data row_id row s)))).
Proof.
  intros Hcurrent Hfind Hrow Hvalues.
  destruct (update_data_located row_id row current n s s1 Hcurrent Hfind)
    as (Hself & Hheap & ->).
  rewrite Hrow, Hvalues.
  match goal with
  | |- context [(Adapter.send tzinfo session ?req ≫= ?f) s1] =>
      match f with
      | (fun response => _ ≫= (fun payload => _ ≫= (fun _ => ?k))) =>
          destruct (exchange_cases req k s1) as [[Hacc Heq] | [Hnot [e Heq]]];
          rewrite Heq; clear Heq
      end
  end.
  - match goal with
    | |- context [(Adapter.pop_rowid tzinfo row ≫= ?f) ?s2] =>
        set (rest := (Adapter.pop_rowid tzinfo row ≫= f) s2)
    end.
    assert (log (snd rest) = log s1 ++ [update_request (self s) n values]
            /\ (forall new_id, Dict.get "rowid" d = Some (VInt new_id) -> fst rest = Ok tt)
            /\ (Dict.get "rowid" d = None ->
                fst rest = Raise (KeyError (VStr "rowid")) /\ same_objects s (snd rest)))
      as (Hlog & Hint & Hnone).
    { assert (rest
              = match Dict.get "rowid" d with
                | Some v =>
                    match v with
                    | VInt new_row_id =>
                        (if negb (new_row_id =? row_id)
                         then Adapter.update_self tzinfo
                                (fun a => Adapter.set_row_ids tzinfo
                                            (delete row_id (row_ids a)) a)
                         else mret tt);;
                        Adapter.update_self tzinfo
                          (fun a => Adapter.set_row_ids tzinfo
                                      (<[new_row_id := row]> (row_ids a)) a)
                    | _ => Adapter.raise tzinfo
                             (OutOfModel "a row identifier that is not an int")
                    end (with_object row (Dict.remove "rowid" d)
                           (sent s1 (update_request (self s) n values)))
                | None => (Raise (KeyError (VStr "rowid")),
                           sent s1 (update_request (self s) n values))
                end) as ->.
      { subst rest. unfold mbind at 1, Adapter.M_bind at 1.
        rewrite (pop_rowid_spec row d (sent s1 (update_request (self s) n values)))
          by (cbn; now rewrite Hheap).
        now destruct (Dict.get "rowid" d). }
      destruct (Dict.get "rowid" d) as [v|].
      - split; [| split; [| discriminate]].
        + destruct v as [| |new_id| | | |]; try reflexivity.
          unfold mbind, Adapter.M_bind, Adapter.update_self, mret, Adapter.M_ret.
          now destruct (negb _).
        + intros new_id [= ->].
          unfold mbind, Adapter.M_bind, Adapter.update_self, mret, Adapter.M_ret.
          now destruct (negb _).
      - split; [reflexivity |]. split; [discriminate |]. intros _.
        split; [reflexivity |]. now split. }
    split; [exact Hlog |]. split; [intros H; now destruct H |].
    intros _. now split.
  - cbn [fst snd]. split; [reflexivity |]. split; [| intros H; now destruct Hnot].
    intros _. split; [now exists e |]. now split.
Qed.

(** *** delete_data *)

Lemma delete_data_located (row_id : Z) (row : loc) (n : Z) (s s1 : state) :
  row_ids (self s) !! row_id = Some row ->
  _find_row_number row s = (Ok n, s1) ->
  self s1 = self s /\ heap s1 = heap s
  /\ delete_data row_id s
     = (response ← Adapter.send tzinfo session (delete_request (self s) n);
        payload ← Adapter.json tzinfo response;
        Adapter.check_error tzinfo payload;;
        Adapter.update_self tzinfo
          (fun a => Adapter.set_row_ids tzinfo (delete row_id (row_ids a)) a)) s1.
Proof.
  intros Hrow Hfind.
  destruct (keeps_find_row_number session row s) as [Hself Hheap].
  rewrite Hfind in Hself, Hheap. cbn [snd] in Hself, Hheap.
  split; [exact Hself |]. split; [exact Hheap |].
  unfold Adapter.delete_data.
  rewrite (bind_ok _ _ s s (self s)) by reflexivity.
  rewrite Hrow.
  now rewrite (bind_ok _ _ s s1 n Hfind).
Qed.

(** X17. Once the row to delete is located at the row number
    n, delete_data sends one more request: the POST that deletes, in the
    sheet whose id the adapter holds, the rows from the index n to the index
    n + 1, the second excluded. It returns exactly when the provider
    accepts the request, and then the identifier is no longer in the map;
    the row objects are as they were in either case. *)
Theorem delete_data_request (row_id : Z) (row : loc) (n : Z) (s s1 : state) :
  row_ids (self s) !! row_id = Some row ->
  _find_row_number row s = (Ok n, s1) ->
  log (snd (delete_data row_id s)) = log s1 ++ [delete_request (self s) n]
  /\ heap (snd (delete_data row_id s)) = heap s
  /\ (fst (delete_data row_id s) = Ok tt
      <-> accepted (session (log s1) (delete_request (self s) n)))
  /\ (fst (delete_data row_id s) = Ok tt ->
      row_ids (self (snd (delete_data row_id s))) !! row_id = None).
Proof.
  intros Hrow Hfind.
  destruct (delete_data_located row_id row n s s1 Hrow Hfind) as (Hself & Hheap & ->).
  match goal with
  | |- context [(Adapter.send tzinfo session ?req ≫= ?f) s1] =>
      match f with
      | (fun response => _ ≫= (fun payload => _ ≫= (fun _ => ?k))) =>
          destruct (exchange_cases req k s1) as [[Hacc Heq] | [Hnot [e Heq]]];
          rewrite Heq; clear Heq
      end
  end; cbn [fst snd Adapter.update_self Adapter.log Adapter.heap Adapter.self sent].
  - split; [reflexivity |]. split; [exact Hheap |].
    split; [split; [intros _; exact Hacc | reflexivity] |].
    intros _. cbn. apply lookup_delete_eq.
  - split; [reflexivity |]. split; [exact Hheap |].
    split; [split; [discriminate | intros H; now destruct Hnot] | discriminate].
Qed.

Lemma delete_data_ok_inv (row_id : Z) (s s' : state) :
  delete_data row_id s = (Ok tt, s') ->
  row_ids (self s') = delete row_id (row_ids (self s)).
Proof.
  intros Hrun.
  destruct (row_ids (self s) !! row_id) as [row|] eqn:Hrow.
  2:{ unfold Adapter.delete_data in Hrun.
      rewrite (bind_ok _ _ s s (self s)) in Hrun by reflexivity.
      rewrite Hrow in Hrun.
      unfold mbind, Adapter.M_bind, Adapter.lift, fstring_int in Hrun.
      now destruct (Py.str_fits row_id). }
  destruct (_find_row_number row s) as [[n|e] s1] eqn:Hfind.
  2:{ unfold Adapter.delete_data in Hrun.
      rewrite (bind_ok _ _ s s (self s)) in Hrun by reflexivity.
      rewrite Hrow in Hrun. unfold mbind at 1, Adapter.M_bind at 1 in Hrun.
      now rewrite Hfind in Hrun. }
  destruct (delete_data_located row_id row n s s1 Hrow Hfind) as (Hself & _ & Heq).
  rewrite Heq in Hrun. clear Heq.
  match type of Hrun with
  | (Adapter.send tzinfo session ?req ≫= ?f) s1 = _ =>
      match f with
      | (fun response => _ ≫= (fun payload => _ ≫= (fun _ => ?k))) =>
          destruct (exchange_cases req k s1) as [[_ Heq] | [_ [e Heq]]];
          rewrite Heq in Hrun; clear Heq
      end
  end; [| discriminate].
  injection Hrun as <-. cbn. now rewrite Hself.
Qed.

(** X18. An identifier that delete_data has deleted is gone: with the
    same identifier again, delete_data and update_data raise
    ProgrammingError (for an identifier of more digits than the interpreter
    writes, the [ValueError] of the f-string), and send nothing. *)
Theorem delete_data_twice (row_id : Z) (row : loc) (s : state) :
  fst (delete_data row_id s) = Ok tt ->
  let s' := snd (delete_data row_id s) in
  delete_data row_id s'
  = (Raise (if Py.str_fits row_id
            then ProgrammingError
                   [Lit ("Invalid row to delete: " +:+ Py.str_int row_id)]
            else ValueError), s')
  /\ update_data row_id row s'
     = (Raise (if Py.str_fits row_id
               then ProgrammingError
                      [Lit ("Invalid row to update: " +:+ Py.str_int row_id)]
               else ValueError), s').
Proof.
  destruct (delete_data row_id s) as [r s'] eqn:Hrun. cbn [fst snd].
  intros ->. apply delete_data_ok_inv in Hrun.
  assert (row_ids (self s') !! row_id = None) as Hgone
    by (rewrite Hrun; apply lookup_delete_eq).
  split.
  - unfold Adapter.delete_data.
    rewrite (bind_ok _ _ s' s' (self s')) by reflexivity. rewrite Hgone.
    unfold mbind, Adapter.M_bind, Adapter.lift, fstring_int.
    now destruct (Py.str_fits row_id).
  - unfold Adapter.update_data.
    rewrite (bind_ok _ _ s' s' (self s')) by reflexivity. rewrite Hgone.
    unfold mbind, Adapter.M_bind, Adapter.lift, fstring_int.
    now destruct (Py.str_fits row_id).
Qed.

(** *** _find_row_number *)

Lemma find_row_number_steps (row : loc) (d : dict) (s : state) :
  heap s !! row = Some d ->
  _find_row_number row s
  = match values_of (self s) d with
    | Raise e => (Raise e, s)
    | Ok values =>
        (response ← Adapter.send tzinfo session (values_request (self s));
         payload ← Adapter.json tzinfo response;
         Adapter.check_error tzinfo payload;;
         remote ← Adapter.lift tzinfo (v ← Py.getitem payload "values"; Py.iter v);
         match find_equal 0 remote (VList values) with
         | Some i => mret i
         | None =>
             d ← Adapter.load tzinfo row;
             message ← Adapter.lift tzinfo (fstring "Could not find row: " (VDict d));
             Adapter.raise tzinfo (ProgrammingError message)
         end) s
    end.
Proof.
  intros Hrow. unfold Adapter._find_row_number.
  unfold mbind at 1, Adapter.M_bind at 1.
  rewrite (row_values_spec row d s Hrow).
  destruct (values_of (self s) d) as [values|e]; [| reflexivity].
  now rewrite (bind_ok _ _ s s (self s)) by reflexivity.
Qed.

(** X19. How _find_row_number fails before it compares any row.
    A row that lacks the value of a column raises the [KeyError] of that
    column, and no request is sent. When the answer to the request for the
    values is not a JSON text (a text with the prefix of the query endpoint
    is none), the decoding error is raised. When the provider answers with
    an error, its message is raised as a ProgrammingError. When it answers
    with a JSON object that has neither an error nor the key [values],
    [KeyError] is raised for that key. *)
Theorem find_row_number_fails (row : loc) (d : dict) (s : state) :
  heap s !! row = Some d ->
  (forall e, values_of (self s) d = Raise e ->
     _find_row_number row s = (Raise e, s))
  /\ (forall values response,
        values_of (self s) d = Ok values ->
        session (log s) (values_request (self s)) = Ok response ->
        Str.startswith JSON_PAYLOAD_PREFIX (text response) = true
        \/ body response = None ->
        fst (_find_row_number row s) = Raise JSONDecodeError)
  /\ (forall values response payload,
        values_of (self s) d = Ok values ->
        session (log s) (values_request (self s)) = Ok response ->
        response_json response = Ok (VDict payload) ->
        (forall error message,
           Dict.get "error" payload = Some error ->
           Py.getitem error "message" = Ok message ->
           fst (_find_row_number row s) = Raise (ProgrammingError (message_of message)))
        /\ (Dict.get "error" payload = None ->
            Dict.get "values" payload = None ->
            fst (_find_row_number row s) = Raise (KeyError (VStr "values")))).
Proof.
  intros Hrow. rewrite (find_row_number_steps row d s Hrow).
  split; [| split].
  - now intros e ->.
  - intros values response -> Hsend Hbad.
    unfold mbind, Adapter.M_bind, Adapter.send, Adapter.json, Adapter.lift.
    rewrite Hsend. unfold response_json.
    destruct Hbad as [-> | Hbody]; [reflexivity |].
    rewrite Hbody. now destruct (Str.startswith _ _).
  - intros values response payload -> Hsend Hbody.
    unfold Adapter.check_error.
    unfold mbind, Adapter.M_bind, Adapter.send, Adapter.json, Adapter.lift,
      Adapter.raise, mret, Adapter.M_ret.
    rewrite Hsend, Hbody. cbn [Py.contains Py.getitem]. unfold Dict.contains. split.
    + intros error message0 -> Hmessage. cbn [res_bind]. now rewrite Hmessage.
    + intros -> Hvalues. cbn [res_bind]. now rewrite Hvalues.
Qed.

End MutationFacts.
(** ** The constructor *)

Section ConstructorFacts.

Context {tzinfo Credentials : Type}.
Variable urllib : Url.urllib_parse.
Variable google : google_auth Credentials.
Variable Session : list Request -> Request -> res Response.
Variable gettz : value -> res (option tzinfo).

Abbreviation state := (Adapter.state tzinfo).
Abbreviation self := (Adapter.self tzinfo).
Abbreviation heap := (Adapter.heap tzinfo).
Abbreviation log := (Adapter.log tzinfo).
Abbreviation get_credentials := (Constructor.get_credentials Credentials google).
Abbreviation supports := (Constructor.supports urllib).
Abbreviation _get_session := (Constructor._get_session Credentials google Session).
Abbreviation _set_metadata :=
  (Constructor._set_metadata tzinfo urllib Credentials google Session gettz).
Abbreviation __init__ :=
  (Constructor.__init__ tzinfo urllib Credentials google Session gettz).

(** X20. get_credentials gives no credentials exactly when the
    access token, the file of the service account and its description are
    all missing or empty. An access token that is not empty makes the
    credentials, and then the other arguments are not looked at; without
    one, a file name that is not empty does. *)
Theorem get_credentials_spec (access_token service_account_file : option string)
    (service_account_info : option dict) (subject : option string) :
  (get_credentials access_token service_account_file service_account_info subject
   = Ok None
   <-> Py.truthy (opt_value VStr access_token) = false
       /\ Py.truthy (opt_value VStr service_account_file) = false
       /\ Py.truthy (opt_value VDict service_account_info) = false)
  /\ (Py.truthy (opt_value VStr access_token) = true ->
      get_credentials access_token service_account_file service_account_info subject
      = (c ← oauth2_Credentials google (default "" access_token); Ok (Some c)))
  /\ (Py.truthy (opt_value VStr access_token) = false ->
      Py.truthy (opt_value VStr service_account_file) = true ->
      get_credentials access_token service_account_file service_account_info subject
      = (c ← from_service_account_file google (default "" service_account_file)
               SCOPES subject;
         Ok (Some c))).
Proof.
  unfold Constructor.get_credentials.
  destruct access_token as [[|c0 token]|], service_account_file as [[|c1 file]|],
    service_account_info as [[|kv info]|]; cbn;
    repeat split; try discriminate; try tauto;
    try (intros (? & ? & ?); discriminate);
    match goal with
    | H : (?x ≫= _) = Ok None |- _ => destruct x; discriminate
    end.
Qed.

(** *** _set_metadata *)

(** The pieces of a path with one directory. *)
Lemma split_short_path (name : string) :
  Str.mem "/" name = false ->
  Str.split "/" ("/spreadsheets/" +:+ name) = [""; "spreadsheets"; name].
Proof.
  intros Hname.
  change ("/spreadsheets/" +:+ name)
    with ("" +:+ String "/" EmptyString +:+ ("spreadsheets" +:+ String "/" EmptyString +:+ name)).
  rewrite (split_append "/" "") by reflexivity.
  rewrite (split_append "/" "spreadsheets") by reflexivity.
  now rewrite split_single.
Qed.

(** X21. A URL that supports accepts need not have a spreadsheet id.
    For a URL of the host docs.google.com whose path is [/spreadsheets/]
    followed by a name without a slash, supports returns True, and
    _set_metadata, which takes the fourth piece of the path as the
    spreadsheet id, raises [IndexError]: nothing is assigned and nothing is
    sent. *)
Theorem supports_without_id (credentials : option Credentials) (uri : string)
    (parts : Url.ParseResult) (name : string) (s : state) :
  Url.urlparse urllib uri = Ok parts ->
  Url.netloc parts = "docs.google.com" ->
  Url.path parts = "/spreadsheets/" +:+ name ->
  Str.mem "/" name = false ->
  supports uri = Ok true
  /\ _set_metadata credentials uri s = (Raise IndexError, s).
Proof.
  intros Hparts Hnetloc Hpath Hname. split.
  - unfold Constructor.supports. rewrite Hparts. cbn [mbind res_bind].
    rewrite Hnetloc, Hpath. f_equal. unfold Str.startswith. cbn.
    now destruct name.
  - unfold Constructor._set_metadata.
    rewrite (bind_ok _ _ s s parts) by (unfold Adapter.lift; now rewrite Hparts).
    unfold mbind at 1, Adapter.M_bind at 1, Adapter.lift.
    now rewrite Hpath, split_short_path.
Qed.

(** The value of get_url. *)
Lemma get_url_endpoint (uri : string) (parts : Url.ParseResult)
    (qs : odict (list string)) (headers query_gid gid : Z)
    (sheet : option string) (params : string) :
  Url.urlparse urllib uri = Ok parts ->
  Url.parse_qs urllib (Url.query parts) = Ok qs ->
  int_param "headers" qs 0 = Ok headers ->
  int_param "gid" qs 0 = Ok query_gid ->
  str_param "sheet" qs = Ok sheet ->
  fragment_gid (Url.fragment parts) query_gid = Ok gid ->
  Url.urlencode urllib (endpoint_args headers gid sheet) = Ok params ->
  Url.get_url urllib uri 0 0 None
  = Ok (Url.urlunparse urllib (Some (Url.scheme parts)) (Some (Url.netloc parts))
          (Some (endpoint_path (Url.path parts))) None (Some params) None).
Proof.
  intros Hparts Hqs Hh Hg Hs Hf Hp.
  unfold Url.get_url. rewrite Hparts. cbn [mbind res_bind]. rewrite Hqs.
  cbn [mbind res_bind].
  change (Str.len "/edit") with 5. change (- 5) with (-5).
  change (Str.len "gid=") with 4.
  assert (forall a b : string, Str.join "/" [a; b] = a +:+ "/" +:+ b) as -> by reflexivity.
  fold (int_param "headers" qs 0). rewrite Hh. cbn [mbind res_bind].
  fold (int_param "gid" qs 0). rewrite Hg. cbn [mbind res_bind].
  fold (str_param "sheet" qs). rewrite Hs. cbn [mbind res_bind].
  fold (fragment_gid (Url.fragment parts) query_gid). rewrite Hf. cbn [mbind res_bind].
  replace (match sheet with
           | Some sheet0 =>
               Dict.set "sheet" (VStr sheet0)
                 (if 0 <? headers then Dict.set "headers" (VInt headers) [] else [])
           | None =>
               Dict.set "gid" (VInt gid)
                 (if 0 <? headers then Dict.set "headers" (VInt headers) [] else [])
           end) with (endpoint_args headers gid sheet)
    by (unfold endpoint_args; destruct (0 <? headers), sheet; reflexivity).
  rewrite Hp. reflexivity.
Qed.

(** _set_metadata without credentials. *)
Lemma set_metadata_anonymous (uri : string) (parts : Url.ParseResult)
    (spreadsheet_id : string) (qs : odict (list string)) (sheet_id : Z) (s : state) :
  Url.urlparse urllib uri = Ok parts ->
  item (Str.split "/" (Url.path parts)) 3 = Ok spreadsheet_id ->
  Url.parse_qs urllib (Url.query parts) = Ok qs ->
  match Dict.get "gid" qs with
  | Some _ => int_param "gid" qs 0
  | None => fragment_gid (Url.fragment parts) 0
  end = Ok sheet_id ->
  _set_metadata None uri s
  = (Ok tt,
     with_self (Constructor.set_sheet_id tzinfo (Some sheet_id)
                  (Constructor.set_spreadsheet_id tzinfo (Some spreadsheet_id) (self s))) s).
Proof.
  intros Hparts Hid Hqs Hgid.
  unfold Constructor._set_metadata.
  rewrite (bind_ok _ _ s s parts) by (unfold Adapter.lift; now rewrite Hparts).
  rewrite (bind_ok _ _ s s spreadsheet_id) by (unfold Adapter.lift; now rewrite Hid).
  set (s1 := with_self (Constructor.set_spreadsheet_id tzinfo (Some spreadsheet_id) (self s)) s).
  rewrite (bind_ok _ _ s s1 tt) by reflexivity.
  rewrite (bind_ok _ _ s1 s1 qs) by (unfold Adapter.lift; now rewrite Hqs).
  rewrite (bind_ok _ _ s1 s1 sheet_id).
  2:{ unfold Adapter.lift. f_equal. rewrite <- Hgid.
      unfold int_param, fragment_gid. change (Str.len "gid=") with 4.
      now destruct (Dict.get "gid" qs). }
  reflexivity.
Qed.

(** X22. The two readings of the sheet id. When the URL has a sheet id
    in its query string and another in a fragment [gid=N], get_url takes the
    one of the fragment for the URL of the queries, and _set_metadata takes
    the one of the query string for the attribute that the deletion of rows
    uses. Without credentials _set_metadata sends nothing and assigns
    nothing but the two ids. *)
Theorem sheet_id_precedence (uri : string) (parts : Url.ParseResult)
    (qs : odict (list string)) (spreadsheet_id : string)
    (headers query_gid fragment_gid_ : Z) (params : string) (s : state) :
  Url.urlparse urllib uri = Ok parts ->
  Url.parse_qs urllib (Url.query parts) = Ok qs ->
  item (Str.split "/" (Url.path parts)) 3 = Ok spreadsheet_id ->
  int_param "headers" qs 0 = Ok headers ->
  Dict.contains "gid" qs = true ->
  int_param "gid" qs 0 = Ok query_gid ->
  str_param "sheet" qs = Ok None ->
  Str.startswith "gid=" (Url.fragment parts) = true ->
  Py.int (Str.slice (Some 4) None (Url.fragment parts)) = Ok fragment_gid_ ->
  Url.urlencode urllib (endpoint_args headers fragment_gid_ None) = Ok params ->
  Url.get_url urllib uri 0 0 None
  = Ok (Url.urlunparse urllib (Some (Url.scheme parts)) (Some (Url.netloc parts))
          (Some (endpoint_path (Url.path parts))) None (Some params) None)
  /\ Dict.get "gid" (endpoint_args headers fragment_gid_ None) = Some (VInt fragment_gid_)
  /\ _set_metadata None uri s
     = (Ok tt,
        with_self (Constructor.set_sheet_id tzinfo (Some query_gid)
                     (Constructor.set_spreadsheet_id tzinfo (Some spreadsheet_id)
                        (self s))) s).
Proof.
  intros Hparts Hqs Hid Hh Hin Hg Hs Hstart Hf Hp.
  split; [| split].
  - apply (get_url_endpoint uri parts qs headers query_gid fragment_gid_ None params);
      try assumption.
    unfold fragment_gid. now rewrite Hstart.
  - unfold endpoint_args. now destruct (0 <? headers).
  - apply (set_metadata_anonymous uri parts spreadsheet_id qs query_gid); try assumption.
    unfold Dict.contains in Hin. now destruct (Dict.get "gid" qs).
Qed.

Lemma sheet_title_sheets (sheet_id : Z) (sheets : list SheetProperties) :
  sheet_title sheet_id (List.map sheet_value sheets)
  = Ok (VStr <$> title_of sheet_id sheets).
Proof.
  unfold title_of. induction sheets as [|sheet sheets IH]; [reflexivity |].
  assert (forall sh, Py.getitem (sheet_value sh) "properties"
                     = Ok (VDict [("sheetId", VInt (sheetId sh));
                                  ("title", VStr (title sh))])) as Hp
    by reflexivity.
  cbn [List.map sheet_title List.find]. rewrite !Hp.
  cbn [Py.getitem Dict.get String.eqb Ascii.eqb Bool.eqb mbind res_bind].
  change (Py.eq (VInt (sheetId sheet)) (VInt sheet_id))
    with (sheetId sheet =? sheet_id).
  destruct (sheetId sheet =? sheet_id); [reflexivity | exact IH].
Qed.

(** X23. _set_metadata with credentials. When the provider answers
    the request for the metadata of the document, sent with the credentials,
    with a JSON text (one that [response.json()] decodes: it has not the
    prefix of the query endpoint) that holds the time zone of the document
    and its sheets, _set_metadata returns
    after that one request; the spreadsheet id is the fourth piece of the
    path, the time zone is the one gettz gives for the name, and the name of
    the sheet is the title of the first sheet of the document whose id is
    equal to the sheet id. When no sheet has the id, the name of the sheet
    stays as it was and nothing is raised. *)
Theorem set_metadata_authorized (credentials : Credentials) (uri : string)
    (parts : Url.ParseResult) (spreadsheet_id : string) (qs : odict (list string))
    (sheet_id : Z) (response : Response) (timeZone : string)
    (sheets : list SheetProperties) (timezone : option tzinfo) (s : state) :
  Url.urlparse urllib uri = Ok parts ->
  item (Str.split "/" (Url.path parts)) 3 = Ok spreadsheet_id ->
  Url.parse_qs urllib (Url.query parts) = Ok qs ->
  match Dict.get "gid" qs with
  | Some _ => int_param "gid" qs 0
  | None => fragment_gid (Url.fragment parts) 0
  end = Ok sheet_id ->
  AuthorizedSession google credentials (log s) (metadata_request spreadsheet_id)
    = Ok response ->
  response_json response = Ok (spreadsheet_value timeZone sheets) ->
  gettz (VStr timeZone) = Ok timezone ->
  let r := _set_metadata (Some credentials) uri s in
  fst r = Ok tt
  /\ log (snd r) = log s ++ [metadata_request spreadsheet_id]
  /\ heap (snd r) = heap s
  /\ Adapter._spreadsheet_id tzinfo (self (snd r)) = Some spreadsheet_id
  /\ Adapter._sheet_id tzinfo (self (snd r)) = Some sheet_id
  /\ Adapter._timezone tzinfo (self (snd r)) = timezone
  /\ Adapter._sheet_name tzinfo (self (snd r))
     = match title_of sheet_id sheets with
       | Some title => Some title
       | None => Adapter._sheet_name tzinfo (self s)
       end.
Proof.
  intros Hparts Hid Hqs Hgid Hsend Hbody Hgettz.
  set (a2 := Constructor.set_sheet_id tzinfo (Some sheet_id)
               (Constructor.set_spreadsheet_id tzinfo (Some spreadsheet_id) (self s))).
  set (s3 := sent (with_self a2 s) (metadata_request spreadsheet_id)).
  set (s4 := with_self (Constructor.set_timezone tzinfo timezone a2) s3).
  assert (_set_metadata (Some credentials) uri s
          = match title_of sheet_id sheets with
            | Some title =>
                (Ok tt, with_self (Constructor.set_sheet_name tzinfo (Some title)
                                     (self s4)) s4)
            | None => (Ok tt, s4)
            end) as Hrun.
  { unfold Constructor._set_metadata.
    rewrite (bind_ok _ _ s s parts) by (unfold Adapter.lift; now rewrite Hparts).
    rewrite (bind_ok _ _ s s spreadsheet_id) by (unfold Adapter.lift; now rewrite Hid).
    set (s1 := with_self (Constructor.set_spreadsheet_id tzinfo (Some spreadsheet_id)
                            (self s)) s).
    rewrite (bind_ok _ _ s s1 tt) by reflexivity.
    rewrite (bind_ok _ _ s1 s1 qs) by (unfold Adapter.lift; now rewrite Hqs).
    rewrite (bind_ok _ _ s1 s1 sheet_id).
    2:{ unfold Adapter.lift. f_equal. rewrite <- Hgid.
        unfold int_param, fragment_gid. change (Str.len "gid=") with 4.
        now destruct (Dict.get "gid" qs). }
    rewrite (bind_ok _ _ s1 (with_self a2 s) tt) by reflexivity.
    rewrite (bind_ok _ _ (with_self a2 s) (with_self a2 s) a2) by reflexivity.
    rewrite (bind_ok _ _ (with_self a2 s) s3 response).
    2:{ unfold Adapter.send. rewrite <- Hsend. reflexivity. }
    rewrite (bind_ok _ _ s3 s3 (spreadsheet_value timeZone sheets))
      by (unfold Adapter.json, Adapter.lift; now rewrite Hbody).
    rewrite (bind_ok _ _ s3 s3 tt) by reflexivity.
    rewrite (bind_ok _ _ s3 s3 timezone)
      by (unfold Adapter.lift, spreadsheet_value;
          cbn [Py.getitem Dict.get String.eqb Ascii.eqb Bool.eqb mbind res_bind];
          now rewrite Hgettz).
    rewrite (bind_ok _ _ s3 s4 tt) by reflexivity.
    rewrite (bind_ok _ _ s4 s4 (List.map sheet_value sheets)) by reflexivity.
    rewrite (bind_ok _ _ s4 s4 (VStr <$> title_of sheet_id sheets))
      by (unfold Adapter.lift; now rewrite sheet_title_sheets).
    now destruct (title_of sheet_id sheets). }
  cbv zeta. rewrite Hrun.
  destruct (title_of sheet_id sheets); repeat split.
Qed.

(** *** What _set_metadata assigns *)

Lemma metadata_step_refl (s : state) : metadata_step s s.
Proof. repeat split. Qed.

Lemma metadata_step_trans (s1 s2 s3 : state) :
  metadata_step s1 s2 -> metadata_step s2 s3 -> metadata_step s1 s3.
Proof.
  unfold metadata_step.
  intros (-> & -> & -> & -> & -> & ->) (-> & -> & -> & -> & -> & ->).
  repeat split.
Qed.

Lemma metadata_only_bind {A B : Type} (m : Adapter.M tzinfo A)
    (f : A -> Adapter.M tzinfo B) :
  metadata_only m -> (forall a, metadata_only (f a)) -> metadata_only (m ≫= f).
Proof.
  intros Hm Hf s. unfold mbind, Adapter.M_bind.
  specialize (Hm s). destruct (m s) as [[a|e] s1]; cbn [snd] in *; [| exact Hm].
  eapply metadata_step_trans; [exact Hm | apply Hf].
Qed.

Lemma metadata_only_keeps {A : Type} (m : Adapter.M tzinfo A) :
  keeps m -> metadata_only m.
Proof.
  intros Hm s. destruct (Hm s) as [Hself Hheap].
  unfold metadata_step. rewrite Hself, Hheap. repeat split.
Qed.

Lemma metadata_only_set_spreadsheet_id (x : option string) :
  metadata_only (Adapter.update_self tzinfo (Constructor.set_spreadsheet_id tzinfo x)).
Proof. intros s. repeat split. Qed.

Lemma metadata_only_set_sheet_id (x : option Z) :
  metadata_only (Adapter.update_self tzinfo (Constructor.set_sheet_id tzinfo x)).
Proof. intros s. repeat split. Qed.

Lemma metadata_only_set_sheet_name (x : option string) :
  metadata_only (Adapter.update_self tzinfo (Constructor.set_sheet_name tzinfo x)).
Proof. intros s. repeat split. Qed.

Lemma metadata_only_set_timezone (x : option tzinfo) :
  metadata_only (Adapter.update_self tzinfo (Constructor.set_timezone tzinfo x)).
Proof. intros s. repeat split. Qed.

(** _set_metadata assigns nothing but the metadata, whatever happens. *)
Lemma set_metadata_frame (credentials : option Credentials) (uri : string) :
  metadata_only (_set_metadata credentials uri).
Proof.
  unfold Constructor._set_metadata.
  repeat first
    [ apply metadata_only_set_spreadsheet_id | apply metadata_only_set_sheet_id
    | apply metadata_only_set_sheet_name | apply metadata_only_set_timezone
    | apply metadata_only_keeps;
      first [ apply keeps_lift | apply keeps_ret | apply keeps_raise
            | apply keeps_get_self | apply keeps_send | apply keeps_json
            | apply keeps_check_error ]
    | apply metadata_only_bind; [| intros ?]
    | match goal with
      | |- metadata_only (match ?x with _ => _ end) => destruct x
      end ].
Qed.

(** What _set_metadata has done when it returns without credentials. *)
Lemma set_metadata_anonymous_inv (uri : string) (s s' : state) :
  _set_metadata None uri s = (Ok tt, s') ->
  exists spreadsheet_id sheet_id,
    s' = with_self (Constructor.set_sheet_id tzinfo (Some sheet_id)
                      (Constructor.set_spreadsheet_id tzinfo (Some spreadsheet_id)
                         (self s))) s.
Proof.
  unfold Constructor._set_metadata. intros H.
  apply bind_inv in H as (parts & s0 & [_ ->]%lift_inv & H).
  apply bind_inv in H as (spreadsheet_id & s0 & [_ ->]%lift_inv & H).
  apply bind_inv in H as ([] & s1 & [= <-] & H).
  apply bind_inv in H as (qs & s0 & [_ ->]%lift_inv & H).
  apply bind_inv in H as (sheet_id & s0 & [_ ->]%lift_inv & H).
  apply bind_inv in H as ([] & s2 & [= <-] & H).
  injection H as <-. now exists spreadsheet_id, sheet_id.
Qed.

(** What the constructor has done when it returns. *)
Lemma init_inv (uri : string) (access_token service_account_file : option string)
    (service_account_info : option dict) (subject : option string)
    (s s' : state) (credentials : option Credentials) :
  __init__ uri access_token service_account_file service_account_info subject s
  = (Ok credentials, s') ->
  exists url s7 s9,
    let a6 :=
      Constructor.set_timezone tzinfo None
        (Constructor.set_sheet_name tzinfo None
           (Constructor.set_sheet_id tzinfo None
              (Constructor.set_spreadsheet_id tzinfo None
                 (Adapter.set_offset tzinfo 0
                    (Constructor.set_url tzinfo url (self s)))))) in
    Url.get_url urllib uri 0 0 None = Ok url
    /\ get_credentials access_token service_account_file service_account_info subject
       = Ok credentials
    /\ _set_metadata credentials uri (with_self a6 s) = (Ok tt, s7)
    /\ Adapter._set_columns tzinfo urllib (_get_session credentials)
         (with_self (Adapter.set_columns tzinfo [] (self s7)) s7) = (Ok tt, s9)
    /\ s' = with_self (Adapter.set_row_ids tzinfo ∅ (self s9)) s9.
Proof.
  unfold Constructor.__init__. intros H.
  apply bind_inv in H as (url & s0 & [Hurl ->]%lift_inv & H).
  apply bind_inv in H as ([] & s1 & [= <-] & H).
  apply bind_inv in H as (c & s0 & [Hc Hs0]%lift_inv & H). subst s0.
  apply bind_inv in H as ([] & s2 & [= <-] & H).
  apply bind_inv in H as ([] & s3 & [= <-] & H).
  apply bind_inv in H as ([] & s4 & [= <-] & H).
  apply bind_inv in H as ([] & s5 & [= <-] & H).
  apply bind_inv in H as ([] & s6 & [= <-] & H).
  apply bind_inv in H as ([] & s7 & Hmeta & H).
  apply bind_inv in H as ([] & s8 & [= <-] & H).
  apply bind_inv in H as ([] & s9 & Hcols & H).
  apply bind_inv in H as ([] & s10 & [= <-] & H).
  injection H as <- <-.
  exists url, s7, s9. cbv zeta. repeat split; assumption.
Qed.

(** *** __init__ *)

(** X24. What holds of an adapter once its constructor has returned,
    whatever the credentials and the answers of the provider. Its URL is the
    one get_url gives for the URL of the spreadsheet, and its credentials
    the ones get_credentials gives. It knows no row. The offset is 0 or 1.
    No column of the schema has the empty name, every name is there once,
    and every name is a key of the map from labels to provider identifiers.
    The constructor changes no row object. *)
Theorem init_invariants (uri : string) (access_token service_account_file : option string)
    (service_account_info : option dict) (subject : option string)
    (s s' : state) (credentials : option Credentials) :
  __init__ uri access_token service_account_file service_account_info subject s
  = (Ok credentials, s') ->
  get_credentials access_token service_account_file service_account_info subject
  = Ok credentials
  /\ Url.get_url urllib uri 0 0 None = Ok (Adapter.url tzinfo (self s'))
  /\ Adapter.row_ids tzinfo (self s') = ∅
  /\ (Adapter._offset tzinfo (self s') = 0 \/ Adapter._offset tzinfo (self s') = 1)
  /\ Dict.contains "" (Adapter.columns tzinfo (self s')) = false
  /\ List.NoDup (Dict.keys (Adapter.columns tzinfo (self s')))
  /\ (forall k, Dict.contains k (Adapter.columns tzinfo (self s')) = true ->
        Dict.contains k (Adapter._column_map tzinfo (self s')) = true)
  /\ heap s' = heap s.
Proof.
  intros H. apply init_inv in H as (url & s7 & s9 & Hurl & Hc & Hmeta & Hcols & ->).
  cbv zeta in Hmeta.
  match type of Hmeta with
  | _ _ _ ?s6 = _ => pose proof (set_metadata_frame credentials uri s6) as Hframe
  end.
  rewrite Hmeta in Hframe. cbn [snd] in Hframe.
  destruct Hframe as (Hheap & Hurl7 & Hoffset7 & _).
  apply set_columns_inv in Hcols as (a1 & cols & cm & cs & Ha1 & Hcm & Hcs & ->).
  destruct (schema_of_inv _ _ _ _ Hcm Hcs) as (Hblank & Hnodup & Hmap & _).
  cbn in Hheap, Hurl7, Hoffset7 |- *.
  split; [exact Hc |].
  split; [destruct Ha1 as [-> | ->]; cbn; now rewrite Hurl7 |].
  split; [reflexivity |].
  split; [destruct Ha1 as [-> | ->]; cbn; [left; exact Hoffset7 | now right] |].
  repeat split; assumption.
Qed.

(** X25. The adapter made without credentials. When the access
    token, the file of the service account and its description are all
    missing or empty and the constructor returns, the adapter has no
    credentials; the constructor has sent exactly one request, the probe of
    the schema, through a plain session, and has not asked for the metadata
    of the document. So the adapter has a spreadsheet id but neither the
    name of the sheet nor a time zone, and the request that insert_data
    sends for it is addressed to the range named [None]. *)
Theorem init_anonymous (uri : string) (access_token service_account_file : option string)
    (service_account_info : option dict) (subject : option string)
    (s s' : state) (credentials : option Credentials) :
  Py.truthy (opt_value VStr access_token) = false ->
  Py.truthy (opt_value VStr service_account_file) = false ->
  Py.truthy (opt_value VDict service_account_info) = false ->
  __init__ uri access_token service_account_file service_account_info subject s
  = (Ok credentials, s') ->
  credentials = None
  /\ log s' = log s ++ [query_request urllib (self s') probe]
  /\ (exists response,
        Session (log s) (query_request urllib (self s') probe) = Ok response
        /\ status_code response = 200)
  /\ Adapter._sheet_name tzinfo (self s') = None
  /\ Adapter._timezone tzinfo (self s') = None
  /\ exists spreadsheet_id,
       Adapter._spreadsheet_id tzinfo (self s') = Some spreadsheet_id
       /\ forall values,
            req_url (append_request (self s') values)
            = "https://sheets.googleapis.com/v4/spreadsheets/" +:+ spreadsheet_id
              +:+ "/values/None:append".
Proof.
  intros Htoken Hfile Hinfo H.
  apply init_inv in H as (url & s7 & s9 & Hurl & Hc & Hmeta & Hcols & ->).
  assert (credentials = None) as ->.
  { unfold Constructor.get_credentials in Hc.
    destruct access_token as [[|? ?]|], service_account_file as [[|? ?]|],
      service_account_info as [[|? ?]|]; cbn in *;
      congruence. }
  split; [reflexivity |].
  cbv zeta in Hmeta.
  apply set_metadata_anonymous_inv in Hmeta as (spreadsheet_id & sheet_id & Hs7).
  remember (with_self (Adapter.set_columns tzinfo [] (self s7)) s7) as s8 eqn:Hs8.
  assert (log s8 = log s
          /\ Adapter._sheet_name tzinfo (self s8) = None
          /\ Adapter._timezone tzinfo (self s8) = None
          /\ Adapter._spreadsheet_id tzinfo (self s8) = Some spreadsheet_id)
    as (Hlog & Hname & Htz & Hid) by (subst s8 s7; repeat split; reflexivity).
  clear Hs8 Hs7 s7.
  pose proof Hcols as Hquery. unfold Adapter._set_columns in Hquery.
  apply bind_inv in Hquery as (results & s1 & Hquery & _).
  apply run_query_inv in Hquery as (response & status & Hsend & Hcode & _).
  apply set_columns_inv in Hcols as (a1 & cols & cm & cs & Ha1 & _ & _ & ->).
  cbn [Constructor._get_session] in Hsend. rewrite Hlog in Hsend.
  assert (forall a, Adapter.url tzinfo a = Adapter.url tzinfo (self s8) ->
                    query_request urllib a probe = query_request urllib (self s8) probe)
    as Hrequest by (intros a Ha; unfold query_request; now rewrite Ha).
  unfold with_self.
  cbn [Adapter.self Adapter.heap Adapter.next_loc Adapter.log].
  rewrite (Hrequest (Adapter.set_row_ids tzinfo ∅ _))
    by (destruct Ha1 as [-> | ->]; reflexivity).
  rewrite Hlog.
  split; [reflexivity |].
  split; [now exists response |].
  split; [destruct Ha1 as [-> | ->]; exact Hname |].
  split; [destruct Ha1 as [-> | ->]; exact Htz |].
  exists spreadsheet_id.
  split; [destruct Ha1 as [-> | ->]; exact Hid |].
  intros values. unfold append_request. cbn [req_url].
  replace (Adapter._spreadsheet_id tzinfo _) with (Some spreadsheet_id)
    by (destruct Ha1 as [-> | ->]; symmetry; exact Hid).
  replace (Adapter._sheet_name tzinfo _) with (@None string)
    by (destruct Ha1 as [-> | ->]; symmetry; exact Hname).
  reflexivity.
Qed.

End ConstructorFacts.
(** ** The further properties in the closed world *)

Lemma get_field_by_type_witness :
  (∃ f : Adapter.Field (),
     Adapter.get_field () (VDict Cases.money_column) (Some ()) = Ok f
     ∧ Adapter.order () f = ANY
       ∧ Adapter.exact () f = true
         ∧ Adapter.filters () f =
           [if Urllib.in_list "money" range_types then Range else Equal]
           ∧ (¬ In "money" known_types → Adapter.field () f = Adapter.StringField ())
             ∧ ("money" = "datetime"
                → Adapter.field () f = Adapter.GSheetsDateTime () (Some ())))
  ∧ Adapter.get_field () (VDict Cases.untyped_column) (Some ()) =
    Raise (KeyError (VStr "type")).
Proof.
  exact (get_field_by_type (tzinfo:=unit) Cases.money_column Cases.untyped_column
    "money" (Some tt) eq_refl eq_refl).
Defined.

Lemma run_query_fails_witness :
  (status_code Cases.failed_response ≠ 200
   → (Adapter._run_query () Urllib.cpython (scripted [Ok Cases.failed_response])
        "SELECT *" (World.start World.sheet)).1 =
     Raise (ProgrammingError [Lit (text Cases.failed_response)]))
  ∧ (status_code Cases.failed_response = 200
     → body Cases.failed_response = None
       → (Adapter._run_query () Urllib.cpython (scripted [Ok Cases.failed_response])
            "SELECT *" (World.start World.sheet)).1 =
         Raise
           (if Str.startswith JSON_PAYLOAD_PREFIX (text Cases.failed_response)
            then JSONDecodeError
            else ProgrammingError [Lit not_json_message]))
    ∧ ∀ errors : list QueryResultsError,
        status_code Cases.failed_response = 200
        → body Cases.failed_response = Some (failed_results errors)
          → (Adapter._run_query () Urllib.cpython
               (scripted [Ok Cases.failed_response]) "SELECT *"
               (World.start World.sheet)).1 =
            Raise
              (ProgrammingError
                 [Lit (Str.join (nl +:+ nl) (map detailed_message errors))]).
Proof.
  exact (run_query_fails (tzinfo:=unit) Urllib.cpython (scripted [Ok
    Cases.failed_response]) "SELECT *" (World.start World.sheet) Cases.failed_response
    eq_refl).
Defined.

Lemma set_columns_schema_witness :
  let a' :=
    Adapter.self ()
      (Adapter._set_columns () Urllib.cpython (scripted [World.answer World.sparse])
         (World.start World.fresh)).2
    in
  (Adapter._offset () a' =
   Adapter._offset () (Adapter.self () (World.start World.fresh))
   ∨ Adapter._offset () a' = 1)
  ∧ Dict.contains "" (Adapter.columns () a') = false
    ∧ List.NoDup (Dict.keys (Adapter.columns () a'))
      ∧ (∀ k : string,
           Dict.contains k (Adapter.columns () a') = true
           → Dict.contains k (Adapter._column_map () a') = true)
        ∧ ∀ (k : string) (f : Adapter.Field ()),
            Dict.get k (Adapter.columns () a') = Some f
            → Adapter.exact () f = true
              ∧ Adapter.order () f = ANY
                ∧ (Adapter.filters () f = [Equal] ∨ Adapter.filters () f = [Range]).
Proof.
  exact (set_columns_schema (tzinfo:=unit) Urllib.cpython (scripted [World.answer
    World.sparse]) (World.start World.fresh) eq_refl).
Defined.

Lemma get_data_leaves_witness :
  [4%nat] = seq (Adapter.next_loc () World.three_rows) (length [4%nat])
  ∧ only_rows (Adapter.self () World.three_rows) (Adapter.self () Cases.fetched_again)
    ∧ (∀ z : Z,
         z < 0 ∨ Z.of_nat (length [4%nat]) ≤ z
         → Adapter.row_ids () (Adapter.self () Cases.fetched_again) !! z =
           Adapter.row_ids () (Adapter.self () World.three_rows) !! z)
      ∧ ∀ l : loc,
          (l < Adapter.next_loc () World.three_rows)%nat
          → Adapter.heap () Cases.fetched_again !! l =
            Adapter.heap () World.three_rows !! l.
Proof.
  exact (get_data_leaves (tzinfo:=unit) Urllib.cpython (scripted [World.answer
    World.countries]) Translator.Filter Translator.RequestedOrder World.build_sql [] []
    World.three_rows Cases.fetched_again [4%nat] eq_refl).
Defined.

Lemma get_data_fails_witness :
  same_objects World.three_rows
    (Adapter.get_data () Urllib.cpython (scripted []) Translator.Filter
       Translator.RequestedOrder World.build_sql [] [] World.three_rows).2.
Proof.
  exact (get_data_fails (tzinfo:=unit) Urllib.cpython (scripted []) Translator.Filter
    Translator.RequestedOrder World.build_sql [] [] World.three_rows (TransportError
    "no answer") eq_refl).
Defined.

Lemma get_data_rows_witness :
  (Adapter.get_data () Urllib.cpython (scripted [World.answer World.countries])
     Translator.Filter Translator.RequestedOrder World.build_sql [] []
     (World.start World.sheet)).1 =
  Ok
    (seq (Adapter.next_loc () (World.start World.sheet))
       (length (table_rows World.countries)))
  ∧ ∀ (i : nat) (row : QueryResultsRow),
      table_rows World.countries !! i = Some row
      → ∃ d : odict value,
          Adapter.heap ()
            (Adapter.get_data () Urllib.cpython
               (scripted [World.answer World.countries]) Translator.Filter
               Translator.RequestedOrder World.build_sql [] []
               (World.start World.sheet)).2
          !! (Adapter.next_loc () (World.start World.sheet) + i)%nat = 
          Some d
          ∧ Adapter.row_ids ()
              (Adapter.self ()
                 (Adapter.get_data () Urllib.cpython
                    (scripted [World.answer World.countries]) Translator.Filter
                    Translator.RequestedOrder World.build_sql [] []
                    (World.start World.sheet)).2)
            !! Z.of_nat i =
            Some (Adapter.next_loc () (World.start World.sheet) + i)%nat
            ∧ Dict.get "rowid" d = Some (VInt (Z.of_nat i))
              ∧ (∀ (j : nat) (name : string) (cell : option QueryResultsCell),
                   Dict.keys
                     (Adapter.columns () (Adapter.self () (World.start World.sheet)))
                   !! j = Some name
                   → row_c row !! j = Some cell
                     → name ≠ "rowid" → Dict.get name d = Some (cell_object cell))
                ∧ ∀ k : string,
                    Dict.contains k d = true
                    → k = "rowid"
                      ∨ ∃ j : nat,
                          Dict.keys
                            (Adapter.columns ()
                               (Adapter.self () (World.start World.sheet)))
                          !! j = Some k ∧ (j < length (row_c row))%nat.
Proof.
  exact (get_data_rows (tzinfo:=unit) Urllib.cpython (scripted [World.answer
    World.countries]) Translator.Filter Translator.RequestedOrder World.build_sql [] []
    "SELECT *" World.countries (World.start World.sheet) eq_refl eq_refl ltac:(repeat
    constructor; cbn; intuition discriminate)).
Defined.

Lemma insert_data_explicit_id_witness :
  Adapter.row_ids ()
    (Adapter.self ()
       (Adapter.insert_data () (scripted [World.done_answer]) 1%nat (Cases.one_row 0)).2) =
  <[0:=1%nat]> (Adapter.row_ids () (Adapter.self () (Cases.one_row 0)))
  ∧ Adapter.heap ()
      (Adapter.insert_data () (scripted [World.done_answer]) 1%nat (Cases.one_row 0)).2 =
    <[1%nat:=Dict.remove "rowid"
               [("country", VStr "FR"); ("cnt", VInt 4); ("rowid", VInt 0)]]>
      (Adapter.heap () (Cases.one_row 0))
    ∧ ∀ id : Z,
        (Adapter.insert_data () (scripted [World.done_answer]) 1%nat (Cases.one_row 0)).1 =
        Ok id → id = 0.
Proof.
  exact (insert_data_explicit_id (tzinfo:=unit) (scripted [World.done_answer]) 1%nat
    [("country", VStr "FR"); ("cnt", VInt 4); ("rowid", VInt 0)] 0 (Cases.one_row 0)
    eq_refl eq_refl).
Defined.

Lemma insert_data_incomplete_witness :
  (Dict.get "rowid" Cases.BR = None
   → Adapter.insert_data () (scripted []) 0%nat World.three_rows =
     (Raise (KeyError (VStr "rowid")), World.three_rows))
  ∧ ∀ (v : value) (e : exn),
      Dict.get "rowid" Cases.BR = Some v
      → v = VNone ∨ (∃ n : Z, v = VInt n)
        → values_of (Adapter.self () World.three_rows) (Dict.remove "rowid" Cases.BR) =
          Raise e
          → (Adapter.insert_data () (scripted []) 0%nat World.three_rows).1 = Raise e
            ∧ Adapter.log ()
                (Adapter.insert_data () (scripted []) 0%nat World.three_rows).2 =
              Adapter.log () World.three_rows
              ∧ Adapter.heap ()
                  (Adapter.insert_data () (scripted []) 0%nat World.three_rows).2 =
                <[0%nat:=Dict.remove "rowid" Cases.BR]>
                  (Adapter.heap () World.three_rows)
                ∧ ∃ id : Z,
                    Adapter.row_ids ()
                      (Adapter.self ()
                         (Adapter.insert_data () (scripted []) 0%nat World.three_rows).2) =
                    <[id:=0%nat]>
                      (Adapter.row_ids () (Adapter.self () World.three_rows)).
Proof.
  exact (insert_data_incomplete (tzinfo:=unit) (scripted []) 0%nat Cases.BR
    World.three_rows eq_refl).
Defined.

(** The provider answers the request that appends the row with a JSON text
    without error: insert_data returns. *)
Lemma insert_data_request_witness :
  let s := World.three_rows in
  let session := scripted [World.done_answer] in
  let req := append_request (Adapter.self unit s) [VStr "FR"; VInt 4] in
  accepted (session (Adapter.log unit s) req)
  /\ Adapter.log unit (snd (Adapter.insert_data unit session 3%nat s))
     = Adapter.log unit s ++ [req]
  /\ (exists id, fst (Adapter.insert_data unit session 3%nat s) = Ok id)
  /\ (exists id,
        Adapter.row_ids unit (Adapter.self unit (snd (Adapter.insert_data unit session 3%nat s)))
        = <[id := 3%nat]> (Adapter.row_ids unit (Adapter.self unit s))).
Proof.
  destruct (insert_data_request (tzinfo:=unit) (scripted [World.done_answer]) 3%nat
              [("country", VStr "FR"); ("cnt", VInt 4); ("rowid", VNone)] VNone
              [VStr "FR"; VInt 4] World.three_rows
              eq_refl eq_refl (or_introl eq_refl) eq_refl)
    as (Hlog & Hiff & Hids).
  assert (accepted
            (scripted [World.done_answer] (Adapter.log unit World.three_rows)
               (append_request (Adapter.self unit World.three_rows)
                  [VStr "FR"; VInt 4]))) as Hacc.
  { eexists. eexists. split; [reflexivity |]. split; reflexivity. }
  split; [exact Hacc |]. split; [exact Hlog |].
  split; [exact (proj2 Hiff Hacc) | exact Hids].
Defined.

(** The row known by the identifier 0 is located at the row number 2, the
    provider accepts the request that writes the new row there, and the new
    row carries the identifier 7: update_data returns. *)
Lemma update_data_request_witness :
  let s := Cases.one_row 7 in
  let session := scripted Cases.goes_through in
  let req := update_request (Adapter.self unit s) 2 [VStr "FR"; VInt 4] in
  accepted (session (Adapter.log unit (Cases.located s)) req)
  /\ Adapter.log unit (snd (Adapter.update_data unit session 0 1%nat s))
     = Adapter.log unit (Cases.located s) ++ [req]
  /\ req_url req = "https://sheets.googleapis.com/v4/spreadsheets/1/values/Sheet1!A3"
  /\ fst (Adapter.update_data unit session 0 1%nat s) = Ok tt.
Proof.
  destruct (update_data_request (tzinfo:=unit) (scripted Cases.goes_through) 0 1%nat
              0%nat 2 [("country", VStr "FR"); ("cnt", VInt 4); ("rowid", VInt 7)]
              [VStr "FR"; VInt 4] (Cases.one_row 7) (Cases.located (Cases.one_row 7))
              eq_refl eq_refl eq_refl eq_refl)
    as (Hlog & _ & Hreturns).
  assert (accepted
            (scripted Cases.goes_through
               (Adapter.log unit (Cases.located (Cases.one_row 7)))
               (update_request (Adapter.self unit (Cases.one_row 7)) 2
                  [VStr "FR"; VInt 4]))) as Hacc.
  { eexists. eexists. split; [reflexivity |]. split; reflexivity. }
  split; [exact Hacc |]. split; [exact Hlog |]. split; [reflexivity |].
  exact (proj1 (Hreturns Hacc) 7 eq_refl).
Defined.

(** The row known by the identifier 0 is located at the row number 2 and
    the provider accepts the request that deletes it: delete_data returns
    and the identifier is gone. *)
Lemma delete_data_request_witness :
  let s := World.three_rows in
  let session := scripted Cases.goes_through in
  let req := delete_request (Adapter.self unit s) 2 in
  accepted (session (Adapter.log unit (Cases.located s)) req)
  /\ Adapter.log unit (snd (Adapter.delete_data unit session 0 s))
     = Adapter.log unit (Cases.located s) ++ [req]
  /\ Adapter.heap unit (snd (Adapter.delete_data unit session 0 s)) = Adapter.heap unit s
  /\ fst (Adapter.delete_data unit session 0 s) = Ok tt
  /\ Adapter.row_ids unit (Adapter.self unit (snd (Adapter.delete_data unit session 0 s)))
       !! 0 = None.
Proof.
  destruct (delete_data_request (tzinfo:=unit) (scripted Cases.goes_through) 0 0%nat 2
              World.three_rows (Cases.located World.three_rows) eq_refl eq_refl)
    as (Hlog & Hheap & Hiff & Hgone).
  assert (accepted
            (scripted Cases.goes_through
               (Adapter.log unit (Cases.located World.three_rows))
               (delete_request (Adapter.self unit World.three_rows) 2))) as Hacc.
  { eexists. eexists. split; [reflexivity |]. split; reflexivity. }
  split; [exact Hacc |]. split; [exact Hlog |]. split; [exact Hheap |].
  split; [exact (proj2 Hiff Hacc) | exact (Hgone (proj2 Hiff Hacc))].
Defined.

Lemma delete_data_twice_witness :
  let s' :=
    (Adapter.delete_data () (scripted Cases.goes_through) 0 World.three_rows).2 in
  Adapter.delete_data () (scripted Cases.goes_through) 0 s' =
  (Raise (ProgrammingError [Lit ("Invalid row to delete: " +:+ Py.str_int 0)]), s')
  ∧ Adapter.update_data () (scripted Cases.goes_through) 0 3%nat s' =
    (Raise (ProgrammingError [Lit ("Invalid row to update: " +:+ Py.str_int 0)]), s').
Proof.
  exact (delete_data_twice (tzinfo:=unit) (scripted Cases.goes_through) 0 3%nat
    World.three_rows eq_refl).
Defined.

(** The provider answers the request for the values with an error, and
    its message is raised; an answer in the text of the query endpoint is
    not decoded; a row of the caller that lacks a column is not looked
    for. *)
Lemma find_row_number_fails_witness :
  let s := World.three_rows in
  fst (Adapter._find_row_number unit (scripted [World.error_answer "denied"]) 0%nat s)
  = Raise (ProgrammingError [Lit "denied"])
  /\ (forall session e, values_of (Adapter.self unit s) Cases.BR = Raise e ->
        Adapter._find_row_number unit session 0%nat s = (Raise e, s))
  /\ fst (Adapter._find_row_number unit (scripted [World.answer World.countries]) 0%nat s)
     = Raise JSONDecodeError.
Proof.
  split; [| split].
  - destruct (find_row_number_fails (tzinfo:=unit) (scripted [World.error_answer "denied"])
                0%nat Cases.BR World.three_rows eq_refl)
      as (_ & _ & Hanswer).
    exact (proj1 (Hanswer [VStr "BR"; VInt 1]
                    (plain_response (VDict [("error", VDict [("code", VInt 400);
                                                             ("message", VStr "denied")])]))
                    [("error", VDict [("code", VInt 400); ("message", VStr "denied")])]
                    eq_refl eq_refl eq_refl)
             (VDict [("code", VInt 400); ("message", VStr "denied")]) (VStr "denied")
             eq_refl eq_refl).
  - intros session.
    exact (proj1 (find_row_number_fails (tzinfo:=unit) session 0%nat Cases.BR
                    World.three_rows eq_refl)).
  - destruct (find_row_number_fails (tzinfo:=unit) (scripted [World.answer World.countries])
                0%nat Cases.BR World.three_rows eq_refl)
      as (_ & Hdecode & _).
    exact (Hdecode [VStr "BR"; VInt 1] (json_response (results_value World.countries))
             eq_refl eq_refl (or_introl eq_refl)).
Defined.

Lemma supports_without_id_witness :
  Constructor.supports Urllib.cpython Cases.no_id = Ok true
  ∧ Constructor._set_metadata () Urllib.cpython Office.Credentials 
      (Office.google []) (scripted []) Office.gettz None Cases.no_id
      (World.start Office.blank) =
    (Raise IndexError, World.start Office.blank).
Proof.
  exact (supports_without_id (tzinfo:=unit) Urllib.cpython (Office.google []) (scripted
    []) Office.gettz None Cases.no_id Cases.no_id_parts "x" (World.start Office.blank)
    eq_refl eq_refl eq_refl eq_refl).
Defined.

Lemma sheet_id_precedence_witness :
  Url.get_url Urllib.cpython Cases.two_gids 0 0 None =
  Ok
    (Url.urlunparse Urllib.cpython (Some (Url.scheme Cases.two_gids_parts))
       (Some (Url.netloc Cases.two_gids_parts))
       (Some (endpoint_path (Url.path Cases.two_gids_parts))) None 
       (Some "gid=2") None)
  ∧ Dict.get "gid" (endpoint_args 0 2 None) = Some (VInt 2)
    ∧ Constructor._set_metadata () Urllib.cpython Office.Credentials
        (Office.google []) (scripted []) Office.gettz None Cases.two_gids
        (World.start Office.blank) =
      (Ok (),
       with_self
         (Constructor.set_sheet_id () (Some 1)
            (Constructor.set_spreadsheet_id () (Some "ID")
               (Adapter.self () (World.start Office.blank))))
         (World.start Office.blank)).
Proof.
  exact (sheet_id_precedence (tzinfo:=unit) Urllib.cpython (Office.google []) (scripted
    []) Office.gettz Cases.two_gids Cases.two_gids_parts [("gid", ["1"])] "ID" 0 1 2
    "gid=2" (World.start Office.blank) eq_refl eq_refl eq_refl eq_refl eq_refl eq_refl
    eq_refl eq_refl eq_refl eq_refl).
Defined.

Lemma set_metadata_authorized_witness :
  let r :=
    Constructor._set_metadata () Urllib.cpython Office.Credentials
      (Office.google [Office.metadata_answer]) (scripted []) Office.gettz
      (Some (Office.Token "secret")) Cases.sheet_7 (World.start Office.blank)
    in
  r.1 = Ok ()
  ∧ Adapter.log () r.2 =
    Adapter.log () (World.start Office.blank) ++ [metadata_request "ID"]
    ∧ Adapter.heap () r.2 = Adapter.heap () (World.start Office.blank)
      ∧ Adapter._spreadsheet_id () (Adapter.self () r.2) = Some "ID"
        ∧ Adapter._sheet_id () (Adapter.self () r.2) = Some 7
          ∧ Adapter._timezone () (Adapter.self () r.2) = Some ()
            ∧ Adapter._sheet_name () (Adapter.self () r.2) =
              match title_of 7 Cases.sheets with
              | Some title => Some title
              | None =>
                  Adapter._sheet_name () (Adapter.self () (World.start Office.blank))
              end.
Proof.
  exact (set_metadata_authorized (tzinfo:=unit) Urllib.cpython (Office.google
    [Office.metadata_answer]) (scripted []) Office.gettz (Office.Token "secret")
    Cases.sheet_7 Cases.sheet_7_parts "ID" [] 7 (plain_response (spreadsheet_value "UTC"
    Cases.sheets)) "UTC" Cases.sheets (Some tt) (World.start Office.blank) eq_refl
    eq_refl eq_refl eq_refl eq_refl eq_refl eq_refl).
Defined.

Lemma init_invariants_witness :
  Constructor.get_credentials Office.Credentials
    (Office.google [Office.metadata_answer; World.answer World.countries])
    (Some "secret") None None None =
  Ok (Some (Office.Token "secret"))
  ∧ Url.get_url Urllib.cpython Cases.sheet_7 0 0 None =
    Ok (Adapter.url () (Adapter.self () Cases.authorized))
    ∧ Adapter.row_ids () (Adapter.self () Cases.authorized) = ∅
      ∧ (Adapter._offset () (Adapter.self () Cases.authorized) = 0
         ∨ Adapter._offset () (Adapter.self () Cases.authorized) = 1)
        ∧ Dict.contains "" (Adapter.columns () (Adapter.self () Cases.authorized)) =
          false
          ∧ List.NoDup
              (Dict.keys (Adapter.columns () (Adapter.self () Cases.authorized)))
            ∧ (∀ k : string,
                 Dict.contains k
                   (Adapter.columns () (Adapter.self () Cases.authorized)) =
                 true
                 → Dict.contains k
                     (Adapter._column_map () (Adapter.self () Cases.authorized)) =
                   true)
              ∧ Adapter.heap () Cases.authorized =
                Adapter.heap () (World.start Office.blank).
Proof.
  exact (init_invariants (tzinfo:=unit) Urllib.cpython (Office.google
    [Office.metadata_answer; World.answer World.countries]) (scripted []) Office.gettz
    Cases.sheet_7 (Some "secret") None None None (World.start Office.blank)
    Cases.authorized (Some (Office.Token "secret")) ltac:(vm_compute; reflexivity)).
Defined.

Lemma init_anonymous_witness :
  (None : option Office.Credentials) = None
  ∧ Adapter.log () Cases.anonymous =
    Adapter.log () (World.start Office.blank) ++
    [query_request Urllib.cpython (Adapter.self () Cases.anonymous) probe]
    ∧ (∃ response : Response,
         scripted [World.answer World.countries]
           (Adapter.log () (World.start Office.blank))
           (query_request Urllib.cpython (Adapter.self () Cases.anonymous) probe) =
         Ok response ∧ status_code response = 200)
      ∧ Adapter._sheet_name () (Adapter.self () Cases.anonymous) = None
        ∧ Adapter._timezone () (Adapter.self () Cases.anonymous) = None
          ∧ ∃ spreadsheet_id : string,
              Adapter._spreadsheet_id () (Adapter.self () Cases.anonymous) =
              Some spreadsheet_id
              ∧ ∀ values : list value,
                  req_url (append_request (Adapter.self () Cases.anonymous) values) =
                  "https://sheets.googleapis.com/v4/spreadsheets/" +:+
                  spreadsheet_id +:+ "/values/None:append".
Proof.
  exact (init_anonymous (tzinfo:=unit) Urllib.cpython (Office.google []) (scripted
    [World.answer World.countries]) Office.gettz Cases.two_gids None (Some "") None None
    (World.start Office.blank) Cases.anonymous None eq_refl eq_refl eq_refl
    ltac:(vm_compute; reflexivity)).
Defined.
